(** * Telemetry gateway of the forest-fire detection system

    A shallow embedding of [src/random_forest_model/data_pipeline.py]:
    the calibration helper [map_value], the status rule, the persistence
    helper [save_to_database], the MQTT callbacks [on_message] and
    [on_connect], the message loop and the script around it; and of the
    views of [src/web_app/app.py] (module [WebApp]).

    Conventions of the embedding.
    - A decoded JSON integer is a [VInt], a decoded JSON real a
      [VFloat] that holds a binary64 float ([spec_float] of the
      Standard Library, with 53 bits of precision).  The expression of
      [map_value] is embedded twice: [py_map_value] evaluates it in the
      arithmetic of Python (integers exact, everything else in binary64
      with its rounding, its infinities and its exceptions) and is what
      the callback runs; [map_value] gives the exact value of the
      expression over the rationals, the reading of the specification.
      The probabilities of the classifier are carried by their values.
    - A Python exception is a value of [exn]; a computation that may
      raise returns a [result].
    - The process interacts with its surroundings by printing, by
      calling the classifier and by talking to MySQL.  Each interaction
      appends an [event] to the [world], which is threaded through the
      code by the monad [M].
    - The JSON decoder, the classifier artifact and the database server
      are collaborators of the program, not code of this repository;
      they are parameters ([library], and the [db] field of a
      [delivery]). *)

From Stdlib Require Import ZArith QArith Qabs Lqa Lia List String Bool.
From Stdlib.Strings Require Import Byte.
From Stdlib Require Import SpecFloat Qpower.
Import ListNotations.

Local Open Scope Q_scope.
Set Warnings "-register-all".

(** ** Exceptions and results *)

(** The exception classes that the gateway can meet.  [MySQLError]
    stands for [mysql.connector.Error] and its subclasses,
    [OtherException] for any other subclass of [Exception], and
    [BaseExceptionOnly] for the classes that derive from
    [BaseException] but not from [Exception] ([KeyboardInterrupt],
    [SystemExit]). *)
Inductive exn : Type :=
| UnicodeDecodeError
| JSONDecodeError
| AttributeError
| TypeError
| ZeroDivisionError
| OverflowError
| UnicodeEncodeError
| IndexError
| MySQLError (msg : string)
| OtherException (name : string)
| BaseExceptionOnly (name : string).

(** [isinstance(e, Exception)] *)
Definition is_Exception (e : exn) : bool :=
  match e with
  | BaseExceptionOnly _ => false
  | _ => true
  end.

(** [isinstance(e, mysql.connector.Error)] *)
Definition is_mysql_Error (e : exn) : bool :=
  match e with
  | MySQLError _ => true
  | _ => false
  end.

Inductive result (A : Type) : Type :=
| Ok (a : A)
| Raise (e : exn).
Arguments Ok {A} a.
Arguments Raise {A} e.

Definition rbind {A B} (r : result A) (f : A -> result B) : result B :=
  match r with
  | Ok a => f a
  | Raise e => Raise e
  end.

Notation "x <-? r ;; k" := (rbind r (fun x => k))
  (at level 61, r at next level, right associativity).

(** ** Python values, as [json.loads] produces them *)

Inductive value : Type :=
| VNone
| VBool (b : bool)
| VInt (z : Z)
| VFloat (f : spec_float)
| VStr (s : string)
| VList (l : list value)
| VDict (d : list (string * value)).

(** [dict.get(key, default)] on an association list. *)
Fixpoint dict_get (d : list (string * value)) (key : string) (default : value)
  : value :=
  match d with
  | [] => default
  | (k, v) :: d' => if String.eqb k key then v else dict_get d' key default
  end.

Definition has_key (d : list (string * value)) (key : string) : bool :=
  existsb (fun kv => String.eqb (fst kv) key) d.

(** [data.get(key, default)]: only a [dict] has the method. *)
Definition py_get (data : value) (key : string) (default : value)
  : result value :=
  match data with
  | VDict d => Ok (dict_get d key default)
  | _ => Raise AttributeError
  end.

(** ** Calibration, over the rationals

    The expression of [map_value] read in exact arithmetic, as the
    specification reads it ("total over real inputs except
    [inMin == inMax]"): what the code computes up to the rounding of
    the floats.  The evaluation that Python performs is [py_map_value]
    below. *)




(** ** The arithmetic of Python

    A Python number is an [int] of any size or a [float], a binary64
    value ([spec_float] with 53 bits of precision and exponents up to
    1024).  Between two ints subtraction, multiplication and addition
    are exact and the true division is the quotient rounded to the
    nearest float; as soon as one operand is a float the int operand is
    converted and the operation is that of binary64.  A conversion or
    an int quotient beyond the range of the floats raises
    [OverflowError], a division by zero [ZeroDivisionError]; the float
    operations themselves overflow to an infinity without raising. *)

Inductive pynum : Type :=
| PInt (z : Z)
| PFloat (f : spec_float).

Definition float_of_int (z : Z) : result spec_float :=
  match binary_normalize 53 1024 z 0 false with
  | S754_infinity _ => Raise OverflowError
  | f => Ok f
  end.

Definition to_float (n : pynum) : result spec_float :=
  match n with
  | PInt z => float_of_int z
  | PFloat f => Ok f
  end.

Definition is_zero (f : spec_float) : bool :=
  match f with
  | S754_zero _ => true
  | _ => false
  end.

(** [x / y] for two ints. *)
Definition int_true_div (x y : Z) : result spec_float :=
  if (y =? 0)%Z then Raise ZeroDivisionError
  else if (x =? 0)%Z then Ok (S754_zero (y <? 0)%Z)
  else
    match SFdiv 53 1024
            (S754_finite (x <? 0)%Z (Z.to_pos (Z.abs x)) 0)
            (S754_finite (y <? 0)%Z (Z.to_pos (Z.abs y)) 0) with
    | S754_infinity _ => Raise OverflowError
    | f => Ok f
    end.

Definition py_sub (a b : pynum) : result pynum :=
  match a, b with
  | PInt x, PInt y => Ok (PInt (x - y))
  | _, _ =>
      fa <-? to_float a ;;
      fb <-? to_float b ;;
      Ok (PFloat (SFsub 53 1024 fa fb))
  end.

Definition py_mul (a b : pynum) : result pynum :=
  match a, b with
  | PInt x, PInt y => Ok (PInt (x * y))
  | _, _ =>
      fa <-? to_float a ;;
      fb <-? to_float b ;;
      Ok (PFloat (SFmul 53 1024 fa fb))
  end.

Definition py_add (a b : pynum) : result pynum :=
  match a, b with
  | PInt x, PInt y => Ok (PInt (x + y))
  | _, _ =>
      fa <-? to_float a ;;
      fb <-? to_float b ;;
      Ok (PFloat (SFadd 53 1024 fa fb))
  end.

Definition py_truediv (a b : pynum) : result pynum :=
  match a, b with
  | PInt x, PInt y => f <-? int_true_div x y ;; Ok (PFloat f)
  | _, _ =>
      fa <-? to_float a ;;
      fb <-? to_float b ;;
      if is_zero fb then Raise ZeroDivisionError
      else Ok (PFloat (SFdiv 53 1024 fa fb))
  end.

(** [[
def map_value(x, in_min, in_max, out_min, out_max):
    return (x - in_min) * (out_max - out_min) / (in_max - in_min) + out_min
]]
    in the arithmetic of Python, operand by operand from the left. *)
Definition py_map_value (x in_min in_max out_min out_max : pynum)
  : result pynum :=
  t1 <-? py_sub x in_min ;;
  t2 <-? py_sub out_max out_min ;;
  t3 <-? py_mul t1 t2 ;;
  t4 <-? py_sub in_max in_min ;;
  t5 <-? py_truediv t3 t4 ;;
  py_add t5 out_min.

(** The call of [on_message] in the arithmetic of Python. *)
Definition py_calibrate (x : pynum) : result pynum :=
  py_map_value x (PInt 0) (PInt 4095) (PInt 0) (PInt 1000).

(** The number a value denotes in arithmetic; [bool] is a subclass of
    [int].  For the other classes [x - in_min] raises [TypeError]. *)
Definition as_number (v : value) : result pynum :=
  match v with
  | VBool true => Ok (PInt 1)
  | VBool false => Ok (PInt 0)
  | VInt z => Ok (PInt z)
  | VFloat f => Ok (PFloat f)
  | _ => Raise TypeError
  end.

Definition value_of (n : pynum) : value :=
  match n with
  | PInt z => VInt z
  | PFloat f => VFloat f
  end.

(** The float of an int that is known to fit. *)
Definition float_of_Z (z : Z) : spec_float := binary_normalize 53 1024 z 0 false.

(** [a < b] on floats, false when one of them is a NaN. *)
Definition float_lt (a b : spec_float) : bool := SFltb a b.

(** The value of a finite float. *)
Definition float_value (f : spec_float) : option Q :=
  match f with
  | S754_zero _ => Some 0
  | S754_finite s m e =>
      let magnitude :=
        match e with
        | Zneg k => Zpos m # Pos.pow 2 k
        | _ => inject_Z (Zpos m * 2 ^ e)
        end in
      Some (if s then - magnitude else magnitude)
  | _ => None
  end.


(** The calibration step of [on_message] on the decoded value
    [raw_gas_esp32]:
    [calibrated_gas = map_value(raw_gas_esp32, 0, 4095, 0, 1000)]. *)
Definition calibrate (raw : value) : result value :=
  x <-? as_number raw ;;
  y <-? py_calibrate x ;;
  Ok (value_of y).



(** A raw value mapped to the range of the sensor and back:
    [map_value(map_value(z, 0, 4095, 0, 1000), 0, 1000, 0, 4095)]. *)
Definition round_trip (z : Z) : result pynum :=
  y <-? py_calibrate (PInt z) ;;
  py_map_value y (PInt 0) (PInt 1000) (PInt 0) (PInt 4095).

(** The round trip returns a float within [2^-40] of the raw value. *)
Definition round_trip_close (z : Z) : bool :=
  match round_trip z with
  | Ok (PFloat f) =>
      match float_value f with
      | Some g => Qle_bool (Qabs (g - inject_Z z)) (1 # 1099511627776)
      | None => false
      end
  | _ => false
  end.

(** ** The status rule *)

Definition Qgt_bool (a b : Q) : bool := negb (Qle_bool a b).

(** [[
status_label = "SAFE"
if prediction == 1:
    status_label = "CRITICAL"
elif fire_risk_percent > 50:
    status_label = "WARNING"
]] *)
Definition status_label (prediction : Z) (fire_risk_percent : Q) : string :=
  let status_label := "SAFE"%string in
  if (prediction =? 1)%Z then "CRITICAL"%string
  else if Qgt_bool fire_risk_percent 50 then "WARNING"%string
  else status_label.

(** The Risk Policy in the words of the specification: an enumeration
    ordered by severity and a decision on [(isAlarm, fireRiskPercent)]. *)
Inductive RiskStatus : Type := SAFE | WARNING | CRITICAL.

Definition severity (s : RiskStatus) : nat :=
  match s with SAFE => 0 | WARNING => 1 | CRITICAL => 2 end.

Definition status_name (s : RiskStatus) : string :=
  match s with
  | SAFE => "SAFE"
  | WARNING => "WARNING"
  | CRITICAL => "CRITICAL"
  end.

Definition classify (isAlarm : bool) (fireRiskPercent : Q) : RiskStatus :=
  if isAlarm then CRITICAL
  else if Qlt_le_dec 50 fireRiskPercent then WARNING
  else SAFE.

(** ** The world and the monad of the gateway *)

(** One line of [sensor_logs], in the order of the [INSERT] statement:
    [(node_id, temp_val, humidity_val, smoke_level, fire_risk,
    alert_status)]. *)
Record row : Type := mkRow {
  node_id : value;
  temp_val : value;
  humidity_val : value;
  smoke_level : value;
  fire_risk : Q;
  alert_status : string
}.

(** The argument of [model.predict]: a list of samples. *)
Definition features : Type := list (list value).

(** The lines the gateway prints; the clock of the report line is not
    modelled. *)
Inductive line : Type :=
| LSeparator
| LNode (node : value)
| LData (raw_gas : value) (calib : value) (temp : value)
| LFireDetected (confidence : Q)
| LNormal (risk : Q)
| LSaved (node : value)
| LDatabaseError (err : exn)
| LErrorProcessing (e : exn).

(** The operations of [save_to_database] on the MySQL connector, in
    program order. *)
Inductive db_op : Type :=
| Connect
| Cursor
| Execute (val : row)
| Commit
| CursorClose
| ConnClose.

Inductive event : Type :=
| Print (l : line)
| Predict (x : features)
| PredictProba (x : features)
| Append (val : row)
| Db (op : db_op) (raised : option exn).

Definition world : Type := list event.

Definition M (A : Type) : Type := world -> world * result A.

Definition ret {A} (a : A) : M A := fun w => (w, Ok a).

Definition bind {A B} (m : M A) (f : A -> M B) : M B :=
  fun w =>
    match m w with
    | (w', Ok a) => f a w'
    | (w', Raise e) => (w', Raise e)
    end.

Definition lift {A} (r : result A) : M A := fun w => (w, r).

Definition emit (e : event) : M unit := fun w => (w ++ [e], Ok tt).

(** [try: body / except cls as e: handler(e)] *)
Definition try_except {A} (body : M A) (cls : exn -> bool)
  (handler : exn -> M A) : M A :=
  fun w =>
    match body w with
    | (w', Raise e) => if cls e then handler e w' else (w', Raise e)
    | r => r
    end.

Notation "x <- m ;; k" := (bind m (fun x => k))
  (at level 61, m at next level, right associativity).
Notation "m ;;; k" := (bind m (fun _ => k))
  (at level 61, right associativity).

Definition print (l : line) : M unit := emit (Print l).

(** [xs[i]] for a non-negative literal index. *)
Definition index {A} (xs : list A) (i : nat) : result A :=
  match nth_error xs i with
  | Some a => Ok a
  | None => Raise IndexError
  end.

Definition of_option {A} (e : exn) (o : option A) : result A :=
  match o with
  | Some a => Ok a
  | None => Raise e
  end.

(** ** Collaborators *)

(** What the process runs on: the UTF-8 decoder of [bytes],
    [json.loads], the artifact loaded by [joblib.load] with its two
    methods, and the standard output.  The decoders fail with their
    documented exceptions; the artifact is opaque and may raise
    anything; [stdout_encodes l] tells whether the text of the line [l]
    can be written in the encoding of the standard output. *)
Record library : Type := mkLibrary {
  decode : list byte -> option string;
  json_loads : string -> option value;
  predict : features -> result (list Z);
  predict_proba : features -> result (list (list Q));
  stdout_encodes : line -> bool
}.

(** A [print] of text that comes from the message, or that is not
    ASCII: it raises [UnicodeEncodeError] when the standard output
    cannot encode the line. *)
Definition print_line (lib : library) (l : line) : M unit :=
  if stdout_encodes lib l then print l else lift (Raise UnicodeEncodeError).

(** One delivery of the broker: the payload of the MQTT message, and
    how the MySQL connector answers while this message is handled
    ([None]: the operation succeeds; [Some e]: it raises [e]). *)
Record delivery : Type := mkDelivery {
  payload : list byte;
  db : db_op -> option exn
}.

Definition db_call (srv : db_op -> option exn) (op : db_op) : M unit :=
  fun w =>
    (w ++ [Db op (srv op)],
     match srv op with
     | None => Ok tt
     | Some e => Raise e
     end).

(** ** Persistence *)

(** [save_to_database(node, temp, hum, smoke, risk, status)].  The event
    [Append] marks the call with the record it was given.  Its two
    prints, like that of the handler of [on_message], are taken to
    succeed: the node was printed by the report before the call, and
    the text of an exception is taken to be writable. *)
Definition save_to_database (srv : db_op -> option exn)
  (node temp hum smoke : value) (risk : Q) (status : string) : M unit :=
  let val := mkRow node temp hum smoke risk status in
  emit (Append val) ;;;
  try_except
    (db_call srv Connect ;;;
     db_call srv Cursor ;;;
     db_call srv (Execute val) ;;;
     db_call srv Commit ;;;
     db_call srv CursorClose ;;;
     db_call srv ConnClose ;;;
     print (LSaved node))
    is_mysql_Error
    (fun err => print (LDatabaseError err)).

(** ** The message callback *)

Definition call_predict (lib : library) (x : features) : M (list Z) :=
  emit (Predict x) ;;; lift (predict lib x).

Definition call_predict_proba (lib : library) (x : features)
  : M (list (list Q)) :=
  emit (PredictProba x) ;;; lift (predict_proba lib x).

(** The body of the [try] block of [on_message]. *)
Definition on_message_body (lib : library) (msg : delivery) : M unit :=
  (* A. Receive Data *)
  payload_str <- lift (of_option UnicodeDecodeError (decode lib (payload msg))) ;;
  data <- lift (of_option JSONDecodeError (json_loads lib payload_str)) ;;
  (* B. Extract Values *)
  node_id <- lift (py_get data "node_id" (VStr "node_unknown")) ;;
  raw_gas_esp32 <- lift (py_get data "raw_gas" (VInt 0)) ;;
  temp_esp32 <- lift (py_get data "temp" (VInt 0)) ;;
  hum_esp32 <- lift (py_get data "humidity" (VInt 50)) ;;
  (* C. CALIBRATION *)
  calibrated_gas <- lift (calibrate raw_gas_esp32) ;;
  (* D. PREDICT (AI) *)
  let features := [[temp_esp32; hum_esp32; calibrated_gas]] in
  labels <- call_predict lib features ;;
  prediction <- lift (index labels 0) ;;
  probability <- call_predict_proba lib features ;;
  p <- lift (index probability 0) ;;
  p1 <- lift (index p 1) ;;
  let fire_risk_percent := p1 * 100 in
  (* E. DETERMINE STATUS STRING *)
  let status := status_label prediction fire_risk_percent in
  (* F. DISPLAY & ACTION *)
  print LSeparator ;;;
  print_line lib (LNode node_id) ;;;
  print_line lib (LData raw_gas_esp32 calibrated_gas temp_esp32) ;;;
  (if (prediction =? 1)%Z
   then print (LFireDetected fire_risk_percent)
   else print (LNormal fire_risk_percent)) ;;;
  (* G. SAVE TO SERVER *)
  save_to_database (db msg) node_id temp_esp32 hum_esp32 calibrated_gas
    fire_risk_percent status.

(** [[
def on_message(client, userdata, msg):
    try: ...
    except Exception as e:
        print(f"Error processing message: {e}")
]] *)
Definition on_message (lib : library) (msg : delivery) : M unit :=
  try_except (on_message_body lib msg) is_Exception
    (fun e => print (LErrorProcessing e)).

(** [client.loop_forever()]: the callback runs once per delivered
    message, one message after the other; an exception that leaves the
    callback leaves the loop. *)
Fixpoint loop_forever (lib : library) (msgs : list delivery) : M unit :=
  match msgs with
  | [] => ret tt
  | msg :: rest => on_message lib msg ;;; loop_forever lib rest
  end.

(** ** Observations on a world *)

(** The records handed to the Persistence Sink. *)
Fixpoint appended (w : world) : list row :=
  match w with
  | [] => []
  | Append r :: w' => r :: appended w'
  | _ :: w' => appended w'
  end.

(** The feature vectors the classifier was asked to label. *)
Fixpoint classified (w : world) : list features :=
  match w with
  | [] => []
  | Predict x :: w' => x :: classified w'
  | _ :: w' => classified w'
  end.

(** The feature vectors the classifier was asked a probability for. *)
Fixpoint probed (w : world) : list features :=
  match w with
  | [] => []
  | PredictProba x :: w' => x :: probed w'
  | _ :: w' => probed w'
  end.

(** The lines printed. *)
Fixpoint printed (w : world) : list line :=
  match w with
  | [] => []
  | Print l :: w' => l :: printed w'
  | _ :: w' => printed w'
  end.

(** The rows of [sensor_logs]: those whose [INSERT] was executed and
    then committed on the same connection. *)
Fixpoint committed (pending : list row) (w : world) : list row :=
  match w with
  | [] => []
  | Db Connect _ :: w' => committed [] w'
  | Db (Execute r) None :: w' => committed (pending ++ [r]) w'
  | Db Commit None :: w' => pending ++ committed [] w'
  | _ :: w' => committed pending w'
  end.

Definition sensor_logs (w : world) : list row := committed [] w.

(** What a callback adds to the world, and how it ends, when started
    in the empty world. *)
Definition output {A} (m : M A) : world := fst (m []).
Definition outcome {A} (m : M A) : result A := snd (m []).

(** The decoded payload of a delivery, when both decoders succeed. *)
Definition decoded (lib : library) (msg : delivery) : option value :=
  match decode lib (payload msg) with
  | Some s => json_loads lib s
  | None => None
  end.

(** ** The two halves of a callback, as functions

    Steps A to C of [on_message] (decode, extract with defaults,
    calibrate) touch nothing but the message; [telemetry] is their
    result.  [verdict] is the answer of the artifact that steps D and E
    use.  Both are related to [on_message_body] by
    [on_message_body_steps] below. *)

Record reading : Type := mkReading {
  r_node : value;
  r_raw_gas : value;
  r_temp : value;
  r_hum : value;
  r_calibrated_gas : value
}.

Definition telemetry (lib : library) (msg : delivery) : result reading :=
  payload_str <-? of_option UnicodeDecodeError (decode lib (payload msg)) ;;
  data <-? of_option JSONDecodeError (json_loads lib payload_str) ;;
  node_id <-? py_get data "node_id" (VStr "node_unknown") ;;
  raw_gas_esp32 <-? py_get data "raw_gas" (VInt 0) ;;
  temp_esp32 <-? py_get data "temp" (VInt 0) ;;
  hum_esp32 <-? py_get data "humidity" (VInt 50) ;;
  calibrated_gas <-? calibrate raw_gas_esp32 ;;
  Ok (mkReading node_id raw_gas_esp32 temp_esp32 hum_esp32 calibrated_gas).

Definition features_of (rd : reading) : features :=
  [[r_temp rd; r_hum rd; r_calibrated_gas rd]].

(** The label and the risk percentage, [(prediction,
    fire_risk_percent)]. *)
Definition verdict (lib : library) (x : features) : result (Z * Q) :=
  labels <-? predict lib x ;;
  prediction <-? index labels 0 ;;
  probability <-? predict_proba lib x ;;
  p <-? index probability 0 ;;
  p1 <-? index p 1 ;;
  Ok (prediction, p1 * 100).

(** The events of the two calls on the artifact: the second call is
    made when the first returned a label. *)
Definition classifier_calls (lib : library) (x : features) : world :=
  Predict x
  :: match labels <-? predict lib x ;; index labels 0 with
     | Ok _ => [PredictProba x]
     | Raise _ => []
     end.

(** The operator report of step F. *)
Definition report (rd : reading) (prediction : Z) (risk : Q) : world :=
  [Print LSeparator;
   Print (LNode (r_node rd));
   Print (LData (r_raw_gas rd) (r_calibrated_gas rd) (r_temp rd));
   Print (if (prediction =? 1)%Z then LFireDetected risk else LNormal risk)].

(** The two report lines that carry text of the message (and, for the
    second, a degree sign) can be written to the standard output. *)
Definition report_printable (lib : library) (rd : reading) : bool :=
  stdout_encodes lib (LNode (r_node rd))
  && stdout_encodes lib
       (LData (r_raw_gas rd) (r_calibrated_gas rd) (r_temp rd)).

(** What step F prints before a line cannot be written. *)
Definition report_prefix (lib : library) (rd : reading) : world :=
  Print LSeparator
  :: if stdout_encodes lib (LNode (r_node rd))
     then [Print (LNode (r_node rd))] else [].

(** The record of step G. *)
Definition record_of (rd : reading) (prediction : Z) (risk : Q) : row :=
  mkRow (r_node rd) (r_temp rd) (r_hum rd) (r_calibrated_gas rd) risk
    (status_label prediction risk).

(** The connector operations of one [save_to_database], the first of
    them that raises, and the events up to and including it. *)
Definition db_ops (val : row) : list db_op :=
  [Connect; Cursor; Execute val; Commit; CursorClose; ConnClose].

Fixpoint first_fault (srv : db_op -> option exn) (ops : list db_op)
  : option exn :=
  match ops with
  | [] => None
  | op :: ops' =>
      match srv op with
      | Some e => Some e
      | None => first_fault srv ops'
      end
  end.

Fixpoint db_trace (srv : db_op -> option exn) (ops : list db_op) : world :=
  match ops with
  | [] => []
  | op :: ops' =>
      Db op (srv op)
      :: match srv op with
         | Some _ => []
         | None => db_trace srv ops'
         end
  end.

(** A computation only extends the world it is given, by events that
    do not depend on that world. *)
Definition extends {A} (m : M A) : Prop :=
  forall w, m w = (w ++ output m, outcome m).

(** How close a second-decimal figure of the specification is to a
    value: it is the value rounded to two decimals. *)
Definition rounds_to_2dp (g figure : Q) : Prop :=
  Qabs (g - figure) <= 5 # 1000.

(** The statement of the specification about the message with
    [raw_gas] 2048, [temp] 25 and [humidity] 40: the classifier is
    asked about [[25, 40, g]] with [g] the given figure to the second
    decimal. *)
Definition n1_reaches_classifier_with (figure : Q) (lib : library)
  (msg : delivery) : Prop :=
  exists f g,
    classified (output (on_message lib msg)) = [[[VInt 25; VInt 40; VFloat f]]]
    /\ float_value f = Some g
    /\ rounds_to_2dp g figure.

(** ** Test doubles

    A decoder that knows three payloads, two classifiers and three
    database behaviours, used to run the gateway on concrete
    deliveries. *)

Definition dq : string := String (Ascii.ascii_of_nat 34) EmptyString.

Definition quoted (s : string) : string := (dq ++ s ++ dq)%string.

(** The text [{"node_id":"n1","raw_gas":2048,"temp":25,"humidity":40}]. *)
Definition n1_body : string :=
  ("{" ++ quoted "node_id" ++ ":" ++ quoted "n1" ++ ","
   ++ quoted "raw_gas" ++ ":2048,"
   ++ quoted "temp" ++ ":25,"
   ++ quoted "humidity" ++ ":40}")%string.

Definition n1_fields : list (string * value) :=
  [("node_id"%string, VStr "n1"); ("raw_gas"%string, VInt 2048);
   ("temp"%string, VInt 25); ("humidity"%string, VInt 40)].

(** The text [{"node_id":"n2","raw_gas":5000,"temp":30,"humidity":20}]. *)
Definition n2_body : string :=
  ("{" ++ quoted "node_id" ++ ":" ++ quoted "n2" ++ ","
   ++ quoted "raw_gas" ++ ":5000,"
   ++ quoted "temp" ++ ":30,"
   ++ quoted "humidity" ++ ":20}")%string.

Definition n2_fields : list (string * value) :=
  [("node_id"%string, VStr "n2"); ("raw_gas"%string, VInt 5000);
   ("temp"%string, VInt 30); ("humidity"%string, VInt 20)].

Definition fake_json_loads (s : string) : option value :=
  if String.eqb s n1_body then Some (VDict n1_fields)
  else if String.eqb s n2_body then Some (VDict n2_fields)
  else if String.eqb s "{}" then Some (VDict [])
  else if String.eqb s "[1, 2]" then Some (VList [VInt 1; VInt 2])
  else None.

Definition fake_decode (b : list byte) : option string :=
  Some (string_of_list_byte b).

(** A classifier that raises the alarm above 500 ppm, with a matching
    probability. *)
Definition threshold_predict (x : features) : result (list Z) :=
  match x with
  | [[_; _; VFloat g]] =>
      Ok [if float_lt (float_of_Z 500) g then 1%Z else 0%Z]
  | _ => Raise (OtherException "ValueError")
  end.

Definition threshold_predict_proba (x : features) : result (list (list Q)) :=
  match x with
  | [[_; _; VFloat g]] =>
      Ok [if float_lt (float_of_Z 500) g
          then [1 # 10; 9 # 10] else [9 # 10; 1 # 10]]
  | _ => Raise (OtherException "ValueError")
  end.

Definition threshold_library : library :=
  mkLibrary fake_decode fake_json_loads threshold_predict
    threshold_predict_proba (fun _ => true).

(** A classifier whose label says fire while its probability stays
    low. *)
Definition alarmist_library : library :=
  mkLibrary fake_decode fake_json_loads
    (fun _ => Ok [1%Z]) (fun _ => Ok [[7 # 10; 3 # 10]]) (fun _ => true).


Definition db_healthy : db_op -> option exn := fun _ => None.

Definition db_unreachable : db_op -> option exn :=
  fun op =>
    match op with
    | Connect => Some (MySQLError "2003: cannot connect to MySQL server")
    | _ => None
    end.

Definition db_constraint : db_op -> option exn :=
  fun op =>
    match op with
    | Execute _ => Some (MySQLError "1062: duplicate entry")
    | _ => None
    end.

Definition msg_of (body : string) (srv : db_op -> option exn) : delivery :=
  mkDelivery (list_byte_of_string body) srv.

(** ** Further observations and test doubles *)

(** The rows executed on the current connection and not yet committed,
    after a world. *)
Fixpoint pending (p : list row) (w : world) : list row :=
  match w with
  | [] => p
  | Db Connect _ :: w' => pending [] w'
  | Db (Execute r) None :: w' => pending (p ++ [r]) w'
  | Db Commit None :: w' => pending [] w'
  | _ :: w' => pending p w'
  end.

(** The connector answers the four operations up to the commit. *)
Definition reaches_commit (srv : db_op -> option exn) (val : row) : bool :=
  match srv Connect, srv Cursor, srv (Execute val), srv Commit with
  | None, None, None, None => true
  | _, _, _, _ => false
  end.

(** The connector operations of a world, without their answers. *)
Fixpoint db_ops_of (w : world) : list db_op :=
  match w with
  | [] => []
  | Db op _ :: w' => op :: db_ops_of w'
  | _ :: w' => db_ops_of w'
  end.


(** The four keys [on_message] reads. *)
Definition telemetry_keys : list string :=
  ["node_id"; "raw_gas"; "temp"; "humidity"]%string.

(** A connector that commits and then fails to close the cursor. *)
Definition db_close_fails : db_op -> option exn :=
  fun op =>
    match op with
    | CursorClose => Some (MySQLError "2013: lost connection")
    | _ => None
    end.

(** A connector that breaks in the driver, outside the MySQL error
    classes, while the statement is executed. *)
Definition db_driver_bug : db_op -> option exn :=
  fun op =>
    match op with
    | Execute _ => Some (OtherException "UnicodeEncodeError")
    | _ => None
    end.

(** A classifier interrupted from the keyboard. *)
Definition interrupted_library : library :=
  mkLibrary fake_decode fake_json_loads
    (fun _ => Raise (BaseExceptionOnly "KeyboardInterrupt"))
    (fun _ => Raise (BaseExceptionOnly "KeyboardInterrupt")) (fun _ => true).

(** A classifier fitted on one class only: [predict_proba] has a
    single column. *)
Definition single_class_library : library :=
  mkLibrary fake_decode fake_json_loads
    (fun _ => Ok [0%Z]) (fun _ => Ok [[1]]) (fun _ => true).

(** A classifier that is unsure: label 0, probability 0.6. *)
Definition hesitant_library : library :=
  mkLibrary fake_decode fake_json_loads
    (fun _ => Ok [0%Z]) (fun _ => Ok [[4 # 10; 6 # 10]]) (fun _ => true).

(** A standard output in an encoding without the degree sign, ASCII
    for one: the data line of the report cannot be written. *)
Definition ascii_stdout (l : line) : bool :=
  match l with
  | LData _ _ _ => false
  | _ => true
  end.

Definition ascii_stdout_library : library :=
  mkLibrary fake_decode fake_json_loads threshold_predict
    threshold_predict_proba ascii_stdout.

(** The text [{"raw_gas":null}] and the text
    [{"site":"north","node_id":"n1","raw_gas":2048,"temp":25,"humidity":40}]. *)
Definition null_gas_body : string :=
  ("{" ++ quoted "raw_gas" ++ ":null}")%string.

Definition n1_site_body : string :=
  ("{" ++ quoted "site" ++ ":" ++ quoted "north" ++ ","
   ++ quoted "node_id" ++ ":" ++ quoted "n1" ++ ","
   ++ quoted "raw_gas" ++ ":2048,"
   ++ quoted "temp" ++ ":25,"
   ++ quoted "humidity" ++ ":40}")%string.

Definition wider_json_loads (s : string) : option value :=
  if String.eqb s null_gas_body
  then Some (VDict [("raw_gas"%string, VNone)])
  else if String.eqb s n1_site_body
  then Some (VDict (("site"%string, VStr "north") :: n1_fields))
  else fake_json_loads s.

Definition wider_library : library :=
  mkLibrary fake_decode wider_json_loads threshold_predict
    threshold_predict_proba (fun _ => true).

(** The messages the loop hands to the callback: all of them up to and
    including the first one whose callback raises. *)
Fixpoint handled (lib : library) (msgs : list delivery) : list delivery :=
  match msgs with
  | [] => []
  | msg :: rest =>
      msg :: match outcome (on_message lib msg) with
             | Ok _ => handled lib rest
             | Raise _ => []
             end
  end.

(** ** The gateway process

    The rest of [data_pipeline.py]: the loading of the artifact at
    import time, the callback [on_connect], and the script that
    connects to the broker and enters the loop.  The process sees the
    file system through [joblib.load], the network through
    [client.connect], and afterwards what the broker sends: answers to
    connection requests (CONNACK, with a return code) and published
    messages. *)

Definition MQTT_BROKER : string := "localhost".
Definition MQTT_TOPIC : string := "building/lab/node_01/telemetry".
Definition MODEL_FILE : string :=
  "D:\Desktop\IoT_Project\data_pipeline&ml\random_forest_model\fire_model.pkl".

(** The lines printed outside [on_message]. *)
Inductive gateway_line : Type :=
| GLoadingModel
| GModelLoaded
| GModelNotFound
| GCheckPath
| GStarting
| GConnected
| GListening
| GFailedToConnect (rc : Z)
| GBrokerRefused
| GIsMosquittoRunning.

Inductive gateway_event : Type :=
| Callback (e : event)
| Say (l : gateway_line)
| JoblibLoad (path : string)
| MqttConnect (host : string) (port keepalive : Z)
| Subscribe (topic : string).

Definition G (A : Type) : Type :=
  list gateway_event -> list gateway_event * result A.

Definition gret {A} (a : A) : G A := fun g => (g, Ok a).

Definition gbind {A B} (m : G A) (f : A -> G B) : G B :=
  fun g =>
    match m g with
    | (g', Ok a) => f a g'
    | (g', Raise e) => (g', Raise e)
    end.

Definition glift {A} (r : result A) : G A := fun g => (g, r).

Definition gemit (e : gateway_event) : G unit := fun g => (g ++ [e], Ok tt).

Definition gtry {A} (body : G A) (cls : exn -> bool) (handler : exn -> G A)
  : G A :=
  fun g =>
    match body g with
    | (g', Raise e) => if cls e then handler e g' else (g', Raise e)
    | r => r
    end.

Notation "x <~ m ;; k" := (gbind m (fun x => k))
  (at level 61, m at next level, right associativity).
Notation "m >>> k" := (gbind m (fun _ => k))
  (at level 61, right associativity).

Definition say (l : gateway_line) : G unit := gemit (Say l).

(** A computation of the callback, run inside the process: its events
    are appended as [Callback] events (by [extends_on_message] it only
    appends, independently of what came before). *)
Definition callback {A} (m : M A) : G A :=
  fun g => (g ++ map Callback (output m), outcome m).

(** [isinstance(e, FileNotFoundError)] and
    [isinstance(e, ConnectionRefusedError)]; both classes derive from
    [OSError], hence from [Exception]. *)
Definition is_FileNotFoundError (e : exn) : bool :=
  match e with
  | OtherException name => String.eqb name "FileNotFoundError"
  | _ => false
  end.

Definition is_ConnectionRefusedError (e : exn) : bool :=
  match e with
  | OtherException name => String.eqb name "ConnectionRefusedError"
  | _ => false
  end.

(** What [joblib.load] returns: the model with its two methods. *)
Record artifact : Type := mkArtifact {
  artifact_predict : features -> result (list Z);
  artifact_predict_proba : features -> result (list (list Q))
}.

Inductive broker_event : Type :=
| Connack (rc : Z)
| Publish (msg : delivery).

Record surroundings : Type := mkSurroundings {
  sur_decode : list byte -> option string;
  sur_json_loads : string -> option value;
  sur_stdout_encodes : line -> bool;
  joblib_load : string -> result artifact;
  mqtt_connect : option exn;
  broker : list broker_event
}.

Definition library_of (sur : surroundings) (model : artifact) : library :=
  mkLibrary (sur_decode sur) (sur_json_loads sur)
    (artifact_predict model) (artifact_predict_proba model)
    (sur_stdout_encodes sur).

(** [[
def on_connect(client, userdata, flags, rc):
    if rc == 0:
        print(f"Connected to MQTT Broker at {MQTT_BROKER}")
        client.subscribe(MQTT_TOPIC)
        print(f"Listening to {MQTT_TOPIC}...")
    else:
        print(f"Failed to connect. Error Code: {rc}")
]] *)
Definition on_connect (rc : Z) : G unit :=
  if (rc =? 0)%Z
  then say GConnected >>> gemit (Subscribe MQTT_TOPIC) >>> say GListening
  else say (GFailedToConnect rc).

(** [client.loop_forever()] with both callbacks installed. *)
Fixpoint client_loop (lib : library) (events : list broker_event) : G unit :=
  match events with
  | [] => gret tt
  | Connack rc :: rest => on_connect rc >>> client_loop lib rest
  | Publish msg :: rest => callback (on_message lib msg) >>> client_loop lib rest
  end.

(** The script, from the loading of the artifact to the end of the
    process.  [exit()] raises [SystemExit]. *)
Definition gateway (sur : surroundings) : G unit :=
  say GLoadingModel >>>
  model <~ gtry
             (gemit (JoblibLoad MODEL_FILE) >>>
              model <~ glift (joblib_load sur MODEL_FILE) ;;
              say GModelLoaded >>>
              gret model)
             is_FileNotFoundError
             (fun _ =>
                say GModelNotFound >>>
                say GCheckPath >>>
                glift (Raise (BaseExceptionOnly "SystemExit"))) ;;
  say GStarting >>>
  gtry
    (gemit (MqttConnect MQTT_BROKER 1883 60) >>>
     glift (match mqtt_connect sur with
            | None => Ok tt
            | Some e => Raise e
            end) >>>
     client_loop (library_of sur model) (broker sur))
    is_ConnectionRefusedError
    (fun _ => say GBrokerRefused >>> say GIsMosquittoRunning).

Definition goutput {A} (m : G A) : list gateway_event := fst (m []).
Definition goutcome {A} (m : G A) : result A := snd (m []).

(** A computation of the process only extends the trace it is given. *)
Definition gextends {A} (m : G A) : Prop :=
  forall g, m g = (g ++ goutput m, goutcome m).

(** The events of the callbacks, the topics subscribed to, and the
    messages published, in order. *)
Fixpoint callbacks (g : list gateway_event) : world :=
  match g with
  | [] => []
  | Callback e :: g' => e :: callbacks g'
  | _ :: g' => callbacks g'
  end.

Fixpoint subscriptions (g : list gateway_event) : list string :=
  match g with
  | [] => []
  | Subscribe topic :: g' => topic :: subscriptions g'
  | _ :: g' => subscriptions g'
  end.

Fixpoint published (events : list broker_event) : list delivery :=
  match events with
  | [] => []
  | Publish msg :: rest => msg :: published rest
  | Connack _ :: rest => published rest
  end.


(** Test doubles for the process. *)
Definition threshold_artifact : artifact :=
  mkArtifact threshold_predict threshold_predict_proba.

Definition surroundings_of (load : string -> result artifact)
  (connect : option exn) (events : list broker_event) : surroundings :=
  mkSurroundings fake_decode fake_json_loads (fun _ => true) load connect
    events.

(** ** The web front end

    [src/web_app/app.py]: the views of the Flask application and the
    helpers that guard them.  The application keeps the token of the
    remote API in the session and forwards requests to it.

    The session is a dictionary; a view reads the current request and
    answers with a body, possibly paired with a status code.  The
    remote API is a collaborator: a function from the HTTP request that
    is sent to the response or the exception that [requests] raises.
    [render_template], [jsonify], [redirect] and [url_for] build the
    answer and are kept symbolic.  The route [api_proxy] is left out:
    what it does with the answer of [proxy_request] is decided inside
    Flask. *)
Module WebApp.

Definition API_BASE_URL : string := "http://192.168.1.100:5000/api".
Definition TOKEN_SESSION_KEY : string := "jwt_token".
Definition USER_SESSION_KEY : string := "user_info".

(** [d.pop(key, None)] and [d[key] = v] on an association list read by
    [dict_get]. *)
Fixpoint dict_pop (d : list (string * value)) (key : string)
  : list (string * value) :=
  match d with
  | [] => []
  | (k, v) :: d' =>
      if String.eqb k key then dict_pop d' key else (k, v) :: dict_pop d' key
  end.

Definition dict_set (d : list (string * value)) (key : string) (v : value)
  : list (string * value) :=
  (key, v) :: dict_pop d key.

(** [bool(v)] *)
Definition truthy (v : value) : bool :=
  match v with
  | VNone => false
  | VBool b => b
  | VInt z => negb (z =? 0)%Z
  | VFloat f => negb (is_zero f)
  | VStr s => negb (String.eqb s "")
  | VList l => match l with [] => false | _ => true end
  | VDict d => match d with [] => false | _ => true end
  end.

(** [v == s] for a string literal [s]. *)
Definition equals_str (v : value) (s : string) : bool :=
  match v with
  | VStr t => String.eqb t s
  | _ => false
  end.

Definition of_optional_str (o : option string) : value :=
  match o with
  | Some s => VStr s
  | None => VNone
  end.

(** [form.get(key)] and [args.get(key)] *)
Fixpoint multi_get (d : list (string * string)) (key : string)
  : option string :=
  match d with
  | [] => None
  | (k, v) :: d' => if String.eqb k key then Some v else multi_get d' key
  end.

(** The header [{"Authorization": f"Bearer {token}"}]. *)
Inductive header : Type :=
| Authorization_Bearer (token : value).

Record http_request : Type := mkHttp {
  h_method : string;
  h_url : string;
  h_headers : list header;
  h_json : option value;
  h_params : option (list (string * string))
}.

Record http_response : Type := mkResponse {
  status_code : Z;
  json : result value
}.

(** The classes of the module [requests.exceptions], written with the
    name of their module, are the subclasses of [RequestException]. *)
Definition is_RequestException (e : exn) : bool :=
  match e with
  | OtherException name => String.prefix "requests.exceptions." name
  | _ => false
  end.

Record flask_request : Type := mkRequest {
  method : string;
  form : list (string * string);
  args : list (string * string);
  url : string;
  is_json : bool;
  x_requested_with : option string
}.

Inductive target : Type :=
| UrlForLogin (next : option string)
| UrlForIndex
| Location (location : string).

Inductive body : Type :=
| Jsonify (v : value)
| Raw (v : value)
| RenderTemplate (template : string) (context : list (string * value))
| Redirect (to : target).

(** What a view returns: a body, or a pair of a body and a status. *)
Inductive reply : Type :=
| Plain (b : body)
| WithStatus (b : body) (status : Z).

Inductive web_event : Type :=
| Sent (req : http_request)
| PrintedError (e : exn).

Record web_state : Type := mkWeb {
  session : list (string * value);
  log : list web_event
}.

Definition W (A : Type) : Type := web_state -> web_state * result A.

Definition wret {A} (a : A) : W A := fun s => (s, Ok a).

Definition wbind {A B} (m : W A) (f : A -> W B) : W B :=
  fun s =>
    match m s with
    | (s', Ok a) => f a s'
    | (s', Raise e) => (s', Raise e)
    end.

Definition wlift {A} (r : result A) : W A := fun s => (s, r).

Definition wtry {A} (body : W A) (cls : exn -> bool) (handler : exn -> W A)
  : W A :=
  fun s =>
    match body s with
    | (s', Raise e) => if cls e then handler e s' else (s', Raise e)
    | r => r
    end.

Notation "x <=- m ;; k" := (wbind m (fun x => k))
  (at level 61, m at next level, right associativity).

Definition get_session : W (list (string * value)) :=
  fun s => (s, Ok (session s)).

Definition session_pop (key : string) : W unit :=
  fun s => (mkWeb (dict_pop (session s) key) (log s), Ok tt).

Definition session_set (key : string) (v : value) : W unit :=
  fun s => (mkWeb (dict_set (session s) key v) (log s), Ok tt).

Definition record_event (e : web_event) : W unit :=
  fun s => (mkWeb (session s) (log s ++ [e]), Ok tt).

(** A call of [requests.get], [requests.post], ... on the remote API. *)
Definition send (remote : http_request -> result http_response)
  (req : http_request) : W http_response :=
  _ <=- record_event (Sent req) ;;
  wlift (remote req).

Section Views.

Variable remote : http_request -> result http_response.
Variable request : flask_request.

(** [[
def get_auth_headers():
    token = session.get(TOKEN_SESSION_KEY)
    if token:
        return {"Authorization": f"Bearer {token}"}
    return {}
]] *)
Definition get_auth_headers : W (list header) :=
  sess <=- get_session ;;
  let token := dict_get sess TOKEN_SESSION_KEY VNone in
  if truthy token then wret [Authorization_Bearer token] else wret [].

(** The part of [proxy_request] that follows the request to the API. *)
Definition proxy_answer (path : string) (response : http_response) : W reply :=
  if andb (status_code response =? 401)%Z
          (negb (String.eqb path "/auth/login"))
  then
    _ <=- session_pop TOKEN_SESSION_KEY ;;
    _ <=- session_pop USER_SESSION_KEY ;;
    if orb (is_json request)
           (match x_requested_with request with
            | Some v => String.eqb v "XMLHttpRequest"
            | None => false
            end)
    then wret (WithStatus
                 (Jsonify (VDict [("error"%string,
                                   VStr "Session expired or unauthorized")]))
                 401)
    else wret (Plain (Redirect (UrlForLogin None)))
  else
    data <=- wlift (json response) ;;
    wret (WithStatus (Raw data) (status_code response)).

(** [proxy_request(method, path, data=None, params=None)] *)
Definition proxy_request (method : string) (path : string)
  (data : option value) (params : option (list (string * string)))
  : W reply :=
  let url := (API_BASE_URL ++ path)%string in
  headers <=- get_auth_headers ;;
  wtry
    (if String.eqb method "GET" then
       response <=- send remote (mkHttp "GET" url headers None params) ;;
       proxy_answer path response
     else if String.eqb method "POST" then
       response <=- send remote (mkHttp "POST" url headers data params) ;;
       proxy_answer path response
     else if String.eqb method "PUT" then
       response <=- send remote (mkHttp "PUT" url headers data params) ;;
       proxy_answer path response
     else if String.eqb method "DELETE" then
       response <=- send remote (mkHttp "DELETE" url headers None params) ;;
       proxy_answer path response
     else
       wret (WithStatus
               (Jsonify (VDict [("error"%string, VStr "Method not allowed")]))
               405))
    is_RequestException
    (fun e =>
       _ <=- record_event (PrintedError e) ;;
       wret (WithStatus
               (Jsonify
                  (VDict [("error"%string,
                           VStr "Impossible de se connecter à l'API distante.")]))
               503)).

(** [login_required(f)]: the decorated view.
[[
if TOKEN_SESSION_KEY not in session:
    return redirect(url_for('login', next=request.url))
return f()
]] *)
Definition login_required (f : W reply) : W reply :=
  sess <=- get_session ;;
  if negb (has_key sess TOKEN_SESSION_KEY)
  then wret (Plain (Redirect (UrlForLogin (Some (url request)))))
  else f.

(** [role_required(role)(f)] *)
Definition role_required (role : string) (f : W reply) : W reply :=
  login_required
    (sess <=- get_session ;;
     let user_info := dict_get sess USER_SESSION_KEY (VDict []) in
     user_role <=- wlift (py_get user_info "role" VNone) ;;
     if negb (equals_str user_role role)
     then wret (WithStatus (RenderTemplate "403.html" []) 403)
     else f).

(** The view [login]. *)
Definition login : W reply :=
  if String.eqb (method request) "POST" then
    let username := multi_get (form request) "username" in
    let password := multi_get (form request) "password" in
    let login_data :=
      VDict [("username"%string, of_optional_str username);
             ("password"%string, of_optional_str password)] in
    wtry
      (response <=- send remote
                      (mkHttp "POST" (API_BASE_URL ++ "/auth/login")%string
                         [] (Some login_data) None) ;;
       if (status_code response =? 200)%Z then
         data <=- wlift (json response) ;;
         token <=- wlift (py_get data "token" VNone) ;;
         _ <=- session_set TOKEN_SESSION_KEY token ;;
         user <=- wlift (py_get data "user" VNone) ;;
         _ <=- session_set USER_SESSION_KEY user ;;
         let next_url :=
           match multi_get (args request) "next" with
           | Some u => if String.eqb u "" then UrlForIndex else Location u
           | None => UrlForIndex
           end in
         wret (Plain (Redirect next_url))
       else
         data <=- wlift (json response) ;;
         error_message <=- wlift (py_get data "message"
                                    (VStr "Erreur de connexion inconnue.")) ;;
         wret (WithStatus
                 (RenderTemplate "login.html"
                    [("error"%string, error_message)]) 401))
      is_RequestException
      (fun _ =>
         wret (WithStatus
                 (RenderTemplate "login.html"
                    [("error"%string,
                      VStr "Erreur de connexion au serveur API.")]) 503))
  else wret (Plain (RenderTemplate "login.html" [])).

(** The view [logout]. *)
Definition logout : W reply :=
  _ <=- session_pop TOKEN_SESSION_KEY ;;
  _ <=- session_pop USER_SESSION_KEY ;;
  wret (Plain (Redirect (UrlForLogin None))).

(** The view [index], behind [login_required]. *)
Definition index : W reply :=
  login_required
    (sess <=- get_session ;;
     user_role <=- wlift (py_get (dict_get sess USER_SESSION_KEY (VDict []))
                            "role" (VStr "readonly")) ;;
     wret (Plain (RenderTemplate "index.html"
                    [("user_role"%string, user_role)]))).

(** The view [admin], behind [role_required('admin')]. *)
Definition admin : W reply :=
  role_required "admin" (wret (Plain (RenderTemplate "admin.html" []))).

End Views.

(** The request that [proxy_request] sends for a method, a path and
    the token of the session; [None] for a method it does not forward. *)
Definition forwarded (method path : string) (token : value)
  (data : option value) (params : option (list (string * string)))
  : option http_request :=
  let headers := if truthy token then [Authorization_Bearer token] else [] in
  let url := (API_BASE_URL ++ path)%string in
  if String.eqb method "GET" then Some (mkHttp "GET" url headers None params)
  else if String.eqb method "POST"
  then Some (mkHttp "POST" url headers data params)
  else if String.eqb method "PUT"
  then Some (mkHttp "PUT" url headers data params)
  else if String.eqb method "DELETE"
  then Some (mkHttp "DELETE" url headers None params)
  else None.

(** The request that the view [login] sends for the form it received,
    and where it sends the browser after a successful login. *)
Definition login_request (request : flask_request) : http_request :=
  mkHttp "POST" (API_BASE_URL ++ "/auth/login")%string []
    (Some (VDict [("username"%string,
                   of_optional_str (multi_get (form request) "username"));
                  ("password"%string,
                   of_optional_str (multi_get (form request) "password"))]))
    None.

Definition next_target (request : flask_request) : target :=
  match multi_get (args request) "next" with
  | Some u => if String.eqb u "" then UrlForIndex else Location u
  | None => UrlForIndex
  end.

(** The three answers that [proxy_request] builds itself. *)
Definition method_not_allowed : reply :=
  WithStatus (Jsonify (VDict [("error"%string, VStr "Method not allowed")]))
    405.

Definition session_expired : reply :=
  WithStatus
    (Jsonify (VDict [("error"%string, VStr "Session expired or unauthorized")]))
    401.

Definition api_unreachable : reply :=
  WithStatus
    (Jsonify
       (VDict [("error"%string,
                VStr "Impossible de se connecter à l'API distante.")]))
    503.

(** The browser asked for JSON or sent the request from a script. *)
Definition is_ajax (request : flask_request) : bool :=
  orb (is_json request)
      (match x_requested_with request with
       | Some v => String.eqb v "XMLHttpRequest"
       | None => false
       end).

(** Test doubles: an API that knows one account, and two browser
    requests. *)
Definition one_account_api (req : http_request) : result http_response :=
  if String.eqb (h_url req) (API_BASE_URL ++ "/auth/login")%string then
    match h_json req with
    | Some (VDict [(_, VStr "ranger"); (_, VStr "pine")]) =>
        Ok (mkResponse 200
              (Ok (VDict [("token"%string, VStr "t0k3n");
                          ("user"%string,
                           VDict [("role"%string, VStr "admin")])])))
    | _ =>
        Ok (mkResponse 403
              (Ok (VDict [("message"%string, VStr "Bad credentials")])))
    end
  else
    match h_headers req with
    | [Authorization_Bearer (VStr "t0k3n")] =>
        Ok (mkResponse 200 (Ok (VList [])))
    | _ => Ok (mkResponse 401 (Ok (VDict [])))
    end.


Definition browser_get (u : string) : flask_request :=
  mkRequest "GET" [] [] u false None.

Definition browser_login (user pass : string) : flask_request :=
  mkRequest "POST"
    [("username"%string, user); ("password"%string, pass)] []
    "http://localhost:5001/login" false None.

Definition empty_state : web_state := mkWeb [] [].

End WebApp.

(** * Properties *)

(** ** Arithmetic of the calibration *)

Lemma Qgt_bool_true (a b : Q) : Qgt_bool a b = true <-> b < a.
Proof.
  unfold Qgt_bool. rewrite negb_true_iff.
  destruct (Qle_bool a b) eqn:E.
  - apply Qle_bool_iff in E. split; [discriminate | intro H; lra].
  - split; [intros _ | reflexivity].
    apply Qnot_le_lt. intro H. apply Qle_bool_iff in H. congruence.
Qed.

Lemma Qgt_bool_false (a b : Q) : Qgt_bool a b = false <-> a <= b.
Proof.
  unfold Qgt_bool. rewrite negb_false_iff. apply Qle_bool_iff.
Qed.



Lemma status_name_inj (s t : RiskStatus) :
  status_name s = status_name t -> s = t.
Proof. destruct s, t; simpl; intro H; congruence || discriminate H. Qed.

(** ** The Risk Policy *)

(** C1.  The status computed by the gateway is the Risk Policy of the
    specification applied to [isAlarm = (prediction == 1)] and the risk
    percentage: CRITICAL when the label is set, otherwise WARNING when
    the percentage is above 50, otherwise SAFE.  Every pair has exactly
    one status, and the four entries of the decision table hold, with
    50 itself on the SAFE side. *)
Theorem risk_policy_decision_table (prediction : Z) (p : Q) :
  status_label prediction p = status_name (classify (prediction =? 1)%Z p)
  /\ (exists! s, status_label prediction p = status_name s)
  /\ classify true p = CRITICAL
  /\ (50 < p -> classify false p = WARNING)
  /\ (p <= 50 -> classify false p = SAFE)
  /\ classify true 0 = CRITICAL
  /\ classify false 51 = WARNING
  /\ classify false 50 = SAFE
  /\ classify false (500001 # 10000) = WARNING.
Proof.
  assert (E : status_label prediction p
              = status_name (classify (prediction =? 1)%Z p)).
  { unfold status_label, classify.
    destruct (prediction =? 1)%Z; [reflexivity |].
    destruct (Qlt_le_dec 50 p) as [H | H].
    - apply Qgt_bool_true in H. rewrite H. reflexivity.
    - apply Qgt_bool_false in H. rewrite H. reflexivity. }
  split; [exact E |].
  split.
  { exists (classify (prediction =? 1)%Z p). split; [exact E |].
    intros s' H. apply status_name_inj. congruence. }
  split; [reflexivity |].
  split.
  { intro H. unfold classify.
    destruct (Qlt_le_dec 50 p); [reflexivity | lra]. }
  split.
  { intro H. unfold classify.
    destruct (Qlt_le_dec 50 p); [lra | reflexivity]. }
  repeat split; reflexivity.
Qed.

Lemma risk_policy_decision_table_witness :
  status_label 0 51 = "WARNING"%string /\ classify false 51 = WARNING.
Proof.
  destruct (risk_policy_decision_table 0 51) as (E & _ & _ & W & _).
  split.
  - rewrite E. reflexivity.
  - apply W. reflexivity.
Defined.

(** ** The Calibrator *)



(** ** The monad only appends *)

Section Extends.

Context {A B : Type}.

Lemma extends_ret (a : A) : extends (ret a).
Proof. intro w. unfold output, outcome, ret. simpl. now rewrite app_nil_r. Qed.

Lemma extends_lift (r : result A) : extends (lift r).
Proof. intro w. unfold output, outcome, lift. simpl. now rewrite app_nil_r. Qed.

Lemma extends_bind (m : M A) (f : A -> M B) :
  extends m -> (forall a, extends (f a)) -> extends (bind m f).
Proof.
  intros Hm Hf w. unfold output, outcome, bind.
  rewrite (Hm w). unfold output, outcome.
  destruct (m []) as [o [a | e]]; simpl; [| reflexivity].
  rewrite (Hf a (w ++ o)), (Hf a o). simpl.
  now rewrite app_assoc.
Qed.

Lemma extends_try_except (body : M A) (cls : exn -> bool)
  (handler : exn -> M A) :
  extends body -> (forall e, extends (handler e)) ->
  extends (try_except body cls handler).
Proof.
  intros Hb Hh w. unfold output, outcome, try_except.
  rewrite (Hb w). unfold output, outcome.
  destruct (body []) as [o [a | e]]; simpl; [reflexivity |].
  destruct (cls e); [| reflexivity].
  rewrite (Hh e (w ++ o)), (Hh e o). simpl.
  now rewrite app_assoc.
Qed.

End Extends.

Lemma extends_emit (e : event) : extends (emit e).
Proof. intro w. reflexivity. Qed.

Lemma extends_db_call (srv : db_op -> option exn) (op : db_op) :
  extends (db_call srv op).
Proof. intro w. reflexivity. Qed.

Lemma extends_print_line lib l : extends (print_line lib l).
Proof.
  unfold print_line. destruct (stdout_encodes lib l);
    [apply extends_emit | apply extends_lift].
Qed.

Ltac extends_step :=
  first
    [ apply extends_emit
    | apply extends_print_line
    | apply extends_db_call
    | apply extends_lift
    | apply extends_ret
    | apply extends_bind; [| intro]
    | apply extends_try_except; [| intro] ].

Lemma extends_save_to_database srv node temp hum smoke risk status :
  extends (save_to_database srv node temp hum smoke risk status).
Proof. unfold save_to_database, print. repeat extends_step. Qed.

Lemma extends_on_message_body lib msg : extends (on_message_body lib msg).
Proof.
  unfold on_message_body, call_predict, call_predict_proba.
  repeat extends_step;
    try (destruct (_ =? 1)%Z); try apply extends_emit;
    apply extends_save_to_database.
Qed.

Lemma extends_on_message lib msg : extends (on_message lib msg).
Proof.
  unfold on_message, print. apply extends_try_except.
  - apply extends_on_message_body.
  - intro e. apply extends_emit.
Qed.

Lemma extends_loop_forever lib msgs : extends (loop_forever lib msgs).
Proof.
  induction msgs as [| msg rest IH]; simpl.
  - apply extends_ret.
  - apply extends_bind; [apply extends_on_message | intros _; exact IH].
Qed.

(** ** The exceptions of the arithmetic *)

Lemma to_float_raises n e : to_float n = Raise e -> e = OverflowError.
Proof.
  destruct n as [z | f]; simpl; [| discriminate].
  unfold float_of_int.
  destruct (binary_normalize 53 1024 z 0 false); intro H; now inversion H.
Qed.

Lemma int_true_div_raises x y e :
  int_true_div x y = Raise e ->
  (e = ZeroDivisionError /\ y = 0%Z) \/ e = OverflowError.
Proof.
  unfold int_true_div.
  destruct (y =? 0)%Z eqn:Ey.
  - intro H. inversion H. left. split; [reflexivity | now apply Z.eqb_eq].
  - destruct (x =? 0)%Z; [discriminate |].
    destruct (SFdiv 53 1024 _ _); intro H; inversion H. now right.
Qed.






(** What the call of [on_message] computes for an int and for a
    float. *)
Lemma py_calibrate_int z :
  py_calibrate (PInt z)
  = (f <-? int_true_div (z * 1000) 4095 ;;
     Ok (PFloat (SFadd 53 1024 f (S754_zero false)))).
Proof.
  unfold py_calibrate, py_map_value. simpl py_sub. cbv beta iota.
  unfold rbind at 1 2 3 4. simpl py_mul.
  rewrite Z.sub_0_r. simpl py_truediv.
  destruct (int_true_div (z * 1000) 4095) as [f |]; reflexivity.
Qed.

Lemma py_calibrate_float f :
  py_calibrate (PFloat f)
  = Ok (PFloat
          (SFadd 53 1024
             (SFdiv 53 1024
                (SFmul 53 1024 (SFsub 53 1024 f (S754_zero false))
                   (S754_finite false 8796093022208000 (-43)))
                (S754_finite false 9005000231485440 (-41)))
             (S754_zero false))).
Proof.
  cbv -[SFadd SFdiv SFmul SFsub]. reflexivity.
Qed.

Lemma py_calibrate_raises x e : py_calibrate x = Raise e -> e = OverflowError.
Proof.
  destruct x as [z | f].
  - rewrite py_calibrate_int.
    destruct (int_true_div (z * 1000) 4095) as [f |] eqn:E; simpl;
      [discriminate |].
    intro H. inversion H. subst.
    destruct (int_true_div_raises _ _ _ E) as [[_ D] | ->];
      [discriminate D | reflexivity].
  - rewrite py_calibrate_float. discriminate.
Qed.

Lemma as_number_raises v e : as_number v = Raise e -> e = TypeError.
Proof.
  destruct v as [| [|] | | | | |]; simpl; intro H; now inversion H.
Qed.

Lemma calibrate_raises raw e :
  calibrate raw = Raise e ->
  (e = TypeError /\ as_number raw = Raise TypeError)
  \/ (e = OverflowError
      /\ exists x, as_number raw = Ok x /\ py_calibrate x = Raise OverflowError).
Proof.
  unfold calibrate.
  destruct (as_number raw) as [x |] eqn:Ex; simpl.
  - destruct (py_calibrate x) as [y |] eqn:Ey; simpl; [discriminate |].
    intro H. inversion H. subst.
    pose proof (py_calibrate_raises _ _ Ey) as ->.
    right. split; [reflexivity |]. exists x. split; [reflexivity | exact Ey].
  - intro H. inversion H. subst.
    pose proof (as_number_raises _ _ Ex) as ->.
    left. split; reflexivity.
Qed.

Lemma calibrate_raises_Exception raw e :
  calibrate raw = Raise e -> is_Exception e = true.
Proof.
  intro H.
  destruct (calibrate_raises _ _ H) as [[-> _] | [-> _]]; reflexivity.
Qed.

(** ** The rounding of a binary64 result

    What [SpecFloat] computes for the quotient of two ints, related to
    the exact quotient: the significand that is kept has 53 bits, and
    the result is the exact quotient truncated to them, or the next
    float. *)

Section Rounding.

Local Open Scope Z_scope.

Lemma digits2_pos_bounds (m : positive) :
  2 ^ (Zpos (digits2_pos m) - 1) <= Zpos m < 2 ^ Zpos (digits2_pos m).
Proof.
  induction m as [m IH | m IH |]; cbn [digits2_pos].
  - rewrite Pos2Z.inj_succ.
    replace (Z.succ (Zpos (digits2_pos m)) - 1)
      with (Z.succ (Zpos (digits2_pos m) - 1)) by lia.
    rewrite !Z.pow_succ_r by lia. lia.
  - rewrite Pos2Z.inj_succ.
    replace (Z.succ (Zpos (digits2_pos m)) - 1)
      with (Z.succ (Zpos (digits2_pos m) - 1)) by lia.
    rewrite !Z.pow_succ_r by lia. lia.
  - simpl. lia.
Qed.

Lemma Zdigits2_bounds (m : Z) :
  0 < m -> 2 ^ (Zdigits2 m - 1) <= m < 2 ^ Zdigits2 m.
Proof.
  destruct m as [| p | p]; try lia. intros _. apply digits2_pos_bounds.
Qed.

Lemma Zdigits2_unique (m d : Z) :
  2 ^ (d - 1) <= m < 2 ^ d -> 0 < d -> Zdigits2 m = d.
Proof.
  intros H Hd.
  assert (Hm : 0 < m).
  { assert (0 < 2 ^ (d - 1)) by (apply Z.pow_pos_nonneg; lia). lia. }
  pose proof (Zdigits2_bounds m Hm) as B.
  assert (P : 0 < Zdigits2 m) by (destruct m; try lia; reflexivity).
  destruct (Z.lt_trichotomy (Zdigits2 m) d) as [L | [E | G]]; [| exact E |].
  - exfalso.
    assert (2 ^ Zdigits2 m <= 2 ^ (d - 1)) by (apply Z.pow_le_mono_r; lia).
    lia.
  - exfalso.
    assert (2 ^ d <= 2 ^ (Zdigits2 m - 1)) by (apply Z.pow_le_mono_r; lia).
    lia.
Qed.

Lemma shr_1_m (r : shr_record) :
  0 <= shr_m r -> shr_m (shr_1 r) = shr_m r / 2.
Proof.
  destruct r as [m b s]. cbn [shr_m]. intro H.
  destruct m as [| [p | p |] | p]; cbn [shr_1 shr_m]; try lia.
  - reflexivity.
  - apply Z.div_unique with (r := 1); lia.
  - apply Z.div_unique with (r := 0); lia.
  - reflexivity.
Qed.

Lemma iter_pos_shr_1 (p : positive) (r : shr_record) :
  0 <= shr_m r ->
  shr_m (iter_pos shr_1 p r) = shr_m r / 2 ^ Zpos p.
Proof.
  revert r. induction p as [p IH | p IH |]; intros r H; cbn [iter_pos].
  - assert (H1 : 0 <= shr_m (shr_1 r))
      by (rewrite shr_1_m by exact H; apply Z.div_pos; lia).
    assert (H2 : 0 <= shr_m (iter_pos shr_1 p (shr_1 r)))
      by (rewrite IH by exact H1; apply Z.div_pos; [exact H1 | lia]).
    rewrite IH by exact H2. rewrite IH by exact H1.
    rewrite shr_1_m by exact H.
    rewrite !Z.div_div by lia.
    f_equal.
    replace (Z.pos p~1) with (1 + Z.pos p + Z.pos p) by lia.
    rewrite !Z.pow_add_r by lia. change (2 ^ 1) with 2. ring.
  - assert (H2 : 0 <= shr_m (iter_pos shr_1 p r))
      by (rewrite IH by exact H; apply Z.div_pos; [exact H | lia]).
    rewrite IH by exact H2. rewrite IH by exact H.
    rewrite !Z.div_div by lia.
    f_equal.
    replace (Z.pos p~0) with (Z.pos p + Z.pos p) by lia.
    rewrite !Z.pow_add_r by lia. ring.
  - rewrite shr_1_m by exact H. reflexivity.
Qed.

Lemma shr_fexp_m (m e : Z) (l : location) :
  0 <= m ->
  shr_m (fst (shr_fexp 53 1024 m e l))
  = m / 2 ^ Z.max 0 (fexp 53 1024 (Zdigits2 m + e) - e)
  /\ snd (shr_fexp 53 1024 m e l)
     = e + Z.max 0 (fexp 53 1024 (Zdigits2 m + e) - e).
Proof.
  intro H. unfold shr_fexp, shr.
  assert (R : shr_m (shr_record_of_loc m l) = m)
    by (destruct l as [| []]; reflexivity).
  destruct (fexp 53 1024 (Zdigits2 m + e) - e) as [| p | p]; cbn [fst snd].
  - rewrite R. change (Z.max 0 0) with 0. rewrite Z.div_1_r. lia.
  - rewrite iter_pos_shr_1 by (rewrite R; exact H). rewrite R.
    change (Z.max 0 (Z.pos p)) with (Z.pos p). split; reflexivity.
  - rewrite R. change (Z.max 0 (Z.neg p)) with 0. rewrite Z.div_1_r. lia.
Qed.

Lemma round_nearest_even_bounds (m : Z) (l : location) :
  m <= round_nearest_even m l <= m + 1.
Proof.
  destruct l as [| []]; cbn [round_nearest_even]; try lia.
  destruct (Z.even m); lia.
Qed.

Lemma fexp_normal (e : Z) : -1074 <= e - 53 -> fexp 53 1024 e = e - 53.
Proof. unfold fexp, emin. lia. Qed.

(** Rounding a mantissa of at least 53 bits, in the range of the
    normal numbers: the significand is truncated to 53 bits and
    possibly incremented, or the result overflows. *)
Lemma binary_round_aux_normal (s : bool) (mx ex : Z) (lx : location) :
  2 ^ 52 <= mx ->
  -1074 <= Zdigits2 mx + ex - 53 ->
  let e1 := Zdigits2 mx + ex - 53 in
  let m1 := mx / 2 ^ (Zdigits2 mx - 53) in
  2 ^ 52 <= m1
  /\ ((971 <= e1 /\ binary_round_aux 53 1024 s mx ex lx = S754_infinity s)
      \/ exists m3 e3,
           binary_round_aux 53 1024 s mx ex lx = S754_finite s m3 e3
           /\ e1 <= e3
           /\ m1 <= Zpos m3 * 2 ^ (e3 - e1) <= m1 + 1).
Proof.
  intros Hm He e1 m1.
  assert (Hpos : 0 < mx) by (assert (0 < 2 ^ 52) by reflexivity; lia).
  pose proof (Zdigits2_bounds mx Hpos) as B.
  set (d := Zdigits2 mx) in *.
  assert (Hd : 53 <= d).
  { destruct (Z_lt_le_dec d 53) as [L | L]; [| exact L]. exfalso.
    assert (2 ^ d <= 2 ^ 52) by (apply Z.pow_le_mono_r; lia). lia. }
  assert (N : Z.max 0 (fexp 53 1024 (d + ex) - ex) = d - 53)
    by (rewrite fexp_normal by lia; lia).
  assert (M1 : 2 ^ 52 <= m1 < 2 ^ 53).
  { unfold m1. split.
    - apply Z.div_le_lower_bound; [apply Z.pow_pos_nonneg; lia |].
      rewrite <- Z.pow_add_r by lia.
      replace (d - 53 + 52) with (d - 1) by lia. lia.
    - apply Z.div_lt_upper_bound; [apply Z.pow_pos_nonneg; lia |].
      rewrite <- Z.pow_add_r by lia.
      replace (d - 53 + 53) with d by lia. lia. }
  split; [lia |].
  unfold binary_round_aux.
  destruct (shr_fexp_m mx ex lx) as (F1 & F2); [lia |].
  fold d in F1, F2. rewrite N in F1, F2.
  destruct (shr_fexp 53 1024 mx ex lx) as [mrs' e'].
  cbn [fst snd] in F1, F2. fold m1 in F1.
  replace (ex + (d - 53)) with e1 in F2 by (unfold e1; lia).
  rewrite F1, F2.
  pose proof (round_nearest_even_bounds m1 (loc_of_shr_record mrs')) as R.
  set (m2 := round_nearest_even m1 (loc_of_shr_record mrs')) in *.
  destruct (shr_fexp_m m2 e1 loc_Exact) as (G1 & G2); [lia |].
  destruct (shr_fexp 53 1024 m2 e1 loc_Exact) as [mrs'' e''].
  cbn [fst snd] in G1, G2.
  destruct (Z_lt_le_dec m2 (2 ^ 53)) as [L | L].
  - assert (D2 : Zdigits2 m2 = 53) by (apply Zdigits2_unique; lia).
    rewrite D2 in G1, G2.
    assert (N2 : Z.max 0 (fexp 53 1024 (53 + e1) - e1) = 0)
      by (rewrite fexp_normal by (unfold e1; lia); lia).
    rewrite N2 in G1, G2. rewrite Z.div_1_r in G1.
    rewrite G1, G2, Z.add_0_r.
    destruct m2 as [| p | p]; try lia.
    destruct (Z.leb_spec e1 (1024 - 53)); [right | left; split; [lia | reflexivity]].
    exists p, e1. split; [reflexivity |]. split; [lia |].
    rewrite Z.sub_diag. lia.
  - assert (E2 : m2 = 2 ^ 53) by lia.
    assert (D2 : Zdigits2 m2 = 54) by (rewrite E2; reflexivity).
    rewrite D2 in G1, G2.
    assert (N2 : Z.max 0 (fexp 53 1024 (54 + e1) - e1) = 1)
      by (rewrite fexp_normal by (unfold e1; lia); lia).
    rewrite N2 in G1, G2. rewrite E2 in G1.
    change (2 ^ 53 / 2 ^ 1) with (2 ^ 52) in G1.
    rewrite G1, G2. change (2 ^ 52) with (Zpos 4503599627370496).
    destruct (Z.leb_spec (e1 + 1) (1024 - 53));
      [right | left; split; [lia | reflexivity]].
    exists 4503599627370496%positive, (e1 + 1).
    split; [reflexivity |]. split; [lia |].
    replace (e1 + 1 - e1) with 1 by lia.
    change (Z.pos 4503599627370496 * 2 ^ 1) with (2 ^ 53). lia.
Qed.

Lemma SFdiv_core_binary_ints (x y : positive) :
  let d1 := Zdigits2 (Zpos x) in
  let d2 := Zdigits2 (Zpos y) in
  -1074 <= d1 - d2 - 53 ->
  let s := - Z.min (d1 - d2 - 53) 0 in
  exists q r l,
    SFdiv_core_binary 53 1024 (Zpos x) 0 (Zpos y) 0 = (q, - s, l)
    /\ 0 <= s
    /\ Zpos x * 2 ^ s = Zpos y * q + r
    /\ 0 <= r < Zpos y
    /\ 2 ^ 52 <= q.
Proof.
  intros d1 d2 Hn s.
  assert (Hs : 0 <= s) by (unfold s; lia).
  unfold SFdiv_core_binary. fold d1 d2.
  replace (d1 + 0 - (d2 + 0)) with (d1 - d2) by lia.
  rewrite fexp_normal by lia.
  replace (Z.min (d1 - d2 - 53) (0 - 0)) with (- s) by (unfold s; lia).
  replace (0 - 0 - - s) with s by lia.
  assert (M : match s with
              | 0 => Z.pos x
              | Z.pos _ => Z.shiftl (Z.pos x) s
              | Z.neg _ => 0
              end = Zpos x * 2 ^ s).
  { destruct s as [| p | p] eqn:E; [simpl; lia | | lia].
    apply Z.shiftl_mul_pow2. lia. }
  rewrite M.
  pose proof (Z_div_mod (Zpos x * 2 ^ s) (Zpos y) eq_refl) as D.
  destruct (Z.div_eucl (Zpos x * 2 ^ s) (Zpos y)) as [q r].
  destruct D as (D1 & D2).
  exists q, r. eexists.
  split; [reflexivity |]. split; [exact Hs |].
  split; [exact D1 |]. split; [exact D2 |].
  pose proof (Zdigits2_bounds (Zpos x) eq_refl) as Bx.
  pose proof (Zdigits2_bounds (Zpos y) eq_refl) as By.
  fold d1 in Bx. fold d2 in By.
  assert (P1 : 0 < d1) by reflexivity.
  assert (P2 : 0 < d2) by reflexivity.
  assert (K : 2 ^ 52 * 2 ^ d2 <= Zpos x * 2 ^ s).
  { rewrite <- Z.pow_add_r by lia.
    apply Z.le_trans with (2 ^ (d1 - 1) * 2 ^ s).
    - rewrite <- Z.pow_add_r by lia. apply Z.pow_le_mono_r; unfold s; lia.
    - apply Z.mul_le_mono_nonneg_r; [apply Z.pow_nonneg; lia | lia]. }
  destruct (Z_lt_le_dec q (2 ^ 52)) as [L | L]; [exfalso | exact L].
  assert (Zpos y * (q + 1) <= Zpos y * 2 ^ 52) by (apply Z.mul_le_mono_nonneg_l; lia).
  assert (Zpos y * 2 ^ 52 < 2 ^ 52 * 2 ^ d2) by nia.
  nia.
Qed.

(** The quotient of two ints, rounded: either it overflows, or it is a
    float [m * 2^e] whose significand, counted in units [2^(n - t)] of
    the last place, brackets the quotient within one unit. *)
Lemma SFdiv_ints (sx sy : bool) (x y : positive) :
  -1074 <= Zdigits2 (Zpos x) - Zdigits2 (Zpos y) - 53 ->
  (1023 <= Zdigits2 (Zpos x) - Zdigits2 (Zpos y)
   /\ SFdiv 53 1024 (S754_finite sx x 0) (S754_finite sy y 0)
      = S754_infinity (xorb sx sy))
  \/ exists m e n t,
       SFdiv 53 1024 (S754_finite sx x 0) (S754_finite sy y 0)
       = S754_finite (xorb sx sy) m e
       /\ 0 <= n /\ 0 <= t /\ n - t <= e
       /\ 2 ^ 52 <= Zpos m * 2 ^ (e - (n - t))
       /\ (Zpos m * 2 ^ (e - (n - t)) - 1) * 2 ^ n * Zpos y <= Zpos x * 2 ^ t
       /\ Zpos x * 2 ^ t < (Zpos m * 2 ^ (e - (n - t)) + 1) * 2 ^ n * Zpos y.
Proof.
  intro Hn.
  destruct (SFdiv_core_binary_ints x y Hn) as (q & r & l & C & Hs & D & Hr & Hq).
  set (t := - Z.min (Zdigits2 (Z.pos x) - Zdigits2 (Z.pos y) - 53) 0) in *.
  cbn [SFdiv]. rewrite C.
  assert (Hd : 53 <= Zdigits2 q).
  { assert (Hpos : 0 < q) by (assert (0 < 2 ^ 52) by reflexivity; lia).
    pose proof (Zdigits2_bounds q Hpos) as B.
    destruct (Z_lt_le_dec (Zdigits2 q) 53) as [L | L]; [| exact L]. exfalso.
    assert (2 ^ Zdigits2 q <= 2 ^ 52) by (apply Z.pow_le_mono_r; lia). lia. }
  destruct (binary_round_aux_normal (xorb sx sy) q (- t) l Hq) as (M1 & R);
    [unfold t; lia |].
  destruct R as [(O & R) | (m & e & R & He & Hm)]; [left | right].
  { split; [| exact R].
    assert (Hpos : 0 < q) by (assert (0 < 2 ^ 52) by reflexivity; lia).
    pose proof (Zdigits2_bounds q Hpos) as Bq.
    pose proof (Zdigits2_bounds (Zpos x) eq_refl) as Bx.
    pose proof (Zdigits2_bounds (Zpos y) eq_refl) as By.
    set (d1 := Zdigits2 (Zpos x)) in *. set (d2 := Zdigits2 (Zpos y)) in *.
    assert (P1 : 0 < d1) by reflexivity.
    assert (P2 : 0 < d2) by reflexivity.
    destruct (Z_lt_le_dec (d1 - d2) 1023) as [L | L]; [exfalso | exact L].
    assert (U : q * 2 ^ (d2 - 1) < 2 ^ (d1 + t)).
    { apply Z.le_lt_trans with (Zpos y * q); [nia |].
      apply Z.le_lt_trans with (Zpos x * 2 ^ t); [lia |].
      rewrite Z.pow_add_r by lia.
      apply Z.mul_lt_mono_pos_r; [apply Z.pow_pos_nonneg; lia | lia]. }
    assert (V : 2 ^ (Zdigits2 q - 1) * 2 ^ (d2 - 1) < 2 ^ (d1 + t)).
    { apply Z.le_lt_trans with (q * 2 ^ (d2 - 1)); [| exact U].
      apply Z.mul_le_mono_nonneg_r; [apply Z.pow_nonneg; lia | lia]. }
    rewrite <- Z.pow_add_r in V by lia.
    apply Z.pow_lt_mono_r_iff in V; lia. }
  set (n := Zdigits2 q - 53) in *.
  exists m, e, n, t.
  replace (Zdigits2 q + - t - 53) with (n - t) in He, Hm by (unfold n; lia).
  split; [exact R |]. split; [unfold n; lia |]. split; [exact Hs |].
  split; [exact He |].
  set (M := Zpos m * 2 ^ (e - (n - t))) in *.
  set (m1 := q / 2 ^ n) in *.
  assert (P : 0 < 2 ^ n) by (apply Z.pow_pos_nonneg; unfold n; lia).
  assert (L1 : 2 ^ n * m1 <= q) by (apply Z.mul_div_le; exact P).
  assert (L2 : q < 2 ^ n * Z.succ m1) by (apply Z.mul_succ_div_gt; exact P).
  split; [lia |].
  split.
  - apply Z.le_trans with (Zpos y * q); [| lia].
    apply Z.le_trans with (q * Zpos y); [| lia].
    apply Z.mul_le_mono_nonneg_r; [lia |].
    apply Z.le_trans with (m1 * 2 ^ n); [| lia].
    apply Z.mul_le_mono_nonneg_r; lia.
  - apply Z.lt_le_trans with (Zpos y * (q + 1)); [lia |].
    apply Z.le_trans with ((q + 1) * Zpos y); [lia |].
    apply Z.mul_le_mono_nonneg_r; [lia |].
    apply Z.le_trans with ((m1 + 1) * 2 ^ n); [lia |].
    apply Z.mul_le_mono_nonneg_r; lia.
Qed.

End Rounding.

Lemma pow2_pos (e : Z) : 0 < 2 ^ e.
Proof. apply Qpower_0_lt. reflexivity. Qed.

Lemma pow2_add (a b : Z) : 2 ^ (a + b) == 2 ^ a * 2 ^ b.
Proof. apply Qpower_plus. discriminate. Qed.

Lemma pow2_inject (k : Z) : (0 <= k)%Z -> inject_Z (2 ^ k) == 2 ^ k.
Proof. intro H. rewrite (Zpower_Qpower 2 k H). reflexivity. Qed.

(** The value of a finite float is its significand times a power of
    two, with its sign. *)
Lemma float_value_finite (s : bool) (m : positive) (e : Z) :
  exists g,
    float_value (S754_finite s m e) = Some (if s then - g else g)
    /\ g == inject_Z (Zpos m) * 2 ^ e.
Proof.
  cbn [float_value].
  destruct e as [| p | k].
  - eexists. split; [destruct s; reflexivity |].
    rewrite inject_Z_mult. reflexivity.
  - eexists. split; [destruct s; reflexivity |].
    rewrite inject_Z_mult, pow2_inject by lia. reflexivity.
  - eexists. split; [destruct s; reflexivity |].
    rewrite Qmake_Qdiv. unfold Qdiv.
    apply Qmult_comp; [reflexivity |].
    rewrite Pos2Z.inj_pow, pow2_inject by lia.
    change (Z.neg k) with (- Z.pos k)%Z.
    rewrite Qpower_opp. reflexivity.
Qed.

(** The true division of two ints whose quotient is in the range of
    the normal numbers: it raises [OverflowError], or returns a float
    of the sign of the quotient whose magnitude [g] is within one unit
    [u] in the last place of the exact quotient. *)
Lemma int_true_div_bracket (x y : Z) :
  x <> 0%Z -> y <> 0%Z ->
  (-1074 <= Zdigits2 x - Zdigits2 y - 53)%Z ->
  ((1023 <= Zdigits2 x - Zdigits2 y)%Z
   /\ int_true_div x y = Raise OverflowError)
  \/ exists m e g u,
       let f := S754_finite (xorb (x <? 0)%Z (y <? 0)%Z) m e in
       int_true_div x y = Ok f
       /\ float_value f
          = Some (if xorb (x <? 0)%Z (y <? 0)%Z then - g else g)
       /\ 0 < u
       /\ inject_Z (2 ^ 52) * u <= g
       /\ (g - u) * inject_Z (Z.abs y) <= inject_Z (Z.abs x)
       /\ inject_Z (Z.abs x) < (g + u) * inject_Z (Z.abs y).
Proof.
  intros Hx Hy Hn. unfold int_true_div.
  destruct (Z.eqb_spec y 0) as [E | _]; [contradiction |].
  destruct (Z.eqb_spec x 0) as [E | _]; [contradiction |].
  assert (Ax : Z.abs x = Zpos (Z.to_pos (Z.abs x)))
    by (rewrite Z2Pos.id; lia).
  assert (Ay : Z.abs y = Zpos (Z.to_pos (Z.abs y)))
    by (rewrite Z2Pos.id; lia).
  assert (Dx : Zdigits2 x = Zdigits2 (Zpos (Z.to_pos (Z.abs x))))
    by (destruct x; [contradiction | reflexivity | reflexivity]).
  assert (Dy : Zdigits2 y = Zdigits2 (Zpos (Z.to_pos (Z.abs y))))
    by (destruct y; [contradiction | reflexivity | reflexivity]).
  rewrite Dx, Dy in Hn. rewrite Dx, Dy.
  destruct (SFdiv_ints (x <? 0)%Z (y <? 0)%Z _ _ Hn)
    as [(O & R) | (m & e & n & t & R & N0 & T0 & He & Hm & Hlo & Hhi)];
    rewrite R; [left; split; [exact O | reflexivity] | right].
  rewrite <- Ax, <- Ay in Hlo, Hhi.
  destruct (float_value_finite (xorb (x <? 0)%Z (y <? 0)%Z) m e)
    as (g & Vg & Eg).
  exists m, e, g, (2 ^ (n - t)). cbv zeta.
  split; [reflexivity |]. split; [exact Vg |].
  split; [apply pow2_pos |].
  set (M := (Zpos m * 2 ^ (e - (n - t)))%Z) in *.
  assert (EM : g == inject_Z M * 2 ^ (n - t)).
  { rewrite Eg. unfold M. rewrite inject_Z_mult, pow2_inject by lia.
    rewrite <- Qmult_assoc, <- pow2_add.
    replace (e - (n - t) + (n - t))%Z with e by lia. reflexivity. }
  assert (ES : 2 ^ (n - t) * inject_Z (2 ^ t) == inject_Z (2 ^ n)).
  { rewrite !pow2_inject by lia. rewrite <- pow2_add.
    replace (n - t + t)%Z with n by lia. reflexivity. }
  pose proof (pow2_pos (n - t)) as Pu.
  assert (Pt : 0 < inject_Z (2 ^ t))
    by (rewrite pow2_inject by lia; apply pow2_pos).
  set (u := 2 ^ (n - t)) in *.
  set (S := inject_Z (2 ^ t)) in *.
  split.
  { rewrite EM. apply Qmult_le_compat_r; [| lra].
    rewrite <- Zle_Qle. exact Hm. }
  replace (M - 1)%Z with (M + -1)%Z in Hlo by lia.
  rewrite Zle_Qle in Hlo. rewrite Zlt_Qlt in Hhi.
  rewrite !inject_Z_mult in Hlo, Hhi.
  rewrite inject_Z_plus in Hlo, Hhi.
  fold S in Hlo, Hhi. rewrite <- ES in Hlo, Hhi.
  set (X := inject_Z (Z.abs x)) in *.
  set (Y := inject_Z (Z.abs y)) in *.
  set (IM := inject_Z M) in *.
  change (inject_Z 1) with 1 in Hhi.
  change (inject_Z (-1)) with (-1 # 1) in Hlo.
  split.
  - apply Qmult_le_r with S; [exact Pt |].
    rewrite EM.
    setoid_replace ((IM * u - u) * Y * S)
      with ((IM + (-1 # 1)) * (u * S) * Y) by ring.
    exact Hlo.
  - apply Qmult_lt_r with S; [exact Pt |].
    rewrite EM.
    setoid_replace ((IM * u + u) * Y * S) with ((IM + 1) * (u * S) * Y) by ring.
    exact Hhi.
Qed.

Lemma Zdigits2_nonneg (x : Z) : (0 <= Zdigits2 x)%Z.
Proof. destruct x; simpl; lia. Qed.

Lemma Zdigits2_abs_bound (x : Z) :
  x <> 0%Z -> (2 ^ (Zdigits2 x - 1) <= Z.abs x)%Z.
Proof.
  intro H. destruct x as [| p | p]; [contradiction | |];
    apply (Zdigits2_bounds (Zpos p)); reflexivity.
Qed.

(** The calibration of an int: it overflows, which takes a raw value
    beyond [2^1024], or it returns a float of the sign of the raw value
    that differs from the exact [raw * 1000 / 4095] by at most one part
    in [2^52]. *)
Lemma py_calibrate_int_spec (z : Z) :
  ((2 ^ 1034 <= Z.abs (z * 1000))%Z
   /\ py_calibrate (PInt z) = Raise OverflowError)
  \/ exists f g,
       py_calibrate (PInt z) = Ok (PFloat f)
       /\ float_value f = Some g
       /\ Qabs (g - inject_Z z * (1000 # 4095))
          <= Qabs g * (1 # 4503599627370496)
       /\ ((0 < z)%Z -> 0 < g)
       /\ ((z < 0)%Z -> g < 0)
       /\ (z = 0%Z -> g = 0).
Proof.
  destruct (Z.eq_dec z 0) as [E | N].
  { subst z. right. exists (S754_zero false), 0.
    split; [reflexivity |]. split; [reflexivity |].
    split; [vm_compute; discriminate |].
    split; [lia |]. split; [lia | reflexivity]. }
  rewrite py_calibrate_int.
  pose proof (Zdigits2_nonneg (z * 1000)) as D.
  destruct (int_true_div_bracket (z * 1000) 4095) as
    [(O & R) | (m & e & g & u & R & V & Pu & Hg & Hlo & Hhi)];
    [lia | lia | change (Zdigits2 4095) with 12%Z; lia | |].
  - left. rewrite R. split; [| reflexivity].
    change (Zdigits2 4095) with 12%Z in O.
    pose proof (Zdigits2_abs_bound (z * 1000)) as B.
    assert (2 ^ 1034 <= 2 ^ (Zdigits2 (z * 1000) - 1))%Z
      by (apply Z.pow_le_mono_r; lia).
    lia.
  - right. cbv zeta in R, V. rewrite R. cbn [rbind SFadd].
    change (4095 <? 0)%Z with false in *. rewrite xorb_false_r in *.
    eexists. eexists. split; [reflexivity |]. split; [exact V |].
    change (inject_Z (2 ^ 52)) with (4503599627370496 # 1) in Hg.
    change (inject_Z (Z.abs 4095)) with (4095 # 1) in Hlo, Hhi.
    assert (G : 0 < g) by lra.
    destruct (Z.ltb_spec (z * 1000) 0) as [L | L].
    + assert (A : inject_Z (Z.abs (z * 1000)) == - (inject_Z z * 1000)).
      { rewrite Z.abs_neq by lia. rewrite inject_Z_opp, inject_Z_mult.
        reflexivity. }
      rewrite A in Hlo, Hhi.
      split.
      { apply Qabs_Qle_condition. rewrite Qabs_opp, Qabs_pos by lra.
        split; lra. }
      split; [lia |]. split; [intros _; lra | lia].
    + assert (A : inject_Z (Z.abs (z * 1000)) == inject_Z z * 1000).
      { rewrite Z.abs_eq by lia. rewrite inject_Z_mult. reflexivity. }
      rewrite A in Hlo, Hhi.
      split.
      { apply Qabs_Qle_condition. rewrite Qabs_pos by lra.
        split; lra. }
      split; [intros _; exact G |]. split; lia.
Qed.

(** ** The Calibrator in the arithmetic of Python *)


Lemma py_map_value_ints (x a b c d : Z) :
  py_map_value (PInt x) (PInt a) (PInt b) (PInt c) (PInt d)
  = (q <-? int_true_div ((x - a) * (d - c)) (b - a) ;;
     fc <-? float_of_int c ;;
     Ok (PFloat (SFadd 53 1024 q fc))).
Proof.
  unfold py_map_value. cbn [py_sub py_mul py_truediv rbind].
  destruct (int_true_div _ _); reflexivity.
Qed.




(** ** The callback, step by step *)

Lemma telemetry_raises_Exception lib msg e :
  telemetry lib msg = Raise e -> is_Exception e = true.
Proof.
  unfold telemetry, rbind, of_option, py_get.
  destruct (decode lib (payload msg)) as [s |]; [| intro H; now inversion H].
  destruct (json_loads lib s) as [data |]; [| intro H; now inversion H].
  destruct data; try (intro H; now inversion H).
  destruct (calibrate _) as [g |] eqn:E; [discriminate |].
  intro H. inversion H. subst. exact (calibrate_raises_Exception _ _ E).
Qed.

Lemma save_to_database_run srv node temp hum smoke risk status w :
  let val := mkRow node temp hum smoke risk status in
  save_to_database srv node temp hum smoke risk status w
  = match first_fault srv (db_ops val) with
    | None =>
        (w ++ Append val :: db_trace srv (db_ops val) ++ [Print (LSaved node)],
         Ok tt)
    | Some e =>
        if is_mysql_Error e
        then (w ++ Append val :: db_trace srv (db_ops val)
                ++ [Print (LDatabaseError e)], Ok tt)
        else (w ++ Append val :: db_trace srv (db_ops val), Raise e)
    end.
Proof.
  intro val. unfold save_to_database, try_except, bind, db_call, print, emit.
  fold val. simpl.
  destruct (srv Connect) as [e |];
    [destruct (is_mysql_Error e); repeat (rewrite <- app_assoc; simpl);
     reflexivity |].
  destruct (srv Cursor) as [e |];
    [destruct (is_mysql_Error e); repeat (rewrite <- app_assoc; simpl);
     reflexivity |].
  destruct (srv (Execute val)) as [e |];
    [destruct (is_mysql_Error e); repeat (rewrite <- app_assoc; simpl);
     reflexivity |].
  destruct (srv Commit) as [e |];
    [destruct (is_mysql_Error e); repeat (rewrite <- app_assoc; simpl);
     reflexivity |].
  destruct (srv CursorClose) as [e |];
    [destruct (is_mysql_Error e); repeat (rewrite <- app_assoc; simpl);
     reflexivity |].
  destruct (srv ConnClose) as [e |];
    [destruct (is_mysql_Error e); repeat (rewrite <- app_assoc; simpl);
     reflexivity |].
  repeat (rewrite <- app_assoc; simpl). reflexivity.
Qed.

Lemma on_message_body_steps lib msg w :
  on_message_body lib msg w
  = match telemetry lib msg with
    | Raise e => (w, Raise e)
    | Ok rd =>
        let x := features_of rd in
        match verdict lib x with
        | Raise e => (w ++ classifier_calls lib x, Raise e)
        | Ok (prediction, risk) =>
            if report_printable lib rd then
              save_to_database (db msg) (r_node rd) (r_temp rd) (r_hum rd)
                (r_calibrated_gas rd) risk (status_label prediction risk)
                (w ++ classifier_calls lib x ++ report rd prediction risk)
            else
              (w ++ classifier_calls lib x ++ report_prefix lib rd,
               Raise UnicodeEncodeError)
        end
    end.
Proof.
  unfold on_message_body, telemetry, verdict, classifier_calls, report,
    report_printable, report_prefix, features_of, call_predict,
    call_predict_proba, print_line, print, emit, lift, bind, rbind,
    of_option, py_get.
  destruct (decode lib (payload msg)) as [s |]; [| reflexivity].
  destruct (json_loads lib s) as [data |]; [| reflexivity].
  destruct data; try reflexivity.
  destruct (calibrate _) as [g |]; [| reflexivity].
  cbv beta iota zeta.
  set (f := [[dict_get d "temp" (VInt 0); dict_get d "humidity" (VInt 50);
              g]]).
  cbn [r_node r_raw_gas r_temp r_hum r_calibrated_gas].
  fold f.
  destruct (predict lib f) as [labels |]; [| reflexivity].
  destruct (index labels 0) as [prediction |]; [| reflexivity].
  destruct (predict_proba lib f) as [probability |];
    [| now rewrite <- app_assoc].
  destruct (index probability 0) as [p |]; [| now rewrite <- app_assoc].
  destruct (index p 1) as [p1 |]; [| now rewrite <- app_assoc].
  destruct (stdout_encodes lib (LNode _)); cbn [andb];
    [| repeat (rewrite <- app_assoc; simpl); reflexivity].
  destruct (stdout_encodes lib (LData _ _ _));
    [| repeat (rewrite <- app_assoc; simpl); reflexivity].
  destruct (prediction =? 1)%Z;
    repeat (rewrite <- app_assoc; simpl); reflexivity.
Qed.

Lemma verdict_ok_calls lib x v :
  verdict lib x = Ok v -> classifier_calls lib x = [Predict x; PredictProba x].
Proof.
  unfold verdict, classifier_calls, rbind.
  destruct (predict lib x) as [labels |]; [| discriminate].
  destruct (index labels 0); [reflexivity | discriminate].
Qed.

Lemma on_message_dropped lib msg e w :
  telemetry lib msg = Raise e ->
  on_message lib msg w = (w ++ [Print (LErrorProcessing e)], Ok tt).
Proof.
  intro H. unfold on_message, try_except.
  rewrite on_message_body_steps, H.
  now rewrite (telemetry_raises_Exception _ _ _ H).
Qed.

Lemma on_message_classifier_raises lib msg rd e w :
  telemetry lib msg = Ok rd ->
  verdict lib (features_of rd) = Raise e ->
  is_Exception e = true ->
  on_message lib msg w
  = (w ++ classifier_calls lib (features_of rd)
       ++ [Print (LErrorProcessing e)], Ok tt).
Proof.
  intros Ht Hv He. unfold on_message, try_except.
  rewrite on_message_body_steps, Ht. cbv zeta. rewrite Hv, He.
  unfold print, emit. now rewrite <- app_assoc.
Qed.

(** A report line that cannot be written ends the message after the
    classification: the handler prints its line and nothing is handed
    to the sink. *)
Lemma on_message_unprintable lib msg rd prediction risk w :
  telemetry lib msg = Ok rd ->
  verdict lib (features_of rd) = Ok (prediction, risk) ->
  report_printable lib rd = false ->
  let x := features_of rd in
  on_message lib msg w
  = (w ++ [Predict x; PredictProba x] ++ report_prefix lib rd
       ++ [Print (LErrorProcessing UnicodeEncodeError)], Ok tt).
Proof.
  intros Ht Hv Hp x. unfold on_message, try_except.
  rewrite on_message_body_steps, Ht. cbv zeta. rewrite Hv, Hp.
  rewrite (verdict_ok_calls _ _ _ Hv). fold x.
  cbn [is_Exception]. unfold print, emit.
  repeat (rewrite <- app_assoc; simpl). reflexivity.
Qed.

Lemma on_message_processed lib msg rd prediction risk w :
  telemetry lib msg = Ok rd ->
  verdict lib (features_of rd) = Ok (prediction, risk) ->
  report_printable lib rd = true ->
  let x := features_of rd in
  let val := record_of rd prediction risk in
  let pre := w ++ [Predict x; PredictProba x] ++ report rd prediction risk
               ++ Append val :: db_trace (db msg) (db_ops val) in
  on_message lib msg w
  = match first_fault (db msg) (db_ops val) with
    | None => (pre ++ [Print (LSaved (r_node rd))], Ok tt)
    | Some e =>
        if is_mysql_Error e then (pre ++ [Print (LDatabaseError e)], Ok tt)
        else if is_Exception e then (pre ++ [Print (LErrorProcessing e)], Ok tt)
        else (pre, Raise e)
    end.
Proof.
  intros Ht Hv Hp x val pre. unfold on_message, try_except.
  rewrite on_message_body_steps, Ht. cbv zeta. rewrite Hv, Hp.
  rewrite (verdict_ok_calls _ _ _ Hv).
  rewrite save_to_database_run. cbv zeta.
  fold x. change (mkRow _ _ _ _ _ _) with val.
  assert (E : forall tl : world,
             (w ++ [Predict x; PredictProba x] ++ report rd prediction risk)
               ++ Append val :: db_trace (db msg) (db_ops val) ++ tl
             = pre ++ tl).
  { intro tl. unfold pre. repeat (rewrite <- app_assoc; simpl). reflexivity. }
  destruct (first_fault (db msg) (db_ops val)) as [e |].
  - destruct (is_mysql_Error e).
    + now rewrite E.
    + specialize (E []). rewrite !app_nil_r in E. rewrite E.
      destruct (is_Exception e); [| reflexivity].
      reflexivity.
  - now rewrite E.
Qed.

(** ** Observations distribute over the trace *)

Lemma appended_app (u v : world) : appended (u ++ v) = appended u ++ appended v.
Proof.
  induction u as [| [] u IH]; simpl; rewrite ?IH; reflexivity.
Qed.

Lemma classified_app (u v : world) :
  classified (u ++ v) = classified u ++ classified v.
Proof.
  induction u as [| [] u IH]; simpl; rewrite ?IH; reflexivity.
Qed.


Lemma appended_db_trace srv ops : appended (db_trace srv ops) = [].
Proof.
  induction ops as [| op ops IH]; simpl; [reflexivity |].
  destruct (srv op); [reflexivity | exact IH].
Qed.

Lemma classified_db_trace srv ops : classified (db_trace srv ops) = [].
Proof.
  induction ops as [| op ops IH]; simpl; [reflexivity |].
  destruct (srv op); [reflexivity | exact IH].
Qed.


Lemma first_fault_healthy srv ops :
  (forall op, srv op = None) -> first_fault srv ops = None.
Proof.
  intro H. induction ops as [| op ops IH]; simpl; [reflexivity |].
  now rewrite H.
Qed.

(** ** The loop *)

Lemma loop_forever_cons lib msg rest w :
  outcome (on_message lib msg) = Ok tt ->
  loop_forever lib (msg :: rest) w
  = (w ++ output (on_message lib msg) ++ output (loop_forever lib rest),
     outcome (loop_forever lib rest)).
Proof.
  intro H. simpl. unfold bind.
  rewrite (extends_on_message lib msg w), H.
  rewrite (extends_loop_forever lib rest _).
  now rewrite <- app_assoc.
Qed.


(** ** A processed message *)

(** Whatever the database does, a message that was classified leaves
    the two calls on the artifact, the report, one call of the sink and
    one attempt to connect, in this order; what follows holds no further
    call of the classifier or of the sink. *)
Lemma on_message_processed_shape lib msg rd prediction risk :
  telemetry lib msg = Ok rd ->
  verdict lib (features_of rd) = Ok (prediction, risk) ->
  report_printable lib rd = true ->
  exists tl,
    output (on_message lib msg)
    = [Predict (features_of rd); PredictProba (features_of rd)]
        ++ report rd prediction risk
        ++ Append (record_of rd prediction risk)
        :: Db Connect (db msg Connect) :: tl
    /\ appended tl = [] /\ classified tl = [].
Proof.
  intros Ht Hv Hp. unfold output.
  rewrite (on_message_processed _ _ _ _ _ [] Ht Hv Hp). cbv zeta.
  set (val := record_of rd prediction risk).
  set (x := features_of rd).
  assert (D : exists tl0,
             db_trace (db msg) (db_ops val) = Db Connect (db msg Connect) :: tl0
             /\ appended tl0 = [] /\ classified tl0 = []).
  { simpl. eexists. split; [reflexivity |].
    destruct (db msg Connect); [split; reflexivity |].
    change (appended (db_trace (db msg) (tl (db_ops val))) = []
            /\ classified (db_trace (db msg) (tl (db_ops val))) = []).
    split; [apply appended_db_trace | apply classified_db_trace]. }
  destruct D as (tl0 & D & Ha & Hc). rewrite D.
  assert (S : forall suffix : world,
             appended suffix = [] -> classified suffix = [] ->
             exists tl1,
               ([] ++ [Predict x; PredictProba x] ++ report rd prediction risk
                  ++ Append val :: Db Connect (db msg Connect) :: tl0)
                 ++ suffix
               = [Predict x; PredictProba x] ++ report rd prediction risk
                   ++ Append val :: Db Connect (db msg Connect) :: tl1
               /\ appended tl1 = [] /\ classified tl1 = []).
  { intros suffix H1 H2. exists (tl0 ++ suffix). split.
    - simpl. repeat (rewrite <- app_assoc; simpl). reflexivity.
    - rewrite appended_app, classified_app, Ha, Hc, H1, H2. split; reflexivity. }
  destruct (first_fault (db msg) (db_ops val)) as [e |].
  - destruct (is_mysql_Error e); [apply S; reflexivity |].
    destruct (is_Exception e); [apply S; reflexivity |].
    destruct (S [] eq_refl eq_refl) as (tl1 & E & H).
    rewrite app_nil_r in E. exists tl1. simpl fst. split; [exact E | exact H].
  - apply S; reflexivity.
Qed.

Lemma on_message_processed_once lib msg rd prediction risk :
  telemetry lib msg = Ok rd ->
  verdict lib (features_of rd) = Ok (prediction, risk) ->
  report_printable lib rd = true ->
  classified (output (on_message lib msg)) = [features_of rd]
  /\ appended (output (on_message lib msg)) = [record_of rd prediction risk].
Proof.
  intros Ht Hv Hp.
  destruct (on_message_processed_shape _ _ _ _ _ Ht Hv Hp)
    as (tl & E & Ha & Hc).
  rewrite E. simpl. rewrite Ha, Hc.
  split; reflexivity.
Qed.

Lemma db_trace_healthy srv val :
  (forall op, srv op = None) ->
  db_trace srv (db_ops val)
  = [Db Connect None; Db Cursor None; Db (Execute val) None; Db Commit None;
     Db CursorClose None; Db ConnClose None].
Proof. intro H. simpl. rewrite !H. reflexivity. Qed.

(** With a database that answers every operation, the record is in
    [sensor_logs] afterwards. *)
Lemma on_message_processed_healthy lib msg rd prediction risk :
  telemetry lib msg = Ok rd ->
  verdict lib (features_of rd) = Ok (prediction, risk) ->
  report_printable lib rd = true ->
  (forall op, db msg op = None) ->
  outcome (on_message lib msg) = Ok tt
  /\ sensor_logs (output (on_message lib msg)) = [record_of rd prediction risk].
Proof.
  intros Ht Hv Hp Hdb. unfold output, outcome.
  rewrite (on_message_processed _ _ _ _ _ [] Ht Hv Hp). cbv zeta.
  rewrite (first_fault_healthy _ _ Hdb), (db_trace_healthy _ _ Hdb).
  split; reflexivity.
Qed.

(** ** Extraction with defaults *)

Lemma dict_get_missing (d : list (string * value)) key default :
  has_key d key = false -> dict_get d key default = default.
Proof.
  induction d as [| [k v] d IH]; simpl; [reflexivity |].
  destruct (String.eqb k key); simpl; [discriminate | exact IH].
Qed.

Lemma dict_get_present (d : list (string * value)) key default :
  has_key d key = true ->
  exists v, In (key, v) d /\ dict_get d key default = v.
Proof.
  induction d as [| [k v] d IH]; simpl; [discriminate |].
  destruct (String.eqb k key) eqn:E; simpl.
  - intros _. apply String.eqb_eq in E. subst. exists v. auto.
  - intro H. destruct (IH H) as (v' & Hin & Hg). exists v'. auto.
Qed.

Lemma telemetry_of_dict lib msg fields g :
  decoded lib msg = Some (VDict fields) ->
  calibrate (dict_get fields "raw_gas" (VInt 0)) = Ok g ->
  telemetry lib msg
  = Ok (mkReading (dict_get fields "node_id" (VStr "node_unknown"))
          (dict_get fields "raw_gas" (VInt 0))
          (dict_get fields "temp" (VInt 0))
          (dict_get fields "humidity" (VInt 50))
          g).
Proof.
  unfold decoded, telemetry. intros Hd Hx.
  destruct (decode lib (payload msg)) as [s |]; [| discriminate].
  simpl. rewrite Hd. simpl. rewrite Hx. reflexivity.
Qed.

Lemma calibrate_default : calibrate (VInt 0) = Ok (VFloat (S754_zero false)).
Proof. reflexivity. Qed.

(** C2.  When the label of the classifier says fire ([prediction ==
    1]), the status is CRITICAL, the most severe one, whatever the risk
    percentage is -- also below 50.  For a message whose report lines
    can be written to the standard output, the report announces the
    fire, the record handed to the sink carries CRITICAL, and with a
    database that answers it is this record that is stored. *)
Theorem alarm_label_is_critical lib msg rd risk :
  telemetry lib msg = Ok rd ->
  verdict lib (features_of rd) = Ok (1%Z, risk) ->
  report_printable lib rd = true ->
  status_label 1 risk = "CRITICAL"%string
  /\ classify true risk = CRITICAL
  /\ (forall s, (severity s <= severity CRITICAL)%nat)
  /\ (exists p, p < 50 /\ status_label 1 p = "CRITICAL"%string)
  /\ In (LFireDetected risk) (printed (output (on_message lib msg)))
  /\ appended (output (on_message lib msg)) = [record_of rd 1 risk]
  /\ alert_status (record_of rd 1 risk) = "CRITICAL"%string
  /\ ((forall op, db msg op = None) ->
      sensor_logs (output (on_message lib msg)) = [record_of rd 1 risk]).
Proof.
  intros Ht Hv Hp.
  split; [reflexivity |]. split; [reflexivity |].
  split; [intros []; simpl; lia |].
  split; [exists 0; split; reflexivity |].
  split.
  { destruct (on_message_processed_shape _ _ _ _ _ Ht Hv Hp) as (tl & E & _).
    rewrite E. simpl. auto. }
  split; [apply (on_message_processed_once _ _ _ _ _ Ht Hv Hp) |].
  split; [reflexivity |].
  intro Hdb. apply (on_message_processed_healthy _ _ _ _ _ Ht Hv Hp Hdb).
Qed.

Lemma alarm_label_is_critical_witness :
  exists r,
    sensor_logs (output (on_message alarmist_library (msg_of "{}" db_healthy)))
    = [r]
    /\ alert_status r = "CRITICAL"%string
    /\ fire_risk r < 50.
Proof.
  pose (rd := mkReading (VStr "node_unknown") (VInt 0) (VInt 0) (VInt 50)
                (VFloat (S754_zero false))).
  exists (record_of rd 1 ((3 # 10) * 100)).
  destruct (alarm_label_is_critical alarmist_library (msg_of "{}" db_healthy)
              rd ((3 # 10) * 100) eq_refl eq_refl eq_refl)
    as (_ & _ & _ & _ & _ & _ & Hs & Hdb).
  split; [apply Hdb; reflexivity |].
  split; [exact Hs | reflexivity].
Defined.

(** ** What reaches the classifier *)


(** The calibrated gas is a float, whatever the class of the raw
    number. *)
Lemma calibrate_is_float raw g :
  calibrate raw = Ok g -> exists f, g = VFloat f.
Proof.
  unfold calibrate.
  destruct (as_number raw) as [[z | f] |]; cbn [rbind]; [| | discriminate].
  - rewrite py_calibrate_int.
    destruct (int_true_div (z * 1000) 4095) as [q |]; cbn [rbind value_of];
      [| discriminate].
    intro H. inversion H. eexists. reflexivity.
  - rewrite py_calibrate_float. cbn [rbind value_of].
    intro H. inversion H. eexists. reflexivity.
Qed.

Lemma classified_report_prefix lib rd :
  classified (report_prefix lib rd) = [] /\ probed (report_prefix lib rd) = []
  /\ appended (report_prefix lib rd) = [].
Proof.
  unfold report_prefix. destruct (stdout_encodes lib _); repeat split.
Qed.

Lemma on_message_classified lib msg rd :
  telemetry lib msg = Ok rd ->
  classified (output (on_message lib msg)) = [features_of rd].
Proof.
  intro Ht.
  destruct (verdict lib (features_of rd)) as [[prediction risk] | e] eqn:Hv.
  - destruct (report_printable lib rd) eqn:Hp.
    + apply (on_message_processed_once _ _ _ _ _ Ht Hv Hp).
    + unfold output.
      rewrite (on_message_unprintable _ _ _ _ _ [] Ht Hv Hp). cbv zeta.
      cbn [fst app]. cbn [classified].
      rewrite classified_app, (proj1 (classified_report_prefix lib rd)).
      reflexivity.
  - unfold output, on_message, try_except.
    rewrite on_message_body_steps, Ht. cbv zeta. rewrite Hv.
    unfold classifier_calls.
    destruct (is_Exception e);
      destruct (labels <-? predict lib (features_of rd);; index labels 0);
      reflexivity.
Qed.

Lemma probed_app (u v : world) : probed (u ++ v) = probed u ++ probed v.
Proof.
  induction u as [| [] u IH]; simpl; rewrite ?IH; reflexivity.
Qed.

Lemma probed_db_trace srv ops : probed (db_trace srv ops) = [].
Proof.
  induction ops as [| op ops IH]; simpl; [reflexivity |].
  destruct (srv op); [reflexivity | exact IH].
Qed.

(** The probability is asked for the same features, once the label was
    returned. *)
Lemma on_message_probed lib msg rd :
  telemetry lib msg = Ok rd ->
  probed (output (on_message lib msg))
  = match labels <-? predict lib (features_of rd) ;; index labels 0 with
    | Ok _ => [features_of rd]
    | Raise _ => []
    end.
Proof.
  intro Ht.
  destruct (verdict lib (features_of rd)) as [[prediction risk] | e] eqn:Hv.
  - assert (L : exists l,
               (labels <-? predict lib (features_of rd) ;; index labels 0)
               = Ok l).
    { unfold verdict, rbind in Hv. unfold rbind.
      destruct (predict lib (features_of rd)) as [labels |]; [| discriminate].
      destruct (index labels 0) as [l |]; [| discriminate].
      exists l. reflexivity. }
    destruct L as (l & ->).
    destruct (report_printable lib rd) eqn:Hp.
    + unfold output.
      rewrite (on_message_processed _ _ _ _ _ [] Ht Hv Hp). cbv zeta.
      assert (Q : forall tl : world,
                 probed tl = [] ->
                 probed (([] ++ [Predict (features_of rd);
                                 PredictProba (features_of rd)]
                            ++ report rd prediction risk
                            ++ Append (record_of rd prediction risk)
                            :: db_trace (db msg)
                                 (db_ops (record_of rd prediction risk)))
                           ++ tl)
                 = [features_of rd]).
      { intros tl Htl. rewrite probed_app, Htl. cbn [app probed report].
        rewrite probed_db_trace. reflexivity. }
      destruct (first_fault _ _) as [e |].
      * destruct (is_mysql_Error e); [apply Q; reflexivity |].
        destruct (is_Exception e); [apply Q; reflexivity |].
        cbn [fst]. rewrite <- (app_nil_r (_ ++ _)). apply Q. reflexivity.
      * apply Q. reflexivity.
    + unfold output.
      rewrite (on_message_unprintable _ _ _ _ _ [] Ht Hv Hp). cbv zeta.
      cbn [fst app probed].
      rewrite probed_app,
        (proj1 (proj2 (classified_report_prefix lib rd))).
      reflexivity.
  - unfold output, on_message, try_except.
    rewrite on_message_body_steps, Ht. cbv zeta. rewrite Hv.
    unfold classifier_calls.
    destruct (is_Exception e);
      destruct (labels <-? predict lib (features_of rd);; index labels 0);
      reflexivity.
Qed.

(** C5.  In a decoded message object every missing field takes its
    default -- [raw_gas] 0, [temp] 0, [humidity] 50, [node_id]
    ["node_unknown"] -- and a missing field makes nothing fail: the
    extraction succeeds whenever the calibration of the gas returns,
    which it does when [raw_gas] is missing.  A message with all four
    fields missing is calibrated to 0.0, reaches the classifier as
    [[0, 50, 0.0]] and, once the classifier has answered and when the
    report can be written to the standard output, is reported and
    handed to the sink exactly once, which tries to connect. *)
Theorem missing_fields_take_defaults lib msg fields :
  decoded lib msg = Some (VDict fields) ->
  (forall key default,
     has_key fields key = false -> dict_get fields key default = default)
  /\ (forall g,
        calibrate (dict_get fields "raw_gas" (VInt 0)) = Ok g ->
        telemetry lib msg
        = Ok (mkReading (dict_get fields "node_id" (VStr "node_unknown"))
                (dict_get fields "raw_gas" (VInt 0))
                (dict_get fields "temp" (VInt 0))
                (dict_get fields "humidity" (VInt 50))
                g))
  /\ (has_key fields "raw_gas" = false ->
      telemetry lib msg
      = Ok (mkReading (dict_get fields "node_id" (VStr "node_unknown"))
              (VInt 0)
              (dict_get fields "temp" (VInt 0))
              (dict_get fields "humidity" (VInt 50))
              (VFloat (S754_zero false))))
  /\ (has_key fields "node_id" = false ->
      has_key fields "raw_gas" = false ->
      has_key fields "temp" = false ->
      has_key fields "humidity" = false ->
      let rd := mkReading (VStr "node_unknown") (VInt 0) (VInt 0) (VInt 50)
                  (VFloat (S754_zero false)) in
      telemetry lib msg = Ok rd
      /\ forall prediction risk,
           verdict lib (features_of rd) = Ok (prediction, risk) ->
           report_printable lib rd = true ->
           classified (output (on_message lib msg))
           = [[[VInt 0; VInt 50; VFloat (S754_zero false)]]]
           /\ probed (output (on_message lib msg))
              = [[[VInt 0; VInt 50; VFloat (S754_zero false)]]]
           /\ appended (output (on_message lib msg))
              = [mkRow (VStr "node_unknown") (VInt 0) (VInt 50)
                   (VFloat (S754_zero false)) risk
                   (status_label prediction risk)]
           /\ exists tl,
                output (on_message lib msg)
                = [Predict (features_of rd); PredictProba (features_of rd)]
                    ++ report rd prediction risk
                    ++ Append (record_of rd prediction risk)
                    :: Db Connect (db msg Connect) :: tl).
Proof.
  intro Hd.
  split; [intros key default; apply dict_get_missing |].
  split; [intros g; apply telemetry_of_dict; exact Hd |].
  assert (G : has_key fields "raw_gas" = false ->
              telemetry lib msg
              = Ok (mkReading (dict_get fields "node_id" (VStr "node_unknown"))
                      (VInt 0)
                      (dict_get fields "temp" (VInt 0))
                      (dict_get fields "humidity" (VInt 50))
                      (VFloat (S754_zero false)))).
  { intro Hg.
    assert (X : calibrate (dict_get fields "raw_gas" (VInt 0))
                = Ok (VFloat (S754_zero false)))
      by (rewrite (dict_get_missing _ _ _ Hg); exact calibrate_default).
    rewrite (telemetry_of_dict _ _ _ _ Hd X).
    rewrite (dict_get_missing _ _ _ Hg). reflexivity. }
  split; [exact G |].
  intros Hn Hg Ht Hh rd.
  assert (T : telemetry lib msg = Ok rd).
  { rewrite (G Hg).
    rewrite (dict_get_missing _ _ _ Hn), (dict_get_missing _ _ _ Ht),
      (dict_get_missing _ _ _ Hh).
    reflexivity. }
  split; [exact T |].
  intros prediction risk Hv Hp.
  destruct (on_message_processed_once _ _ _ _ _ T Hv Hp) as (Hc & Ha).
  split; [exact Hc |].
  split.
  { rewrite (on_message_probed _ _ _ T).
    unfold verdict, rbind in Hv. unfold rbind.
    destruct (predict lib (features_of rd)) as [labels |]; [| discriminate].
    destruct (index labels 0); [reflexivity | discriminate]. }
  split; [exact Ha |].
  destruct (on_message_processed_shape _ _ _ _ _ T Hv Hp) as (tl & E & _).
  exists tl. exact E.
Qed.

Lemma missing_fields_take_defaults_witness :
  appended (output (on_message threshold_library (msg_of "{}" db_unreachable)))
  = [mkRow (VStr "node_unknown") (VInt 0) (VInt 50)
       (VFloat (S754_zero false)) ((1 # 10) * 100) "SAFE"].
Proof.
  destruct (missing_fields_take_defaults threshold_library
              (msg_of "{}" db_unreachable) [] eq_refl)
    as (_ & _ & _ & H).
  destruct (H eq_refl eq_refl eq_refl eq_refl) as (_ & K).
  destruct (K 0%Z ((1 # 10) * 100) eq_refl eq_refl) as (_ & _ & Ha & _).
  exact Ha.
Defined.

(** C6, as stated: on the message [n1] the calibrated gas is not 500.06
    to the second decimal. *)
Lemma n1_gas_is_not_500_06 :
  ~ n1_reaches_classifier_with (50006 # 100) threshold_library
      (msg_of n1_body db_healthy).
Proof.
  intros (f & g & H & V & R).
  vm_compute in H. inversion H. subst f.
  vm_compute in V. inversion V. subst g.
  vm_compute in R. apply R. reflexivity.
Qed.

Lemma calibrate_n1 :
  calibrate (VInt 2048)
  = Ok (VFloat (S754_finite false 8798241030272031 (-44))).
Proof. vm_compute. reflexivity. Qed.

(** C6, amended.  Every message whose fields were extracted reaches the
    classifier with the features in the order temperature, humidity,
    calibrated gas: [predict] is called once with them, and
    [predict_proba], which is called when [predict] has returned a
    label, with the same.  For the message [n1] (raw gas 2048,
    temperature 25, humidity 40) the calibrated gas is the float
    8798241030272031 / 2^44 = 500.1221001221001, the nearest to
    2048000/4095; it is 500.12 to the second decimal, and the features
    are [[25, 40, 500.12...]]. *)
Theorem features_order_and_n1 lib msg :
  (forall rd,
     telemetry lib msg = Ok rd ->
     let x := [[r_temp rd; r_hum rd; r_calibrated_gas rd]] in
     classified (output (on_message lib msg)) = [x]
     /\ (forall y, In y (probed (output (on_message lib msg))) -> y = x)
     /\ (forall prediction risk,
           verdict lib x = Ok (prediction, risk) ->
           probed (output (on_message lib msg)) = [x]))
  /\ (decoded lib msg = Some (VDict n1_fields) ->
      let f := S754_finite false 8798241030272031 (-44) in
      classified (output (on_message lib msg))
      = [[[VInt 25; VInt 40; VFloat f]]]
      /\ (forall y, In y (probed (output (on_message lib msg))) ->
                    y = [[VInt 25; VInt 40; VFloat f]])
      /\ float_value f = Some (8798241030272031 # 17592186044416)
      /\ Qabs ((8798241030272031 # 17592186044416) - (2048000 # 4095))
         <= 1 # 10000000000000
      /\ n1_reaches_classifier_with (50012 # 100) lib msg).
Proof.
  assert (O : forall rd,
             telemetry lib msg = Ok rd ->
             let x := [[r_temp rd; r_hum rd; r_calibrated_gas rd]] in
             classified (output (on_message lib msg)) = [x]
             /\ (forall y, In y (probed (output (on_message lib msg))) ->
                           y = x)
             /\ (forall prediction risk,
                   verdict lib x = Ok (prediction, risk) ->
                   probed (output (on_message lib msg)) = [x])).
  { intros rd Ht x. change x with (features_of rd).
    split; [exact (on_message_classified _ _ _ Ht) |].
    rewrite (on_message_probed _ _ _ Ht).
    split.
    - intro y.
      destruct (labels <-? predict lib (features_of rd) ;; index labels 0);
        simpl; [intros [H | []]; now symmetry | intros []].
    - intros prediction risk Hv.
      unfold verdict, rbind in Hv. unfold rbind.
      destruct (predict lib (features_of rd)) as [labels |]; [| discriminate].
      destruct (index labels 0); [reflexivity | discriminate]. }
  split; [exact O |].
  intros Hd f.
  assert (T := telemetry_of_dict lib msg n1_fields _ Hd calibrate_n1).
  cbn [dict_get n1_fields String.eqb Ascii.eqb Bool.eqb] in T.
  destruct (O _ T) as (C & P & _).
  cbn [r_temp r_hum r_calibrated_gas] in C, P.
  split; [exact C |]. split; [exact P |].
  split; [reflexivity |].
  split; [vm_compute; discriminate |].
  exists f, (8798241030272031 # 17592186044416).
  split; [exact C |]. split; [reflexivity |].
  unfold rounds_to_2dp. vm_compute. discriminate.
Qed.

Lemma features_order_and_n1_witness :
  n1_reaches_classifier_with (50012 # 100) threshold_library
    (msg_of n1_body db_healthy).
Proof.
  destruct (proj2 (features_order_and_n1 threshold_library
                     (msg_of n1_body db_healthy)) eq_refl)
    as (_ & _ & _ & _ & H).
  exact H.
Defined.

(** ** Isolation of failures *)

Lemma output_of_run {A} (m : M A) (o : world) (r : result A) :
  m [] = (o, r) -> output m = o /\ outcome m = r.
Proof. unfold output, outcome. intro H. rewrite H. split; reflexivity. Qed.


Lemma loop_after_drop lib msg rest e w :
  telemetry lib msg = Raise e ->
  loop_forever lib (msg :: rest) w
  = (w ++ [Print (LErrorProcessing e)] ++ output (loop_forever lib rest),
     outcome (loop_forever lib rest)).
Proof.
  intro H.
  destruct (output_of_run _ _ _ (on_message_dropped lib msg e [] H)) as (Ho & Hr).
  rewrite (loop_forever_cons lib msg rest w Hr), Ho. reflexivity.
Qed.



(** C10.  A payload that decodes to something other than an object (a
    list, a number, a string, a boolean, [null]) fails at the first
    [data.get] with [AttributeError]; the handler of [on_message] prints
    it, the classifier is not called, the sink is not called, and the
    loop continues with the next message. *)
Theorem non_object_json_is_dropped lib msg data rest w :
  decoded lib msg = Some data ->
  (forall d, data <> VDict d) ->
  telemetry lib msg = Raise AttributeError
  /\ on_message lib msg w
     = (w ++ [Print (LErrorProcessing AttributeError)], Ok tt)
  /\ classified (output (on_message lib msg)) = []
  /\ appended (output (on_message lib msg)) = []
  /\ loop_forever lib (msg :: rest) w
     = (w ++ [Print (LErrorProcessing AttributeError)]
          ++ output (loop_forever lib rest),
        outcome (loop_forever lib rest)).
Proof.
  intros Hd Hn.
  assert (T : telemetry lib msg = Raise AttributeError).
  { unfold decoded in Hd. unfold telemetry.
    destruct (decode lib (payload msg)) as [s |]; [| discriminate].
    simpl. rewrite Hd. simpl.
    destruct data; try reflexivity. exfalso. now apply (Hn d). }
  split; [exact T |].
  split; [apply on_message_dropped; exact T |].
  destruct (output_of_run _ _ _ (on_message_dropped lib msg _ [] T)) as (Ho & _).
  rewrite Ho.
  split; [reflexivity |]. split; [reflexivity |].
  apply loop_after_drop. exact T.
Qed.

Lemma non_object_json_is_dropped_witness :
  loop_forever threshold_library
    [msg_of "[1, 2]" db_healthy; msg_of n1_body db_healthy] []
  = ([Print (LErrorProcessing AttributeError)]
       ++ output (on_message threshold_library (msg_of n1_body db_healthy)),
     Ok tt).
Proof.
  assert (N : forall d, VList [VInt 1; VInt 2] <> VDict d)
    by (intros d H; discriminate H).
  destruct (non_object_json_is_dropped threshold_library
              (msg_of "[1, 2]" db_healthy) (VList [VInt 1; VInt 2])
              [msg_of n1_body db_healthy] [] eq_refl N)
    as (_ & _ & _ & _ & H).
  rewrite H. reflexivity.
Defined.

(** C7.  When the connector raises while a classified message, whose
    report the standard output could take, is being saved -- at the
    connection, at the [INSERT], at the commit -- the error is caught
    and printed: by [save_to_database] itself for a
    [mysql.connector.Error], by the handler of [on_message] for any
    other [Exception].  The callback returns normally, the message has
    been classified and reported before, and the loop handles the
    messages that follow exactly as it would have without the failure. *)
Theorem sink_failure_is_isolated lib msg rd prediction risk e rest w :
  telemetry lib msg = Ok rd ->
  verdict lib (features_of rd) = Ok (prediction, risk) ->
  report_printable lib rd = true ->
  first_fault (db msg) (db_ops (record_of rd prediction risk)) = Some e ->
  is_Exception e = true ->
  (is_mysql_Error e = true ->
   outcome (save_to_database (db msg) (r_node rd) (r_temp rd) (r_hum rd)
              (r_calibrated_gas rd) risk (status_label prediction risk))
   = Ok tt)
  /\ outcome (on_message lib msg) = Ok tt
  /\ (exists pre,
        output (on_message lib msg)
        = pre ++ [Print (if is_mysql_Error e then LDatabaseError e
                         else LErrorProcessing e)])
  /\ (exists tl,
        output (on_message lib msg)
        = [Predict (features_of rd); PredictProba (features_of rd)]
            ++ report rd prediction risk
            ++ Append (record_of rd prediction risk) :: tl)
  /\ loop_forever lib (msg :: rest) w
     = (w ++ output (on_message lib msg) ++ output (loop_forever lib rest),
        outcome (loop_forever lib rest)).
Proof.
  intros Ht Hv Hpr Hf He.
  assert (R : outcome (on_message lib msg) = Ok tt
              /\ exists pre,
                   output (on_message lib msg)
                   = pre ++ [Print (if is_mysql_Error e then LDatabaseError e
                                    else LErrorProcessing e)]).
  { unfold output, outcome.
    rewrite (on_message_processed _ _ _ _ _ [] Ht Hv Hpr). cbv zeta.
    rewrite Hf, He.
    destruct (is_mysql_Error e); (split; [reflexivity | eexists; reflexivity]). }
  destruct R as (Hr & Hp).
  split.
  { intro Hm. unfold outcome. rewrite save_to_database_run. cbv zeta.
    change (mkRow _ _ _ _ _ _) with (record_of rd prediction risk).
    rewrite Hf, Hm. reflexivity. }
  split; [exact Hr |]. split; [exact Hp |].
  split.
  { destruct (on_message_processed_shape _ _ _ _ _ Ht Hv Hpr) as (tl & E & _).
    eexists. exact E. }
  apply loop_forever_cons. exact Hr.
Qed.

Lemma sink_failure_is_isolated_witness :
  loop_forever threshold_library
    [msg_of n1_body db_constraint; msg_of n2_body db_healthy] []
  = (output (on_message threshold_library (msg_of n1_body db_constraint))
       ++ output (on_message threshold_library (msg_of n2_body db_healthy)),
     Ok tt).
Proof.
  pose (rd := mkReading (VStr "n1") (VInt 2048) (VInt 25) (VInt 40)
                (VFloat (S754_finite false 8798241030272031 (-44)))).
  assert (T : telemetry threshold_library (msg_of n1_body db_constraint)
              = Ok rd) by (vm_compute; reflexivity).
  assert (V : verdict threshold_library (features_of rd)
              = Ok (1%Z, (9 # 10) * 100)) by (vm_compute; reflexivity).
  destruct (sink_failure_is_isolated threshold_library
              (msg_of n1_body db_constraint) rd 1%Z ((9 # 10) * 100)
              (MySQLError "1062: duplicate entry")
              [msg_of n2_body db_healthy] [] T V eq_refl eq_refl eq_refl)
    as (_ & _ & _ & _ & H).
  rewrite H. vm_compute. reflexivity.
Defined.




(** * Further properties of the gateway *)

(** ** Calibration *)

Lemma py_calibrate_int_value z f g :
  py_calibrate (PInt z) = Ok (PFloat f) ->
  float_value f = Some g ->
  Qabs (g - inject_Z z * (1000 # 4095)) <= Qabs g * (1 # 4503599627370496)
  /\ ((0 < z)%Z -> 0 < g)
  /\ ((z < 0)%Z -> g < 0)
  /\ (z = 0%Z -> g = 0).
Proof.
  intros R V.
  destruct (py_calibrate_int_spec z) as [(_ & R') | (f' & g' & R' & V' & H)].
  - rewrite R' in R. discriminate R.
  - rewrite R' in R. inversion R. subst f'.
    rewrite V' in V. inversion V. subst g'. exact H.
Qed.

(** The calibrated value of an int, bracketed on the side of its
    sign. *)
Lemma py_calibrate_int_signed z f g :
  py_calibrate (PInt z) = Ok (PFloat f) ->
  float_value f = Some g ->
  let a := inject_Z z * (1000 # 4095) in
  let eps := 1 # 4503599627370496 in
  ((0 <= z)%Z -> 0 <= g /\ g * (1 - eps) <= a /\ a <= g * (1 + eps))
  /\ ((z <= 0)%Z -> g <= 0 /\ g * (1 + eps) <= a /\ a <= g * (1 - eps)).
Proof.
  intros R V a eps.
  destruct (py_calibrate_int_value _ _ _ R V) as (B & Hpos & Hneg & Hz).
  fold a in B.
  split; intro H.
  - destruct (Z.eq_dec z 0) as [E | N].
    + rewrite (Hz E). subst z. unfold a, eps. repeat split; discriminate.
    + assert (P : 0 < g) by (apply Hpos; lia).
      rewrite (Qabs_pos g) in B by lra.
      apply Qabs_Qle_condition in B. unfold eps. repeat split; lra.
  - destruct (Z.eq_dec z 0) as [E | N].
    + rewrite (Hz E). subst z. unfold a, eps. repeat split; discriminate.
    + assert (P : g < 0) by (apply Hneg; lia).
      rewrite (Qabs_neg g) in B by lra.
      apply Qabs_Qle_condition in B. unfold eps. repeat split; lra.
Qed.

Lemma py_calibrate_int_increasing z z' f f' g g' :
  py_calibrate (PInt z) = Ok (PFloat f) ->
  py_calibrate (PInt z') = Ok (PFloat f') ->
  float_value f = Some g ->
  float_value f' = Some g' ->
  (Z.abs z <= 10 ^ 15)%Z ->
  (Z.abs z' <= 10 ^ 15)%Z ->
  (z < z')%Z -> g < g'.
Proof.
  intros R R' V V' Hb Hb' Hlt.
  destruct (py_calibrate_int_signed _ _ _ R V) as (P & N).
  destruct (py_calibrate_int_signed _ _ _ R' V') as (P' & N').
  cbv zeta in P, N, P', N'.
  assert (S : inject_Z z + 1 <= inject_Z z')
    by (change 1 with (inject_Z 1); rewrite <- inject_Z_plus, <- Zle_Qle; lia).
  assert (U : inject_Z z <= 1000000000000000)
    by (change 1000000000000000 with (inject_Z (10 ^ 15));
        rewrite <- Zle_Qle; lia).
  assert (L : - (1000000000000000) <= inject_Z z)
    by (change (- (1000000000000000)) with (inject_Z (- 10 ^ 15));
        rewrite <- Zle_Qle; lia).
  assert (U' : inject_Z z' <= 1000000000000000)
    by (change 1000000000000000 with (inject_Z (10 ^ 15));
        rewrite <- Zle_Qle; lia).
  assert (L' : - (1000000000000000) <= inject_Z z')
    by (change (- (1000000000000000)) with (inject_Z (- 10 ^ 15));
        rewrite <- Zle_Qle; lia).
  destruct (Z_le_gt_dec 0 z) as [Hz | Hz];
    destruct (Z_le_gt_dec 0 z') as [Hz' | Hz'].
  - destruct (P Hz) as (? & ? & ?). destruct (P' Hz') as (? & ? & ?). lra.
  - lia.
  - destruct N as (? & ? & ?); [lia |].
    destruct (P' Hz') as (? & ? & ?).
    destruct (Z.eq_dec z' 0) as [E | E].
    + assert (g < 0)
        by (apply (py_calibrate_int_value _ _ _ R V); lia).
      lra.
    + assert (0 < g')
        by (apply (py_calibrate_int_value _ _ _ R' V'); lia).
      lra.
  - destruct N as (? & ? & ?); [lia |].
    destruct N' as (? & ? & ?); [lia |]. lra.
Qed.

(** X1.  Mapping a raw value of the converter to the range of the
    sensor and back with the ranges exchanged returns the raw value up
    to the rounding of the floats, within [2^-40]; it does not always
    return it exactly: 2097 comes back as 2096.9999999999995. *)
Theorem map_value_round_trip (z : Z) :
  (0 <= z <= 4095)%Z ->
  exists f g,
    round_trip z = Ok (PFloat f)
    /\ float_value f = Some g
    /\ Qabs (g - inject_Z z) <= 1 # 1099511627776
    /\ (exists f0 g0,
          round_trip 2097 = Ok (PFloat f0)
          /\ float_value f0 = Some g0
          /\ g0 < 2097).
Proof.
  intro Hz.
  assert (A : forallb round_trip_close (map Z.of_nat (seq 0 4096)) = true)
    by (vm_compute; reflexivity).
  rewrite forallb_forall in A.
  assert (I : In z (map Z.of_nat (seq 0 4096))).
  { apply in_map_iff. exists (Z.to_nat z). split; [lia |].
    apply in_seq. lia. }
  specialize (A z I). unfold round_trip_close in A.
  destruct (round_trip z) as [[n | f] | e]; try discriminate A.
  destruct (float_value f) as [g |] eqn:V; [| discriminate A].
  exists f, g. split; [reflexivity |]. split; [exact V |].
  split; [apply Qle_bool_iff; exact A |].
  exists (S754_finite false 4611351766892543 (-41)),
    (4611351766892543 # 2199023255552).
  split; [vm_compute; reflexivity |].
  split; [reflexivity | reflexivity].
Qed.

Lemma map_value_round_trip_witness :
  exists f g,
    round_trip 2048 = Ok (PFloat f)
    /\ float_value f = Some g
    /\ Qabs (g - 2048) <= 1 # 1099511627776.
Proof.
  assert (B : (0 <= 2048 <= 4095)%Z) by (split; discriminate).
  destruct (map_value_round_trip 2048 B) as (f & g & R & V & H & _).
  exists f, g. split; [exact R |]. split; [exact V | exact H].
Defined.

(** X2.  With the constants of the gateway the calibration of an int
    lies between 0 and 1000 exactly when the raw value lies between 0
    and 4095, and it is strictly increasing on the ints up to 10^15 in
    magnitude, so that distinct raw values of the converter give
    distinct calibrated values. *)
Theorem calibrate_gas_strict_range (z z' : Z) f f' g g' :
  py_calibrate (PInt z) = Ok (PFloat f) ->
  py_calibrate (PInt z') = Ok (PFloat f') ->
  float_value f = Some g ->
  float_value f' = Some g' ->
  ((0 <= z <= 4095)%Z <-> 0 <= g <= 1000)
  /\ ((Z.abs z <= 10 ^ 15)%Z ->
      (Z.abs z' <= 10 ^ 15)%Z ->
      ((z < z')%Z <-> g < g') /\ (z = z' <-> g == g')).
Proof.
  intros R R' V V'.
  destruct (py_calibrate_int_signed _ _ _ R V) as (P & N).
  cbv zeta in P, N.
  split.
  - split.
    + intros (H0 & H1).
      destruct (P H0) as (G0 & G1 & G2). split; [exact G0 |].
      destruct (Z.eq_dec z 4095) as [E | E].
      * subst z. vm_compute in R. inversion R. subst f.
        vm_compute in V. inversion V. discriminate.
      * assert (Q : inject_Z z <= 4094)
          by (change 4094 with (inject_Z 4094); rewrite <- Zle_Qle; lia).
        lra.
    + intros (G0 & G1).
      destruct (py_calibrate_int_value _ _ _ R V) as (_ & Hpos & Hneg & _).
      split.
      * destruct (Z_lt_le_dec z 0) as [L | L]; [| exact L].
        specialize (Hneg L). lra.
      * destruct (Z_lt_le_dec 4095 z) as [L | L]; [| exact L]. exfalso.
        destruct P as (_ & _ & P2); [lia |].
        assert (Q : 4096 <= inject_Z z)
          by (change 4096 with (inject_Z 4096); rewrite <- Zle_Qle; lia).
        lra.
  - intros Hb Hb'.
    assert (F : forall a b fa fb ga gb,
               py_calibrate (PInt a) = Ok (PFloat fa) ->
               py_calibrate (PInt b) = Ok (PFloat fb) ->
               float_value fa = Some ga ->
               float_value fb = Some gb ->
               a = b -> ga == gb).
    { intros a b fa fb ga gb Ra Rb Va Vb E. subst b.
      rewrite Ra in Rb. inversion Rb. subst fb.
      rewrite Va in Vb. inversion Vb. reflexivity. }
    split; split.
    + apply (py_calibrate_int_increasing _ _ _ _ _ _ R R' V V' Hb Hb').
    + intro H.
      destruct (Z.lt_trichotomy z z') as [L | [E | L]]; [exact L | |];
        exfalso.
      * pose proof (F _ _ _ _ _ _ R R' V V' E). lra.
      * pose proof (py_calibrate_int_increasing _ _ _ _ _ _
                      R' R V' V Hb' Hb L). lra.
    + apply (F _ _ _ _ _ _ R R' V V').
    + intro H.
      destruct (Z.lt_trichotomy z z') as [L | [E | L]]; [| exact E |];
        exfalso.
      * pose proof (py_calibrate_int_increasing _ _ _ _ _ _
                      R R' V V' Hb Hb' L). lra.
      * pose proof (py_calibrate_int_increasing _ _ _ _ _ _
                      R' R V' V Hb' Hb L). lra.
Qed.

Lemma calibrate_gas_strict_range_witness :
  exists f f' g g',
    py_calibrate (PInt 4094) = Ok (PFloat f)
    /\ py_calibrate (PInt 4095) = Ok (PFloat f')
    /\ float_value f = Some g
    /\ float_value f' = Some g'
    /\ g < g'.
Proof.
  assert (R : py_calibrate (PInt 4094)
              = Ok (PFloat (S754_finite false 8793945014143969 (-43))))
    by (vm_compute; reflexivity).
  assert (R' : py_calibrate (PInt 4095)
               = Ok (PFloat (S754_finite false 8796093022208000 (-43))))
    by (vm_compute; reflexivity).
  assert (B : (Z.abs 4094 <= 10 ^ 15)%Z) by (vm_compute; discriminate).
  assert (B' : (Z.abs 4095 <= 10 ^ 15)%Z) by (vm_compute; discriminate).
  destruct (calibrate_gas_strict_range 4094 4095 _ _ _ _ R R' eq_refl eq_refl)
    as (_ & H).
  destruct (H B B') as ((S & _) & _).
  assert (L : (4094 < 4095)%Z) by reflexivity.
  do 4 eexists. split; [exact R |]. split; [exact R' |].
  split; [reflexivity |]. split; [reflexivity |].
  exact (S L).
Defined.

(** X3.  When the output range has width zero, [map_value] is
    constant: for int arguments with distinct input bounds the result
    is [out_min] as a float, whatever [x] is, and it fails only when
    [out_min] is too large for a float. *)
Theorem map_value_constant_on_flat_range (x x' a b c : Z) :
  a <> b ->
  (forall e,
     py_map_value (PInt x) (PInt a) (PInt b) (PInt c) (PInt c) = Raise e ->
     e = OverflowError /\ float_of_int c = Raise OverflowError)
  /\ (forall fc,
        float_of_int c = Ok fc ->
        exists r,
          py_map_value (PInt x) (PInt a) (PInt b) (PInt c) (PInt c)
          = Ok (PFloat r)
          /\ float_value r = float_value fc
          /\ py_map_value (PInt x') (PInt a) (PInt b) (PInt c) (PInt c)
             = Ok (PFloat r)).
Proof.
  intro Hab.
  assert (D : forall t,
             py_map_value (PInt t) (PInt a) (PInt b) (PInt c) (PInt c)
             = (fc <-? float_of_int c ;;
                Ok (PFloat (SFadd 53 1024 (S754_zero (b - a <? 0)%Z) fc)))).
  { intro t. rewrite py_map_value_ints. rewrite Z.sub_diag, Z.mul_0_r.
    unfold int_true_div.
    destruct (Z.eqb_spec (b - a) 0) as [E | _]; [lia |]. reflexivity. }
  split.
  - intros e. rewrite D.
    destruct (float_of_int c) as [fc | e'] eqn:F; cbn [rbind];
      [discriminate |].
    intro H. inversion H. subst e'.
    pose proof (to_float_raises (PInt c) _ F) as K. subst e.
    split; reflexivity.
  - intros fc F. rewrite !D, F. cbn [rbind].
    eexists. split; [reflexivity |]. split; [| reflexivity].
    unfold float_of_int in F.
    destruct (binary_normalize 53 1024 c 0 false) as [s | s | | s m e];
      inversion F; subst fc.
    + destruct (b - a <? 0)%Z, s; reflexivity.
    + reflexivity.
    + reflexivity.
Qed.

Lemma map_value_constant_on_flat_range_witness :
  py_map_value (PInt 5) (PInt 0) (PInt 10) (PInt 7) (PInt 7)
  = py_map_value (PInt 9) (PInt 0) (PInt 10) (PInt 7) (PInt 7).
Proof.
  assert (N : 0%Z <> 10%Z) by discriminate.
  destruct (proj2 (map_value_constant_on_flat_range 5 9 0 10 7 N)
              (S754_finite false 7881299347898368 (-50)))
    as (r & R & _ & R'); [vm_compute; reflexivity |].
  rewrite R, R'. reflexivity.
Defined.

(** ** The persistence helper *)

Ltac split_srv srv val :=
  destruct (srv Connect) eqn:?;
  [| destruct (srv Cursor) eqn:?;
     [| destruct (srv (Execute val)) eqn:?;
        [| destruct (srv Commit) eqn:?;
           [| destruct (srv CursorClose) eqn:?;
              [| destruct (srv ConnClose) eqn:? ]]]]].

Ltac run_save srv val :=
  unfold output, outcome, sensor_logs, reaches_commit;
  rewrite save_to_database_run; cbv zeta;
  change (mkRow _ _ _ _ _ _) with val;
  unfold db_ops; simpl first_fault; simpl db_trace;
  split_srv srv val;
  repeat match goal with
         | |- context [is_mysql_Error ?e] => destruct (is_mysql_Error e) eqn:?
         end;
  simpl.

(** X4.  [save_to_database] returns normally after printing exactly
    one line, the confirmation or the database error; it raises only
    what the connector raised outside the class
    [mysql.connector.Error], and then it has printed nothing. *)
Theorem save_to_database_outcome srv node temp hum smoke risk status :
  let val := mkRow node temp hum smoke risk status in
  let run := save_to_database srv node temp hum smoke risk status in
  (outcome run = Ok tt ->
   printed (output run) = [LSaved node]
   \/ exists e, first_fault srv (db_ops val) = Some e
                /\ is_mysql_Error e = true
                /\ printed (output run) = [LDatabaseError e])
  /\ (forall e,
        outcome run = Raise e ->
        first_fault srv (db_ops val) = Some e
        /\ is_mysql_Error e = false
        /\ printed (output run) = []).
Proof.
  intros val run. unfold run.
  split.
  - run_save srv val; intro H; try discriminate H;
      solve [ left; reflexivity
            | right; eexists;
              split; [reflexivity | split; [eassumption | reflexivity]] ].
  - intro e0. run_save srv val; intro H; try discriminate H;
      inversion H; subst; repeat split; congruence.
Qed.

Lemma save_to_database_outcome_witness :
  outcome (save_to_database db_driver_bug (VStr "n1") (VInt 25) (VInt 40)
             (VFloat (float_of_Z 500)) 90 "CRITICAL")
  = Raise (OtherException "UnicodeEncodeError")
  /\ printed (output (save_to_database db_driver_bug (VStr "n1") (VInt 25)
                        (VInt 40) (VFloat (float_of_Z 500)) 90 "CRITICAL")) = [].
Proof.
  destruct (save_to_database_outcome db_driver_bug (VStr "n1") (VInt 25)
              (VInt 40) (VFloat (float_of_Z 500)) 90 "CRITICAL") as (_ & H).
  destruct (H (OtherException "UnicodeEncodeError") eq_refl) as (_ & _ & P).
  split; [reflexivity | exact P].
Defined.

(** X5.  The record is stored exactly when the connection, the cursor,
    the [INSERT] and the commit all succeed; what happens while the
    cursor and the connection are closed does not matter, and one call
    never stores more than its own record. *)
Theorem stored_iff_commit_reached srv node temp hum smoke risk status :
  sensor_logs (output (save_to_database srv node temp hum smoke risk status))
  = if reaches_commit srv (mkRow node temp hum smoke risk status)
    then [mkRow node temp hum smoke risk status]
    else [].
Proof.
  set (val := mkRow node temp hum smoke risk status).
  run_save srv val; reflexivity.
Qed.

(** X6.  The line that confirms the save is printed exactly when no
    operation of the connector raised, and then the record is stored. *)
Theorem saved_line_is_sound srv node temp hum smoke risk status :
  let val := mkRow node temp hum smoke risk status in
  let run := save_to_database srv node temp hum smoke risk status in
  (In (LSaved node) (printed (output run))
   <-> first_fault srv (db_ops val) = None)
  /\ (In (LSaved node) (printed (output run)) ->
      sensor_logs (output run) = [val]).
Proof.
  intros val run. unfold run. split; [split |].
  - run_save srv val; intro H;
      repeat match goal with
             | H : _ \/ _ |- _ => destruct H
             | H : False |- _ => destruct H
             | H : _ = LSaved _ |- _ => discriminate H
             end; reflexivity.
  - run_save srv val; intro H; try discriminate H. left. reflexivity.
  - run_save srv val; intro H;
      repeat match goal with
             | H : _ \/ _ |- _ => destruct H
             | H : False |- _ => destruct H
             | H : _ = LSaved _ |- _ => discriminate H
             end; reflexivity.
Qed.

Lemma saved_line_is_sound_witness :
  sensor_logs (output (save_to_database db_healthy (VStr "n1") (VInt 25)
                         (VInt 40) (VFloat (float_of_Z 500)) 90 "CRITICAL"))
  = [mkRow (VStr "n1") (VInt 25) (VInt 40) (VFloat (float_of_Z 500)) 90 "CRITICAL"].
Proof.
  apply (proj2 (saved_line_is_sound db_healthy (VStr "n1") (VInt 25)
                  (VInt 40) (VFloat (float_of_Z 500)) 90 "CRITICAL")).
  apply (proj1 (saved_line_is_sound db_healthy (VStr "n1") (VInt 25)
                  (VInt 40) (VFloat (float_of_Z 500)) 90 "CRITICAL")).
  reflexivity.
Defined.

(** X7.  When the commit went through and closing the cursor or the
    connection then raises a MySQL error, the gateway prints a database
    error and no confirmation, although the record is stored. *)
Theorem close_failure_after_commit srv node temp hum smoke risk status e :
  reaches_commit srv (mkRow node temp hum smoke risk status) = true ->
  first_fault srv [CursorClose; ConnClose] = Some e ->
  is_mysql_Error e = true ->
  let run := save_to_database srv node temp hum smoke risk status in
  outcome run = Ok tt
  /\ printed (output run) = [LDatabaseError e]
  /\ sensor_logs (output run) = [mkRow node temp hum smoke risk status].
Proof.
  set (val := mkRow node temp hum smoke risk status).
  intros Hc Hf He run. unfold run.
  unfold reaches_commit in Hc. simpl in Hf. revert Hc Hf.
  run_save srv val; intros Hc Hf; try discriminate Hc; try discriminate Hf;
    inversion Hf; subst; try congruence; repeat split; reflexivity.
Qed.

Lemma close_failure_after_commit_witness :
  printed (output (save_to_database db_close_fails (VStr "n1") (VInt 25)
                     (VInt 40) (VFloat (float_of_Z 500)) 90 "CRITICAL"))
  = [LDatabaseError (MySQLError "2013: lost connection")]
  /\ sensor_logs (output (save_to_database db_close_fails (VStr "n1")
                            (VInt 25) (VInt 40) (VFloat (float_of_Z 500)) 90 "CRITICAL"))
     = [mkRow (VStr "n1") (VInt 25) (VInt 40) (VFloat (float_of_Z 500)) 90 "CRITICAL"].
Proof.
  destruct (close_failure_after_commit db_close_fails (VStr "n1") (VInt 25)
              (VInt 40) (VFloat (float_of_Z 500)) 90 "CRITICAL"
              (MySQLError "2013: lost connection") eq_refl eq_refl eq_refl)
    as (_ & P & S).
  split; [exact P | exact S].
Defined.

(** X8.  The connector operations of one call are a prefix of connect,
    cursor, execute, commit, close cursor, close connection.  When one
    of them raises after the connection was opened and before it is
    closed, the call never closes the connection. *)
Theorem connection_not_closed_on_failure srv node temp hum smoke risk status e :
  let val := mkRow node temp hum smoke risk status in
  let run := save_to_database srv node temp hum smoke risk status in
  srv Connect = None ->
  first_fault srv [Cursor; Execute val; Commit; CursorClose] = Some e ->
  (exists rest, db_ops val = db_ops_of (output run) ++ rest)
  /\ In Connect (db_ops_of (output run))
  /\ ~ In ConnClose (db_ops_of (output run)).
Proof.
  intros val run Hc Hf. unfold run. simpl in Hf. revert Hc Hf.
  run_save srv val; intros Hc Hf; try discriminate Hc; try discriminate Hf;
    (split; [eexists; unfold val; simpl; reflexivity |]);
    (split; [left; reflexivity |]);
    intro H;
    repeat match goal with
           | H : _ \/ _ |- _ => destruct H
           | H : False |- _ => destruct H
           | H : _ = ConnClose |- _ => discriminate H
           end.
Qed.

Lemma connection_not_closed_on_failure_witness :
  ~ In ConnClose
      (db_ops_of (output (save_to_database db_constraint (VStr "n1")
                            (VInt 25) (VInt 40) (VFloat (float_of_Z 500)) 90 "CRITICAL"))).
Proof.
  apply (connection_not_closed_on_failure db_constraint (VStr "n1") (VInt 25)
           (VInt 40) (VFloat (float_of_Z 500)) 90 "CRITICAL" (MySQLError "1062: duplicate entry")
           eq_refl eq_refl).
Defined.

(** ** One callback, case by case *)

Lemma printed_db_trace srv ops : printed (db_trace srv ops) = [].
Proof.
  induction ops as [| op ops IH]; simpl; [reflexivity |].
  destruct (srv op); [reflexivity | exact IH].
Qed.

Lemma first_fault_In srv ops e :
  first_fault srv ops = Some e -> exists op, In op ops /\ srv op = Some e.
Proof.
  induction ops as [| op ops IH]; simpl; [discriminate |].
  destruct (srv op) as [e' |] eqn:E.
  - intro H. inversion H. subst. exists op. auto.
  - intro H. destruct (IH H) as (op' & Hin & Hs). exists op'. auto.
Qed.

Lemma verdict_raise lib x e :
  verdict lib x = Raise e ->
  e = IndexError \/ predict lib x = Raise e \/ predict_proba lib x = Raise e.
Proof.
  unfold verdict, rbind, index.
  destruct (predict lib x) as [labels | e1]; [| intro H; inversion H; auto].
  destruct (nth_error labels 0); [| intro H; inversion H; auto].
  destruct (predict_proba lib x) as [probability | e2];
    [| intro H; inversion H; auto].
  destruct (nth_error probability 0) as [p |]; [| intro H; inversion H; auto].
  destruct (nth_error p 1); [discriminate | intro H; inversion H; auto].
Qed.

(** The three ways a callback can go: the message is dropped before the
    classifier, the classifier raises, or the message is classified and
    handed to the sink. *)
Lemma on_message_cases lib msg :
  (exists e,
     telemetry lib msg = Raise e
     /\ on_message lib msg [] = ([Print (LErrorProcessing e)], Ok tt))
  \/ (exists rd e,
        telemetry lib msg = Ok rd
        /\ verdict lib (features_of rd) = Raise e
        /\ on_message lib msg []
           = if is_Exception e
             then (classifier_calls lib (features_of rd)
                     ++ [Print (LErrorProcessing e)], Ok tt)
             else (classifier_calls lib (features_of rd), Raise e))
  \/ (exists rd prediction risk,
        telemetry lib msg = Ok rd
        /\ verdict lib (features_of rd) = Ok (prediction, risk)
        /\ report_printable lib rd = true)
  \/ (exists rd prediction risk,
        telemetry lib msg = Ok rd
        /\ verdict lib (features_of rd) = Ok (prediction, risk)
        /\ report_printable lib rd = false
        /\ on_message lib msg []
           = ([Predict (features_of rd); PredictProba (features_of rd)]
                ++ report_prefix lib rd
                ++ [Print (LErrorProcessing UnicodeEncodeError)], Ok tt)).
Proof.
  destruct (telemetry lib msg) as [rd | e] eqn:Ht.
  - right.
    destruct (verdict lib (features_of rd)) as [[prediction risk] | e] eqn:Hv.
    + right. destruct (report_printable lib rd) eqn:Hp.
      * left. exists rd, prediction, risk. auto.
      * right. exists rd, prediction, risk.
        split; [reflexivity |]. split; [exact Hv |]. split; [exact Hp |].
        apply (on_message_unprintable _ _ _ _ _ [] Ht Hv Hp).
    + left. exists rd, e. split; [reflexivity |]. split; [exact Hv |].
      unfold on_message, try_except.
      rewrite on_message_body_steps, Ht. cbv zeta. rewrite Hv.
      destruct (is_Exception e); reflexivity.
  - left. exists e. split; [reflexivity |].
    apply (on_message_dropped lib msg e [] Ht).
Qed.

Lemma unprintable_quiet lib rd :
  let o := [Predict (features_of rd); PredictProba (features_of rd)]
             ++ report_prefix lib rd
             ++ [Print (LErrorProcessing UnicodeEncodeError)] in
  db_ops_of o = [] /\ appended o = [] /\ classified o = [features_of rd].
Proof.
  unfold report_prefix. destruct (stdout_encodes lib _); repeat split.
Qed.

Lemma classifier_calls_quiet lib x :
  appended (classifier_calls lib x) = []
  /\ db_ops_of (classifier_calls lib x) = []
  /\ classified (classifier_calls lib x) = [x].
Proof.
  unfold classifier_calls.
  destruct (labels <-? predict lib x;; index labels 0); repeat split.
Qed.

Lemma on_message_escape lib msg e :
  outcome (on_message lib msg) = Raise e ->
  is_Exception e = false
  /\ ((exists x, predict lib x = Raise e \/ predict_proba lib x = Raise e)
      \/ exists op, db msg op = Some e).
Proof.
  unfold outcome.
  destruct (on_message_cases lib msg)
    as [(e0 & _ & R) | [(rd & e0 & _ & Hv & R)
        | [(rd & p & r & Ht & Hv & Hp) | (rd & p & r & _ & _ & _ & R)]]].
  - rewrite R. simpl. intro H; discriminate H.
  - rewrite R. destruct (is_Exception e0) eqn:E; simpl; [intro H; discriminate H |].
    intro H. inversion H. subst. split; [exact E |]. left.
    destruct (verdict_raise _ _ _ Hv) as [K | K];
      [subst; discriminate E | exists (features_of rd); exact K].
  - rewrite (on_message_processed _ _ _ _ _ [] Ht Hv Hp). cbv zeta.
    destruct (first_fault _ _) as [e0 |] eqn:F; simpl; [| intro H; discriminate H].
    destruct (is_mysql_Error e0); simpl; [intro H; discriminate H |].
    destruct (is_Exception e0) eqn:E; simpl; [intro H; discriminate H |].
    intro H. inversion H. subst. split; [exact E |]. right.
    destruct (first_fault_In _ _ _ F) as (op & _ & Hs). exists op. exact Hs.
  - rewrite R. simpl. intro H; discriminate H.
Qed.


(** ** Stored rows along a trace *)

Lemma committed_app p u v :
  committed p (u ++ v) = committed p u ++ committed (pending p u) v.
Proof.
  revert p. induction u as [| ev u IH]; intro p; simpl; [reflexivity |].
  destruct ev as [| | | | [] [e |]]; simpl; rewrite ?IH, ?app_assoc; reflexivity.
Qed.

Lemma committed_quiet p u : db_ops_of u = [] -> committed p u = [].
Proof.
  induction u as [| ev u IH]; simpl; [reflexivity |].
  destruct ev; try exact IH. discriminate.
Qed.

Lemma db_ops_of_app u v : db_ops_of (u ++ v) = db_ops_of u ++ db_ops_of v.
Proof.
  induction u as [| [] u IH]; simpl; rewrite ?IH; reflexivity.
Qed.

(** The rows a callback stores do not depend on what earlier callbacks
    left uncommitted: every call of the sink opens its own connection. *)
Lemma on_message_own_connection lib msg p :
  committed p (output (on_message lib msg))
  = sensor_logs (output (on_message lib msg)).
Proof.
  unfold sensor_logs, output.
  destruct (on_message_cases lib msg)
    as [(e0 & _ & R) | [(rd & e0 & _ & Hv & R)
        | [(rd & pr & r & Ht & Hv & Hp) | (rd & pr & r & _ & _ & _ & R)]]].
  - rewrite R. reflexivity.
  - rewrite R.
    destruct (classifier_calls_quiet lib (features_of rd)) as (_ & Q & _).
    assert (Q' : db_ops_of (classifier_calls lib (features_of rd)
                              ++ [Print (LErrorProcessing e0)]) = [])
      by (rewrite db_ops_of_app, Q; reflexivity).
    destruct (is_Exception e0); cbn [fst].
    + now rewrite (committed_quiet p _ Q'), (committed_quiet [] _ Q').
    + now rewrite (committed_quiet p _ Q), (committed_quiet [] _ Q).
  - rewrite (on_message_processed _ _ _ _ _ [] Ht Hv Hp). cbv zeta.
    destruct (first_fault _ _) as [e0 |];
      [destruct (is_mysql_Error e0); [| destruct (is_Exception e0)] |];
      reflexivity.
  - rewrite R. cbn [fst].
    destruct (unprintable_quiet lib rd) as (Q & _).
    now rewrite (committed_quiet p _ Q), (committed_quiet [] _ Q).
Qed.

Lemma save_stores srv node temp hum smoke risk status :
  sensor_logs (output (save_to_database srv node temp hum smoke risk status))
  = if reaches_commit srv (mkRow node temp hum smoke risk status)
    then [mkRow node temp hum smoke risk status]
    else [].
Proof.
  set (val := mkRow node temp hum smoke risk status).
  run_save srv val; reflexivity.
Qed.

Lemma save_appends_once srv node temp hum smoke risk status :
  appended (output (save_to_database srv node temp hum smoke risk status))
  = [mkRow node temp hum smoke risk status].
Proof.
  set (val := mkRow node temp hum smoke risk status).
  run_save srv val; reflexivity.
Qed.

(** A classified message leaves the two calls on the artifact, the
    report, what [save_to_database] does, and at most the error line of
    the handler of [on_message]. *)
Lemma on_message_processed_save lib msg rd prediction risk :
  telemetry lib msg = Ok rd ->
  verdict lib (features_of rd) = Ok (prediction, risk) ->
  report_printable lib rd = true ->
  let save := save_to_database (db msg) (r_node rd) (r_temp rd) (r_hum rd)
                (r_calibrated_gas rd) risk (status_label prediction risk) in
  exists extra,
    output (on_message lib msg)
    = ([Predict (features_of rd); PredictProba (features_of rd)]
         ++ report rd prediction risk) ++ output save ++ extra
    /\ db_ops_of extra = [] /\ appended extra = [].
Proof.
  intros Ht Hv Hp save. unfold output at 1, on_message, try_except.
  rewrite on_message_body_steps, Ht. cbv zeta. rewrite Hv, Hp.
  rewrite (verdict_ok_calls _ _ _ Hv).
  rewrite extends_save_to_database. subst save.
  destruct (outcome (save_to_database _ _ _ _ _ _ _)) as [[] | e].
  - exists []. rewrite app_nil_r. repeat split.
  - destruct (is_Exception e).
    + exists [Print (LErrorProcessing e)]. unfold print, emit. cbn [fst].
      rewrite <- app_assoc. repeat split.
    + exists []. rewrite app_nil_r. repeat split.
Qed.

Lemma report_quiet rd prediction risk :
  db_ops_of ([Predict (features_of rd); PredictProba (features_of rd)]
               ++ report rd prediction risk) = [].
Proof. reflexivity. Qed.

Lemma save_own_connection srv node temp hum smoke risk status p :
  committed p (output (save_to_database srv node temp hum smoke risk status))
  = sensor_logs (output (save_to_database srv node temp hum smoke risk status)).
Proof.
  unfold sensor_logs, output. rewrite save_to_database_run. cbv zeta.
  destruct (first_fault _ _) as [e |];
    [destruct (is_mysql_Error e) |]; reflexivity.
Qed.

Lemma on_message_processed_stores lib msg rd prediction risk :
  telemetry lib msg = Ok rd ->
  verdict lib (features_of rd) = Ok (prediction, risk) ->
  report_printable lib rd = true ->
  sensor_logs (output (on_message lib msg))
  = if reaches_commit (db msg) (record_of rd prediction risk)
    then [record_of rd prediction risk]
    else [].
Proof.
  intros Ht Hv Hp.
  destruct (on_message_processed_save _ _ _ _ _ Ht Hv Hp) as (extra & E & Q & _).
  rewrite E. unfold sensor_logs at 1.
  rewrite committed_app, (committed_quiet _ _ (report_quiet _ _ _)).
  rewrite committed_app, (committed_quiet _ extra Q), app_nil_r.
  cbn [app]. rewrite save_own_connection. apply save_stores.
Qed.

Lemma on_message_stores_at_most_one lib msg :
  (List.length (sensor_logs (output (on_message lib msg))) <= 1)%nat
  /\ (List.length (appended (output (on_message lib msg))) <= 1)%nat
  /\ (List.length (classified (output (on_message lib msg))) <= 1)%nat.
Proof.
  unfold output at 1 2 3.
  destruct (on_message_cases lib msg)
    as [(e0 & _ & R) | [(rd & e0 & Ht & Hv & R)
        | [(rd & pr & r & Ht & Hv & Hp) | (rd & pr & r & _ & _ & _ & R)]]].
  - rewrite R. simpl. repeat split; lia.
  - pose proof (on_message_classified _ _ _ Ht) as C. unfold output in C.
    rewrite C. rewrite R.
    destruct (classifier_calls_quiet lib (features_of rd)) as (A & Q & _).
    assert (Q' : db_ops_of (classifier_calls lib (features_of rd)
                              ++ [Print (LErrorProcessing e0)]) = [])
      by (rewrite db_ops_of_app, Q; reflexivity).
    destruct (is_Exception e0); cbn [fst]; unfold sensor_logs.
    + rewrite (committed_quiet _ _ Q'), appended_app, A. simpl.
      repeat split; lia.
    + rewrite (committed_quiet _ _ Q), A. simpl. repeat split; lia.
  - destruct (on_message_processed_once _ _ _ _ _ Ht Hv Hp) as (C & A).
    pose proof (on_message_processed_stores _ _ _ _ _ Ht Hv Hp) as S.
    unfold output in C, A, S. rewrite C, A, S.
    destruct (reaches_commit _ _); simpl; repeat split; lia.
  - rewrite R. cbn [fst].
    destruct (unprintable_quiet lib rd) as (Q & A & C).
    unfold sensor_logs. rewrite (committed_quiet _ _ Q), A, C.
    simpl. repeat split; lia.
Qed.

(** ** The loop, message by message *)

Lemma loop_forever_output lib msgs :
  output (loop_forever lib msgs)
  = List.concat (map (fun m => output (on_message lib m)) (handled lib msgs)).
Proof.
  induction msgs as [| msg rest IH]; [reflexivity |].
  unfold output at 1. simpl. unfold bind, outcome, output at 1.
  destruct (on_message lib msg []) as [o [[] | e]] eqn:E; cbn [snd fst].
  - rewrite (extends_loop_forever lib rest o). cbn [fst]. simpl.
    rewrite <- IH. reflexivity.
  - simpl. now rewrite app_nil_r.
Qed.

Lemma loop_forever_run lib msgs w :
  loop_forever lib msgs w
  = (w ++ List.concat (map (fun m => output (on_message lib m)) (handled lib msgs)),
     outcome (loop_forever lib msgs)).
Proof.
  rewrite (extends_loop_forever lib msgs w), loop_forever_output. reflexivity.
Qed.

Lemma handled_all lib msgs :
  (forall m, In m msgs -> outcome (on_message lib m) = Ok tt) ->
  handled lib msgs = msgs /\ outcome (loop_forever lib msgs) = Ok tt.
Proof.
  induction msgs as [| msg rest IH]; intro H; [split; reflexivity |].
  destruct IH as (IH1 & IH2); [intros m Hm; apply H; now right |].
  assert (Hm : outcome (on_message lib msg) = Ok tt) by (apply H; now left).
  split.
  - simpl. rewrite Hm, IH1. reflexivity.
  - unfold outcome. rewrite (loop_forever_cons lib msg rest [] Hm). exact IH2.
Qed.

Lemma committed_concat lib msgs p :
  committed p (List.concat (map (fun m => output (on_message lib m)) msgs))
  = List.concat (map (fun m => sensor_logs (output (on_message lib m))) msgs).
Proof.
  revert p. induction msgs as [| msg rest IH]; intro p; [reflexivity |].
  simpl. rewrite committed_app, on_message_own_connection, IH. reflexivity.
Qed.

Lemma appended_concat lib msgs :
  appended (List.concat (map (fun m => output (on_message lib m)) msgs))
  = List.concat (map (fun m => appended (output (on_message lib m))) msgs).
Proof.
  induction msgs as [| msg rest IH]; [reflexivity |].
  simpl. rewrite appended_app, IH. reflexivity.
Qed.

Lemma length_concat_le {A B} (f : A -> list B) (l : list A) :
  (forall a, List.length (f a) <= 1)%nat ->
  (List.length (List.concat (map f l)) <= List.length l)%nat.
Proof.
  intro H. induction l as [| a l IH]; simpl; [lia |].
  rewrite List.length_app. specialize (H a). lia.
Qed.

Lemma handled_length lib msgs : (List.length (handled lib msgs) <= List.length msgs)%nat.
Proof.
  induction msgs as [| msg rest IH]; simpl; [lia |].
  destruct (outcome (on_message lib msg)); simpl; lia.
Qed.

Lemma printed_app (u v : world) : printed (u ++ v) = printed u ++ printed v.
Proof.
  induction u as [| [] u IH]; simpl; rewrite ?IH; reflexivity.
Qed.

Lemma stored_le_appended lib msg :
  (List.length (sensor_logs (output (on_message lib msg)))
   <= List.length (appended (output (on_message lib msg))))%nat.
Proof.
  destruct (on_message_cases lib msg)
    as [(e0 & _ & R) | [(rd & e0 & Ht & Hv & R)
        | [(rd & pr & r & Ht & Hv & Hp) | (rd & pr & r & _ & _ & _ & R)]]].
  - unfold output. rewrite R. simpl. lia.
  - destruct (classifier_calls_quiet lib (features_of rd)) as (_ & Q & _).
    assert (Q' : db_ops_of (classifier_calls lib (features_of rd)
                              ++ [Print (LErrorProcessing e0)]) = [])
      by (rewrite db_ops_of_app, Q; reflexivity).
    unfold output, sensor_logs. rewrite R.
    destruct (is_Exception e0); cbn [fst];
      [rewrite (committed_quiet _ _ Q') | rewrite (committed_quiet _ _ Q)];
      simpl; lia.
  - rewrite (on_message_processed_stores _ _ _ _ _ Ht Hv Hp).
    rewrite (proj2 (on_message_processed_once _ _ _ _ _ Ht Hv Hp)).
    destruct (reaches_commit _ _); simpl; lia.
  - unfold output, sensor_logs. rewrite R. cbn [fst].
    destruct (unprintable_quiet lib rd) as (Q & _).
    rewrite (committed_quiet _ _ Q). simpl. lia.
Qed.

Lemma length_concat_le2 {A B} (f g : A -> list B) (l : list A) :
  (forall a, List.length (f a) <= List.length (g a))%nat ->
  (List.length (List.concat (map f l))
   <= List.length (List.concat (map g l)))%nat.
Proof.
  intro H. induction l as [| a l IH]; simpl; [lia |].
  rewrite !List.length_app. specialize (H a). lia.
Qed.

Lemma loop_forever_app lib pre rest :
  (forall m, In m pre -> outcome (on_message lib m) = Ok tt) ->
  handled lib (pre ++ rest) = pre ++ handled lib rest
  /\ outcome (loop_forever lib (pre ++ rest)) = outcome (loop_forever lib rest).
Proof.
  induction pre as [| msg pre IH]; intro H; [split; reflexivity |].
  destruct IH as (IH1 & IH2); [intros m Hm; apply H; now right |].
  assert (Hm : outcome (on_message lib msg) = Ok tt) by (apply H; now left).
  split.
  - simpl. rewrite Hm, IH1. reflexivity.
  - unfold outcome at 1. simpl app.
    rewrite (loop_forever_cons lib msg (pre ++ rest) [] Hm). exact IH2.
Qed.

(** ** The callback and the loop *)





(** X11.  A callback that lets an exception through ends the loop: the
    messages that follow are never handed to the callback, whatever
    they are. *)
Theorem loop_stops_at_escaping_exception lib pre msg rest e w :
  (forall m, In m pre -> outcome (on_message lib m) = Ok tt) ->
  outcome (on_message lib msg) = Raise e ->
  loop_forever lib (pre ++ msg :: rest) w
  = (w ++ List.concat (map (fun m => output (on_message lib m)) pre)
       ++ output (on_message lib msg),
     Raise e)
  /\ handled lib (pre ++ msg :: rest) = pre ++ [msg].
Proof.
  intros Hpre Hmsg.
  destruct (loop_forever_app lib pre (msg :: rest) Hpre) as (Hh & Ho).
  assert (T : handled lib (msg :: rest) = [msg])
    by (simpl; rewrite Hmsg; reflexivity).
  assert (O : outcome (loop_forever lib (msg :: rest)) = Raise e).
  { unfold outcome in *. simpl. unfold bind.
    destruct (on_message lib msg []) as [o r]. simpl in Hmsg. subst r.
    reflexivity. }
  rewrite loop_forever_run, Hh, Ho, O, T.
  split; [| reflexivity].
  rewrite map_app, concat_app. simpl. rewrite app_nil_r. reflexivity.
Qed.

Lemma loop_stops_at_escaping_exception_witness :
  handled interrupted_library
    [msg_of "not json" db_healthy; msg_of n1_body db_healthy;
     msg_of n2_body db_healthy]
  = [msg_of "not json" db_healthy; msg_of n1_body db_healthy].
Proof.
  assert (P : forall m,
             In m [msg_of "not json" db_healthy] ->
             outcome (on_message interrupted_library m) = Ok tt)
    by (intros m [H | []]; subst m; reflexivity).
  exact (proj2 (loop_stops_at_escaping_exception interrupted_library
                  [msg_of "not json" db_healthy] (msg_of n1_body db_healthy)
                  [msg_of n2_body db_healthy]
                  (BaseExceptionOnly "KeyboardInterrupt") [] P eq_refl)).
Defined.

(** X12.  The rows stored by the loop are the rows stored by the
    callbacks of the handled messages, in the order of the messages;
    the same holds for the records handed to the sink.  No message
    yields more than one record, and no more rows are stored than
    records were handed to the sink. *)
Theorem stored_rows_compose lib msgs :
  sensor_logs (output (loop_forever lib msgs))
  = List.concat (map (fun m => sensor_logs (output (on_message lib m)))
                   (handled lib msgs))
  /\ appended (output (loop_forever lib msgs))
     = List.concat (map (fun m => appended (output (on_message lib m)))
                      (handled lib msgs))
  /\ (List.length (sensor_logs (output (loop_forever lib msgs)))
      <= List.length (appended (output (loop_forever lib msgs))))%nat
  /\ (List.length (appended (output (loop_forever lib msgs)))
      <= List.length msgs)%nat.
Proof.
  rewrite loop_forever_output. unfold sensor_logs at 1 3.
  rewrite committed_concat, appended_concat.
  split; [reflexivity |]. split; [reflexivity |]. split.
  - apply length_concat_le2. intro m. apply stored_le_appended.
  - etransitivity; [| apply (handled_length lib msgs)].
    apply length_concat_le. intro m.
    apply (on_message_stores_at_most_one lib m).
Qed.

Lemma concat_repeat {A} (l : list A) (x : A) (n : nat) :
  l = [x] -> List.concat (repeat l n) = repeat x n.
Proof.
  intro H. subst l. induction n as [| n IH]; simpl; [reflexivity |].
  now rewrite IH.
Qed.

Lemma map_repeat {A B} (f : A -> B) (a : A) (n : nat) :
  map f (repeat a n) = repeat (f a) n.
Proof. induction n as [| n IH]; simpl; [reflexivity | now rewrite IH]. Qed.

Lemma classified_concat_repeat (o : world) (x : features) (n : nat) :
  classified o = [x] -> classified (List.concat (repeat o n)) = repeat x n.
Proof.
  intro H. induction n as [| n IH]; simpl; [reflexivity |].
  now rewrite classified_app, H, IH.
Qed.

(** X13.  Nothing is remembered between messages: a message whose
    report can be written to the standard output, delivered [n] times
    to a gateway whose database answers, is classified, handed to the
    sink and stored [n] times, as [n] equal rows. *)
Theorem no_deduplication lib msg rd prediction risk (n : nat) :
  telemetry lib msg = Ok rd ->
  verdict lib (features_of rd) = Ok (prediction, risk) ->
  report_printable lib rd = true ->
  (forall op, db msg op = None) ->
  sensor_logs (output (loop_forever lib (repeat msg n)))
  = repeat (record_of rd prediction risk) n
  /\ classified (output (loop_forever lib (repeat msg n)))
     = repeat (features_of rd) n
  /\ outcome (loop_forever lib (repeat msg n)) = Ok tt.
Proof.
  intros Ht Hv Hp Hdb.
  destruct (on_message_processed_healthy _ _ _ _ _ Ht Hv Hp Hdb) as (Ho & Hs).
  destruct (handled_all lib (repeat msg n)) as (Hh & Hl).
  { intros m Hm. apply repeat_spec in Hm. subst m. exact Ho. }
  split; [| split; [| exact Hl]].
  - rewrite loop_forever_output, Hh. unfold sensor_logs at 1.
    rewrite committed_concat, map_repeat. apply concat_repeat. exact Hs.
  - rewrite loop_forever_output, Hh, map_repeat.
    apply classified_concat_repeat. apply (on_message_classified _ _ _ Ht).
Qed.

Lemma no_deduplication_witness :
  List.length
    (sensor_logs (output (loop_forever threshold_library
                            (repeat (msg_of n1_body db_healthy) 3)))) = 3%nat.
Proof.
  pose (rd := mkReading (VStr "n1") (VInt 2048) (VInt 25) (VInt 40)
                (VFloat (S754_finite false 8798241030272031 (-44)))).
  assert (T : telemetry threshold_library (msg_of n1_body db_healthy) = Ok rd)
    by (vm_compute; reflexivity).
  assert (V : verdict threshold_library (features_of rd)
              = Ok (1%Z, (9 # 10) * 100)) by (vm_compute; reflexivity).
  assert (D : forall op, db (msg_of n1_body db_healthy) op = None)
    by (intro op; reflexivity).
  rewrite (proj1 (no_deduplication threshold_library
                    (msg_of n1_body db_healthy) rd 1%Z ((9 # 10) * 100) 3
                    T V eq_refl D)).
  reflexivity.
Defined.

(** X14.  Every row that is stored was handed to the sink, and every
    record handed to the sink was built from a message that was
    decoded, calibrated and classified: its smoke level is the
    calibrated gas, its status the one derived from the verdict, and it
    is the only record of that message. *)
Theorem record_comes_from_classification lib msg r :
  (In r (sensor_logs (output (on_message lib msg))) ->
   In r (appended (output (on_message lib msg))))
  /\ (In r (appended (output (on_message lib msg))) ->
      exists rd prediction risk,
        telemetry lib msg = Ok rd
        /\ verdict lib (features_of rd) = Ok (prediction, risk)
        /\ r = record_of rd prediction risk
        /\ appended (output (on_message lib msg)) = [r]
        /\ classified (output (on_message lib msg)) = [features_of rd]).
Proof.
  destruct (on_message_cases lib msg)
    as [(e0 & _ & R) | [(rd & e0 & Ht & Hv & R)
        | [(rd & pr & k & Ht & Hv & Hp) | (rd & pr & k & _ & _ & _ & R)]]].
  - unfold output. rewrite R. simpl. split; intros [].
  - destruct (classifier_calls_quiet lib (features_of rd)) as (A & Q & _).
    assert (Q' : db_ops_of (classifier_calls lib (features_of rd)
                              ++ [Print (LErrorProcessing e0)]) = [])
      by (rewrite db_ops_of_app, Q; reflexivity).
    unfold output, sensor_logs. rewrite R.
    destruct (is_Exception e0); cbn [fst].
    + rewrite (committed_quiet _ _ Q'), appended_app, A. simpl.
      split; intros [].
    + rewrite (committed_quiet _ _ Q), A. split; intros [].
  - destruct (on_message_processed_once _ _ _ _ _ Ht Hv Hp) as (C & A).
    rewrite (on_message_processed_stores _ _ _ _ _ Ht Hv Hp), A, C.
    split.
    + destruct (reaches_commit _ _); [auto | intros []].
    + intros [H | []]. subst r. exists rd, pr, k. repeat split; assumption.
  - unfold output, sensor_logs. rewrite R. cbn [fst].
    destruct (unprintable_quiet lib rd) as (Q & A & _).
    rewrite (committed_quiet _ _ Q), A. split; intros [].
Qed.

Lemma record_comes_from_classification_witness :
  In (mkRow (VStr "n1") (VInt 25) (VInt 40)
        (VFloat (S754_finite false 8798241030272031 (-44)))
        ((9 # 10) * 100) "CRITICAL")
    (appended (output (on_message threshold_library
                         (msg_of n1_body db_healthy)))).
Proof.
  apply (proj1 (record_comes_from_classification threshold_library
                  (msg_of n1_body db_healthy) _)).
  vm_compute. left. reflexivity.
Defined.

(** X15.  A default replaces a missing field only.  When [raw_gas] is
    present with a value that is not a number (null, a string, a list,
    an object) the subtraction of the calibration raises [TypeError]:
    the message costs one error line, is not classified and is not
    handed to the sink. *)
Theorem non_numeric_gas_is_dropped lib msg fields w :
  decoded lib msg = Some (VDict fields) ->
  as_number (dict_get fields "raw_gas" (VInt 0)) = Raise TypeError ->
  has_key fields "raw_gas" = true
  /\ telemetry lib msg = Raise TypeError
  /\ on_message lib msg w = (w ++ [Print (LErrorProcessing TypeError)], Ok tt)
  /\ classified (output (on_message lib msg)) = []
  /\ appended (output (on_message lib msg)) = [].
Proof.
  intros Hd Hn.
  assert (K : has_key fields "raw_gas" = true).
  { destruct (has_key fields "raw_gas") eqn:E; [reflexivity |].
    rewrite (dict_get_missing _ _ _ E) in Hn. discriminate Hn. }
  assert (T : telemetry lib msg = Raise TypeError).
  { unfold decoded in Hd. unfold telemetry.
    destruct (decode lib (payload msg)) as [s |]; [| discriminate].
    simpl. rewrite Hd. simpl. unfold calibrate. rewrite Hn. reflexivity. }
  split; [exact K |]. split; [exact T |].
  split; [apply on_message_dropped; exact T |].
  destruct (output_of_run _ _ _ (on_message_dropped lib msg _ [] T)) as (Ho & _).
  rewrite Ho. split; reflexivity.
Qed.

Lemma non_numeric_gas_is_dropped_witness :
  on_message wider_library (msg_of null_gas_body db_healthy) []
  = ([Print (LErrorProcessing TypeError)], Ok tt).
Proof.
  destruct (non_numeric_gas_is_dropped wider_library
              (msg_of null_gas_body db_healthy)
              [("raw_gas"%string, VNone)] [] eq_refl eq_refl)
    as (_ & _ & H & _).
  exact H.
Defined.

Lemma on_message_congruence lib msg msg' w :
  telemetry lib msg = telemetry lib msg' ->
  db msg = db msg' ->
  on_message lib msg w = on_message lib msg' w.
Proof.
  intros Ht Hd. unfold on_message, try_except.
  rewrite !on_message_body_steps, Ht, Hd. reflexivity.
Qed.

Lemma telemetry_dict lib msg fields :
  decoded lib msg = Some (VDict fields) ->
  telemetry lib msg
  = (g <-? calibrate (dict_get fields "raw_gas" (VInt 0)) ;;
     Ok (mkReading (dict_get fields "node_id" (VStr "node_unknown"))
           (dict_get fields "raw_gas" (VInt 0))
           (dict_get fields "temp" (VInt 0))
           (dict_get fields "humidity" (VInt 50))
           g)).
Proof.
  unfold decoded, telemetry. intro Hd.
  destruct (decode lib (payload msg)) as [s |]; [| discriminate].
  simpl. rewrite Hd. reflexivity.
Qed.

(** X16.  The callback depends on the decoded object only through the
    four fields [node_id], [raw_gas], [temp] and [humidity]: two
    messages that agree on them, whatever else they carry and in
    whatever order, are handled alike by the same database. *)
Theorem callback_reads_four_fields lib msg msg' fields fields' w :
  decoded lib msg = Some (VDict fields) ->
  decoded lib msg' = Some (VDict fields') ->
  (forall key default,
     In key telemetry_keys ->
     dict_get fields key default = dict_get fields' key default) ->
  db msg = db msg' ->
  on_message lib msg w = on_message lib msg' w.
Proof.
  intros Hd Hd' Hk Hdb. apply on_message_congruence; [| exact Hdb].
  rewrite (telemetry_dict _ _ _ Hd), (telemetry_dict _ _ _ Hd').
  rewrite (Hk "node_id"%string), (Hk "raw_gas"%string), (Hk "temp"%string),
    (Hk "humidity"%string); unfold telemetry_keys; simpl; auto 6.
Qed.

Lemma callback_reads_four_fields_witness :
  on_message wider_library (msg_of n1_site_body db_healthy) []
  = on_message wider_library (msg_of n1_body db_healthy) [].
Proof.
  apply (callback_reads_four_fields wider_library
           (msg_of n1_site_body db_healthy) (msg_of n1_body db_healthy)
           (("site"%string, VStr "north") :: n1_fields) n1_fields []
           eq_refl eq_refl).
  - intros key default [H | [H | [H | [H | []]]]]; subst key; reflexivity.
  - reflexivity.
Defined.

Lemma status_is_critical prediction risk :
  String.eqb (status_label prediction risk) "CRITICAL" = (prediction =? 1)%Z.
Proof.
  unfold status_label.
  destruct (prediction =? 1)%Z; [reflexivity |].
  destruct (Qgt_bool risk 50); reflexivity.
Qed.

(** X17.  A classified message whose report the standard output can
    take prints its four report lines and then at most one more line,
    about the save.  The fourth line announces a fire exactly when the
    status of the record is CRITICAL: a WARNING is reported to the
    operator as a normal environment.  When the standard output cannot
    take the node line or the data line, the report stops there with
    [UnicodeEncodeError]: the handler prints its error line, no status
    is reported and nothing is handed to the sink. *)
Theorem report_agrees_with_status lib msg rd prediction risk :
  telemetry lib msg = Ok rd ->
  verdict lib (features_of rd) = Ok (prediction, risk) ->
  (report_printable lib rd = true ->
   exists tail,
     printed (output (on_message lib msg))
     = [LSeparator;
        LNode (r_node rd);
        LData (r_raw_gas rd) (r_calibrated_gas rd) (r_temp rd);
        if String.eqb (status_label prediction risk) "CRITICAL"
        then LFireDetected risk
        else LNormal risk] ++ tail
     /\ (tail = []
         \/ tail = [LSaved (r_node rd)]
         \/ exists e,
              tail = [LDatabaseError e] \/ tail = [LErrorProcessing e]))
  /\ (report_printable lib rd = false ->
      printed (output (on_message lib msg))
      = printed (report_prefix lib rd)
          ++ [LErrorProcessing UnicodeEncodeError]
      /\ appended (output (on_message lib msg)) = []
      /\ outcome (on_message lib msg) = Ok tt).
Proof.
  intros Ht Hv. split; intro Hp.
  - rewrite status_is_critical.
    unfold output.
    rewrite (on_message_processed _ _ _ _ _ [] Ht Hv Hp). cbv zeta.
    set (val := record_of rd prediction risk).
    assert (P : forall tl : world,
               printed (([] ++ [Predict (features_of rd);
                                PredictProba (features_of rd)]
                           ++ report rd prediction risk
                           ++ Append val :: db_trace (db msg) (db_ops val))
                          ++ tl)
               = [LSeparator; LNode (r_node rd);
                  LData (r_raw_gas rd) (r_calibrated_gas rd) (r_temp rd);
                  if (prediction =? 1)%Z then LFireDetected risk
                  else LNormal risk] ++ printed tl).
    { intro tl. rewrite printed_app. cbn [app]. unfold report.
      cbn [printed app]. rewrite printed_db_trace. reflexivity. }
    destruct (first_fault _ _) as [e |];
      [destruct (is_mysql_Error e); [| destruct (is_Exception e)] |];
      cbn [fst]; try rewrite P.
    + eexists. split; [reflexivity |]. right. right. exists e. now left.
    + eexists. split; [reflexivity |]. right. right. exists e. now right.
    + specialize (P []). rewrite app_nil_r in P. rewrite P.
      eexists. split; [reflexivity |]. now left.
    + eexists. split; [reflexivity |]. right. now left.
  - unfold output, outcome.
    rewrite (on_message_unprintable _ _ _ _ _ [] Ht Hv Hp). cbv zeta.
    cbn [fst snd app printed appended].
    rewrite printed_app, appended_app.
    rewrite (proj2 (proj2 (classified_report_prefix lib rd))).
    repeat split.
Qed.

Lemma report_agrees_with_status_witness :
  (exists tail,
     printed (output (on_message hesitant_library (msg_of "{}" db_healthy)))
     = [LSeparator; LNode (VStr "node_unknown");
        LData (VInt 0) (VFloat (S754_zero false)) (VInt 0);
        LNormal ((6 # 10) * 100)] ++ tail
     /\ status_label 0 ((6 # 10) * 100) = "WARNING"%string)
  /\ printed (output (on_message ascii_stdout_library
                        (msg_of "{}" db_healthy)))
     = [LSeparator; LNode (VStr "node_unknown");
        LErrorProcessing UnicodeEncodeError].
Proof.
  pose (rd := mkReading (VStr "node_unknown") (VInt 0) (VInt 0) (VInt 50)
                (VFloat (S754_zero false))).
  split.
  - destruct (proj1 (report_agrees_with_status hesitant_library
                       (msg_of "{}" db_healthy) rd 0%Z ((6 # 10) * 100)
                       eq_refl eq_refl) eq_refl) as (tail & H & _).
    exists tail. split; [exact H | reflexivity].
  - destruct (proj2 (report_agrees_with_status ascii_stdout_library
                       (msg_of "{}" db_healthy) rd 0%Z ((1 # 10) * 100)
                       eq_refl eq_refl) eq_refl) as (H & _).
    exact H.
Defined.

Lemma status_label_classify prediction p :
  status_label prediction p = status_name (classify (prediction =? 1)%Z p).
Proof.
  unfold status_label, classify.
  destruct (prediction =? 1)%Z; [reflexivity |].
  destruct (Qlt_le_dec 50 p) as [H | H].
  - apply Qgt_bool_true in H. rewrite H. reflexivity.
  - apply Qgt_bool_false in H. rewrite H. reflexivity.
Qed.

(** X18.  For a given label the status never gets less severe when the
    risk percentage grows, and the status depends on the label only
    through its being 1 or not. *)
Theorem severity_monotone_in_risk (prediction prediction' : Z) (p q : Q) :
  p <= q ->
  (prediction =? 1)%Z = (prediction' =? 1)%Z ->
  exists s t,
    status_label prediction p = status_name s
    /\ status_label prediction' q = status_name t
    /\ (severity s <= severity t)%nat.
Proof.
  intros Hpq Hl.
  exists (classify (prediction =? 1)%Z p), (classify (prediction' =? 1)%Z q).
  split; [apply status_label_classify |].
  split; [apply status_label_classify |].
  rewrite <- Hl. unfold classify.
  destruct (prediction =? 1)%Z; [simpl; lia |].
  destruct (Qlt_le_dec 50 p), (Qlt_le_dec 50 q); simpl; try lia.
  exfalso. lra.
Qed.

Lemma severity_monotone_in_risk_witness :
  exists s t,
    status_label 0 10 = status_name s
    /\ status_label 2 80 = status_name t
    /\ (severity s <= severity t)%nat.
Proof.
  apply (severity_monotone_in_risk 0 2 10 80); [discriminate | reflexivity].
Defined.

(** X19.  When the artifact answers [predict_proba] with no row, or
    with a first row that has no second column (a classifier that knows
    one class only), the message is dropped with [IndexError] after
    both calls on the artifact: it is not reported and not handed to
    the sink. *)
Theorem short_probability_row_drops lib msg rd label labels probability w :
  telemetry lib msg = Ok rd ->
  predict lib (features_of rd) = Ok (label :: labels) ->
  predict_proba lib (features_of rd) = Ok probability ->
  (forall p, nth_error probability 0 = Some p -> nth_error p 1 = None) ->
  on_message lib msg w
  = (w ++ [Predict (features_of rd); PredictProba (features_of rd);
           Print (LErrorProcessing IndexError)], Ok tt)
  /\ appended (output (on_message lib msg)) = [].
Proof.
  intros Ht Hp Hq Hshort.
  assert (V : verdict lib (features_of rd) = Raise IndexError).
  { unfold verdict, rbind. rewrite Hp.
    change (index (label :: labels) 0) with (Ok label).
    cbv beta iota. rewrite Hq. cbv beta iota. unfold index.
    destruct (nth_error probability 0) as [p |] eqn:E; [| reflexivity].
    rewrite (Hshort p eq_refl). reflexivity. }
  assert (C : classifier_calls lib (features_of rd)
              = [Predict (features_of rd); PredictProba (features_of rd)]).
  { unfold classifier_calls, rbind. rewrite Hp. reflexivity. }
  pose proof (on_message_classifier_raises lib msg rd IndexError) as R.
  rewrite C in R.
  split; [apply (R w Ht V eq_refl) |].
  unfold output. rewrite (R [] Ht V eq_refl). reflexivity.
Qed.

Lemma short_probability_row_drops_witness :
  on_message single_class_library (msg_of n1_body db_healthy) []
  = ([Predict [[VInt 25; VInt 40;
                VFloat (S754_finite false 8798241030272031 (-44))]];
      PredictProba [[VInt 25; VInt 40;
                     VFloat (S754_finite false 8798241030272031 (-44))]];
      Print (LErrorProcessing IndexError)], Ok tt).
Proof.
  pose (rd := mkReading (VStr "n1") (VInt 2048) (VInt 25) (VInt 40)
                (VFloat (S754_finite false 8798241030272031 (-44)))).
  assert (T : telemetry single_class_library (msg_of n1_body db_healthy)
              = Ok rd) by (vm_compute; reflexivity).
  assert (S : forall p, nth_error [[1]] 0 = Some p -> nth_error p 1 = None)
    by (intros p H; inversion H; reflexivity).
  destruct (short_probability_row_drops single_class_library
              (msg_of n1_body db_healthy) rd 0%Z [] [[1]] []
              T eq_refl eq_refl S) as (H & _).
  exact H.
Defined.

(** ** The gateway process *)

Lemma gextends_bind {A B} (m : G A) (f : A -> G B) :
  gextends m -> (forall a, gextends (f a)) -> gextends (gbind m f).
Proof.
  intros Hm Hf g. unfold goutput, goutcome, gbind.
  rewrite (Hm g). unfold goutput, goutcome.
  destruct (m []) as [o [a | e]]; simpl; [| reflexivity].
  rewrite (Hf a (g ++ o)), (Hf a o). simpl.
  now rewrite app_assoc.
Qed.

Lemma gextends_emit (e : gateway_event) : gextends (gemit e).
Proof. intro g. reflexivity. Qed.

Lemma gextends_ret {A} (a : A) : gextends (gret a).
Proof. intro g. unfold goutput, goutcome, gret. simpl. now rewrite app_nil_r. Qed.

Lemma gextends_callback {A} (m : M A) : gextends (callback m).
Proof. intro g. reflexivity. Qed.

Lemma gextends_on_connect rc : gextends (on_connect rc).
Proof.
  unfold on_connect, say. destruct (rc =? 0)%Z.
  - repeat (apply gextends_bind; [| intro]); apply gextends_emit.
  - apply gextends_emit.
Qed.

Lemma gextends_client_loop lib events : gextends (client_loop lib events).
Proof.
  induction events as [| [rc | msg] rest IH]; simpl.
  - apply gextends_ret.
  - apply gextends_bind; [apply gextends_on_connect | intros _; exact IH].
  - apply gextends_bind; [apply gextends_callback | intros _; exact IH].
Qed.

Lemma callbacks_app u v : callbacks (u ++ v) = callbacks u ++ callbacks v.
Proof. induction u as [| [] u IH]; simpl; rewrite ?IH; reflexivity. Qed.

Lemma subscriptions_app u v :
  subscriptions (u ++ v) = subscriptions u ++ subscriptions v.
Proof. induction u as [| [] u IH]; simpl; rewrite ?IH; reflexivity. Qed.

Lemma callbacks_map_Callback (w : world) : callbacks (map Callback w) = w.
Proof. induction w as [| e w IH]; simpl; [reflexivity | now rewrite IH]. Qed.

Lemma subscriptions_map_Callback (w : world) :
  subscriptions (map Callback w) = [].
Proof. induction w as [| e w IH]; simpl; [reflexivity | exact IH]. Qed.

Lemma on_connect_run rc g :
  on_connect rc g
  = (g ++ (if (rc =? 0)%Z
           then [Say GConnected; Subscribe MQTT_TOPIC; Say GListening]
           else [Say (GFailedToConnect rc)]),
     Ok tt).
Proof.
  unfold on_connect, say, gbind, gemit. destruct (rc =? 0)%Z; [| reflexivity].
  now rewrite <- !app_assoc.
Qed.

Lemma client_loop_cons_connack lib rc rest :
  goutput (client_loop lib (Connack rc :: rest))
  = (if (rc =? 0)%Z
     then [Say GConnected; Subscribe MQTT_TOPIC; Say GListening]
     else [Say (GFailedToConnect rc)])
      ++ goutput (client_loop lib rest)
  /\ goutcome (client_loop lib (Connack rc :: rest))
     = goutcome (client_loop lib rest).
Proof.
  unfold goutput at 1, goutcome at 1. simpl. unfold gbind.
  rewrite on_connect_run, gextends_client_loop. simpl. split; reflexivity.
Qed.

Lemma client_loop_cons_publish lib msg rest :
  goutput (client_loop lib (Publish msg :: rest))
  = map Callback (output (on_message lib msg))
      ++ match outcome (on_message lib msg) with
         | Ok _ => goutput (client_loop lib rest)
         | Raise _ => []
         end
  /\ goutcome (client_loop lib (Publish msg :: rest))
     = match outcome (on_message lib msg) with
       | Ok _ => goutcome (client_loop lib rest)
       | Raise e => Raise e
       end.
Proof.
  unfold goutput at 1, goutcome at 1. simpl. unfold gbind, callback.
  destruct (outcome (on_message lib msg)) as [[] | e]; simpl.
  - rewrite gextends_client_loop. split; reflexivity.
  - rewrite app_nil_r. split; reflexivity.
Qed.

Lemma loop_forever_cons_raise lib msg rest e w :
  outcome (on_message lib msg) = Raise e ->
  loop_forever lib (msg :: rest) w
  = (w ++ output (on_message lib msg), Raise e).
Proof.
  intro H. simpl. unfold bind.
  rewrite (extends_on_message lib msg w), H. reflexivity.
Qed.

(** The loop of the process hands the published messages to
    [on_message] as [loop_forever] does. *)
Lemma client_loop_callbacks lib events :
  callbacks (goutput (client_loop lib events))
  = output (loop_forever lib (published events))
  /\ goutcome (client_loop lib events)
     = outcome (loop_forever lib (published events)).
Proof.
  induction events as [| [rc | msg] rest (IH1 & IH2)].
  - split; reflexivity.
  - destruct (client_loop_cons_connack lib rc rest) as (E1 & E2).
    rewrite E1, E2, callbacks_app. simpl published.
    rewrite <- IH1, <- IH2. destruct (rc =? 0)%Z; split; reflexivity.
  - destruct (client_loop_cons_publish lib msg rest) as (E1 & E2).
    rewrite E1, E2, callbacks_app, callbacks_map_Callback.
    simpl published.
    destruct (outcome (on_message lib msg)) as [[] | e] eqn:Ho.
    + destruct (output_of_run _ _ _
                  (loop_forever_cons lib msg (published rest) [] Ho))
        as (L1 & L2).
      rewrite L1, L2, IH1, IH2. split; reflexivity.
    + destruct (output_of_run _ _ _
                  (loop_forever_cons_raise lib msg (published rest) e [] Ho))
        as (L1 & L2).
      rewrite L1, L2. simpl. rewrite app_nil_r. split; reflexivity.
Qed.

Lemma loop_forever_escape lib msgs e :
  outcome (loop_forever lib msgs) = Raise e -> is_Exception e = false.
Proof.
  induction msgs as [| msg rest IH]; [discriminate |].
  destruct (outcome (on_message lib msg)) as [[] | e'] eqn:Ho.
  - unfold outcome at 1. rewrite (loop_forever_cons lib msg rest [] Ho).
    exact IH.
  - unfold outcome at 1. rewrite (loop_forever_cons_raise lib msg rest e' [] Ho).
    simpl. intro H. inversion H. subst.
    apply (on_message_escape _ _ _ Ho).
Qed.

Lemma refused_is_Exception e :
  is_ConnectionRefusedError e = true -> is_Exception e = true.
Proof. destruct e; simpl; intro H; reflexivity || discriminate H. Qed.


Lemma subscriptions_only_topic lib events topic :
  In topic (subscriptions (goutput (client_loop lib events))) ->
  topic = MQTT_TOPIC.
Proof.
  induction events as [| [rc | msg] rest IH].
  - intros [].
  - destruct (client_loop_cons_connack lib rc rest) as (E1 & _).
    rewrite E1, subscriptions_app. intro H. apply in_app_or in H.
    destruct H as [H | H]; [| exact (IH H)].
    destruct (rc =? 0)%Z; simpl in H; [| destruct H].
    destruct H as [H | []]. now symmetry.
  - destruct (client_loop_cons_publish lib msg rest) as (E1 & _).
    rewrite E1, subscriptions_app, subscriptions_map_Callback. simpl.
    destruct (outcome (on_message lib msg)); [exact IH | intros []].
Qed.

(** X20.  Without the artifact the gateway does nothing: when
    [joblib.load] raises, the process ends before it connects to the
    broker -- with [SystemExit] after two lines of explanation when the
    file is missing, with the exception itself otherwise -- and no
    message is ever handled, whatever the broker would have sent. *)
Theorem missing_model_stops_gateway sur e :
  joblib_load sur MODEL_FILE = Raise e ->
  gateway sur []
  = (if is_FileNotFoundError e
     then ([Say GLoadingModel; JoblibLoad MODEL_FILE; Say GModelNotFound;
            Say GCheckPath], Raise (BaseExceptionOnly "SystemExit"))
     else ([Say GLoadingModel; JoblibLoad MODEL_FILE], Raise e))
  /\ callbacks (goutput (gateway sur)) = []
  /\ subscriptions (goutput (gateway sur)) = [].
Proof.
  intro H.
  assert (R : gateway sur []
              = (if is_FileNotFoundError e
                 then ([Say GLoadingModel; JoblibLoad MODEL_FILE;
                        Say GModelNotFound; Say GCheckPath],
                       Raise (BaseExceptionOnly "SystemExit"))
                 else ([Say GLoadingModel; JoblibLoad MODEL_FILE], Raise e))).
  { unfold gateway, gbind, gtry, say, gemit, glift. simpl. rewrite H.
    destruct (is_FileNotFoundError e); reflexivity. }
  split; [exact R |].
  unfold goutput. rewrite R.
  destruct (is_FileNotFoundError e); split; reflexivity.
Qed.

Lemma missing_model_stops_gateway_witness :
  gateway (surroundings_of
             (fun _ => Raise (OtherException "FileNotFoundError")) None
             [Connack 0; Publish (msg_of n1_body db_healthy)]) []
  = ([Say GLoadingModel; JoblibLoad MODEL_FILE; Say GModelNotFound;
      Say GCheckPath], Raise (BaseExceptionOnly "SystemExit")).
Proof.
  apply (proj1 (missing_model_stops_gateway
                  (surroundings_of
                     (fun _ => Raise (OtherException "FileNotFoundError")) None
                     [Connack 0; Publish (msg_of n1_body db_healthy)])
                  (OtherException "FileNotFoundError") eq_refl)).
Defined.

(** X21.  When [client.connect] raises, the loop is never entered.  A
    refused connection is explained in two lines and the process ends
    normally; any other exception of the connection (an unknown host, a
    timeout) leaves the script uncaught. *)
Theorem failed_connection_ends_gateway sur model e :
  joblib_load sur MODEL_FILE = Ok model ->
  mqtt_connect sur = Some e ->
  gateway sur []
  = (if is_ConnectionRefusedError e
     then ([Say GLoadingModel; JoblibLoad MODEL_FILE; Say GModelLoaded;
            Say GStarting; MqttConnect MQTT_BROKER 1883 60;
            Say GBrokerRefused; Say GIsMosquittoRunning], Ok tt)
     else ([Say GLoadingModel; JoblibLoad MODEL_FILE; Say GModelLoaded;
            Say GStarting; MqttConnect MQTT_BROKER 1883 60], Raise e))
  /\ callbacks (goutput (gateway sur)) = []
  /\ subscriptions (goutput (gateway sur)) = [].
Proof.
  intros Hl Hc.
  assert (R : gateway sur []
              = (if is_ConnectionRefusedError e
                 then ([Say GLoadingModel; JoblibLoad MODEL_FILE;
                        Say GModelLoaded; Say GStarting;
                        MqttConnect MQTT_BROKER 1883 60;
                        Say GBrokerRefused; Say GIsMosquittoRunning], Ok tt)
                 else ([Say GLoadingModel; JoblibLoad MODEL_FILE;
                        Say GModelLoaded; Say GStarting;
                        MqttConnect MQTT_BROKER 1883 60], Raise e))).
  { unfold gateway, gbind, gtry, say, gemit, glift. simpl. rewrite Hl, Hc.
    destruct (is_ConnectionRefusedError e); reflexivity. }
  split; [exact R |].
  unfold goutput. rewrite R.
  destruct (is_ConnectionRefusedError e); split; reflexivity.
Qed.

Lemma failed_connection_ends_gateway_witness :
  goutcome (gateway (surroundings_of (fun _ => Ok threshold_artifact)
                       (Some (OtherException "ConnectionRefusedError"))
                       [Connack 0; Publish (msg_of n1_body db_healthy)]))
  = Ok tt
  /\ goutcome (gateway (surroundings_of (fun _ => Ok threshold_artifact)
                          (Some (OtherException "TimeoutError"))
                          [Connack 0; Publish (msg_of n1_body db_healthy)]))
     = Raise (OtherException "TimeoutError").
Proof.
  split; unfold goutcome.
  - rewrite (proj1 (failed_connection_ends_gateway
                      (surroundings_of (fun _ => Ok threshold_artifact)
                         (Some (OtherException "ConnectionRefusedError"))
                         [Connack 0; Publish (msg_of n1_body db_healthy)])
                      threshold_artifact
                      (OtherException "ConnectionRefusedError")
                      eq_refl eq_refl)).
    reflexivity.
  - rewrite (proj1 (failed_connection_ends_gateway
                      (surroundings_of (fun _ => Ok threshold_artifact)
                         (Some (OtherException "TimeoutError"))
                         [Connack 0; Publish (msg_of n1_body db_healthy)])
                      threshold_artifact (OtherException "TimeoutError")
                      eq_refl eq_refl)).
    reflexivity.
Defined.

Lemma gateway_connected sur model :
  joblib_load sur MODEL_FILE = Ok model ->
  mqtt_connect sur = None ->
  gateway sur []
  = ([Say GLoadingModel; JoblibLoad MODEL_FILE; Say GModelLoaded;
      Say GStarting; MqttConnect MQTT_BROKER 1883 60]
       ++ goutput (client_loop (library_of sur model) (broker sur)),
     goutcome (client_loop (library_of sur model) (broker sur))).
Proof.
  intros Hl Hc.
  pose proof (client_loop_callbacks (library_of sur model) (broker sur))
    as (_ & O).
  unfold gateway, gbind, gtry, say, gemit, glift.
  cbn -[client_loop]. rewrite Hl. cbn -[client_loop]. rewrite Hc.
  cbn -[client_loop]. rewrite gextends_client_loop.
  destruct (goutcome (client_loop (library_of sur model) (broker sur)))
    as [[] | e] eqn:E; [reflexivity |].
  symmetry in O. apply loop_forever_escape in O.
  destruct (is_ConnectionRefusedError e) eqn:C; [| reflexivity].
  apply refused_is_Exception in C. congruence.
Qed.

Lemma goutput_of_run {A} (m : G A) (o : list gateway_event) (r : result A) :
  m [] = (o, r) -> goutput m = o /\ goutcome m = r.
Proof. unfold goutput, goutcome. intro H. rewrite H. split; reflexivity. Qed.

(** X22.  Once the artifact is loaded and the broker reached, the
    process is the message loop: the published messages are handed to
    [on_message] one after the other in the order of their arrival,
    whatever answers to connection requests come in between, and the
    process ends as the loop ends.  It subscribes to nothing but the
    telemetry topic. *)
Theorem gateway_runs_the_loop sur model :
  joblib_load sur MODEL_FILE = Ok model ->
  mqtt_connect sur = None ->
  callbacks (goutput (gateway sur))
  = output (loop_forever (library_of sur model) (published (broker sur)))
  /\ goutcome (gateway sur)
     = outcome (loop_forever (library_of sur model) (published (broker sur)))
  /\ (forall topic,
        In topic (subscriptions (goutput (gateway sur))) ->
        topic = MQTT_TOPIC).
Proof.
  intros Hl Hc.
  pose proof (client_loop_callbacks (library_of sur model) (broker sur))
    as (C & O).
  destruct (goutput_of_run _ _ _ (gateway_connected _ _ Hl Hc)) as (Eo & Er).
  rewrite Eo, Er, callbacks_app, subscriptions_app. simpl.
  split; [exact C |]. split; [exact O |].
  intro topic. apply subscriptions_only_topic.
Qed.

Lemma gateway_runs_the_loop_witness :
  sensor_logs
    (callbacks
       (goutput (gateway (surroundings_of (fun _ => Ok threshold_artifact) None
                            [Connack 0; Publish (msg_of n1_body db_healthy);
                             Connack 5;
                             Publish (msg_of n2_body db_constraint)]))))
  = sensor_logs
      (output (loop_forever threshold_library
                 [msg_of n1_body db_healthy; msg_of n2_body db_constraint])).
Proof.
  rewrite (proj1 (gateway_runs_the_loop
                    (surroundings_of (fun _ => Ok threshold_artifact) None
                       [Connack 0; Publish (msg_of n1_body db_healthy);
                        Connack 5; Publish (msg_of n2_body db_constraint)])
                    threshold_artifact eq_refl eq_refl)).
  reflexivity.
Defined.



(** * Properties of the web front end *)

Module WebAppFacts.

Import WebApp.

Lemma has_key_pop d key : has_key (dict_pop d key) key = false.
Proof.
  induction d as [| [k v] d IH]; simpl; [reflexivity |].
  destruct (String.eqb k key) eqn:E; [exact IH |].
  simpl. rewrite E. exact IH.
Qed.

Lemma has_key_pop_other d key key' :
  key <> key' -> has_key (dict_pop d key) key' = has_key d key'.
Proof.
  intro N. induction d as [| [k v] d IH]; simpl; [reflexivity |].
  destruct (String.eqb k key) eqn:E.
  - apply String.eqb_eq in E. subst k.
    destruct (String.eqb key key') eqn:E'.
    + apply String.eqb_eq in E'. contradiction.
    + simpl. exact IH.
  - simpl. rewrite IH. reflexivity.
Qed.

Lemma dict_get_pop_other d key key' default :
  key <> key' ->
  dict_get (dict_pop d key) key' default = dict_get d key' default.
Proof.
  intro N. induction d as [| [k v] d IH]; simpl; [reflexivity |].
  destruct (String.eqb k key) eqn:E.
  - apply String.eqb_eq in E. subst k.
    destruct (String.eqb key key') eqn:E'.
    + apply String.eqb_eq in E'. contradiction.
    + exact IH.
  - simpl. rewrite IH. reflexivity.
Qed.

Lemma dict_get_pop d key default : dict_get (dict_pop d key) key default = default.
Proof. apply dict_get_missing, has_key_pop. Qed.

Lemma dict_get_set d key v default : dict_get (dict_set d key v) key default = v.
Proof. unfold dict_set. simpl. now rewrite String.eqb_refl. Qed.

Lemma dict_get_set_other d key key' v default :
  key <> key' ->
  dict_get (dict_set d key v) key' default = dict_get d key' default.
Proof.
  intro N. unfold dict_set. simpl.
  destruct (String.eqb key key') eqn:E.
  - apply String.eqb_eq in E. contradiction.
  - apply dict_get_pop_other. exact N.
Qed.

Lemma has_key_set d key v : has_key (dict_set d key v) key = true.
Proof. unfold dict_set. simpl. now rewrite String.eqb_refl. Qed.

Lemma has_key_set_other d key key' v :
  key <> key' -> has_key (dict_set d key v) key' = has_key d key'.
Proof.
  intro N. unfold dict_set. simpl.
  destruct (String.eqb key key') eqn:E.
  - apply String.eqb_eq in E. contradiction.
  - apply has_key_pop_other. exact N.
Qed.

Lemma keys_differ : TOKEN_SESSION_KEY <> USER_SESSION_KEY.
Proof. discriminate. Qed.

(** What [logout] leaves. *)
Lemma logout_run (s : web_state) :
  logout s
  = (mkWeb (dict_pop (dict_pop (session s) TOKEN_SESSION_KEY) USER_SESSION_KEY)
       (log s),
     Ok (Plain (Redirect (UrlForLogin None)))).
Proof. reflexivity. Qed.

Lemma login_required_closed request f s :
  has_key (session s) TOKEN_SESSION_KEY = false ->
  login_required request f s
  = (s, Ok (Plain (Redirect (UrlForLogin (Some (url request)))))).
Proof.
  intro H. unfold login_required, wbind, get_session. rewrite H. reflexivity.
Qed.

Lemma login_required_open request f s :
  has_key (session s) TOKEN_SESSION_KEY = true ->
  login_required request f s = f s.
Proof.
  intro H. unfold login_required, wbind, get_session. rewrite H. reflexivity.
Qed.

(** X24.  [logout] removes the token and the user from the session and
    leaves every other entry; it contacts nobody.  Afterwards the
    guarded views [index] and [admin] send the browser to the login
    page, with the address it asked for, and change nothing. *)
Theorem logout_locks_the_views request (s : web_state) :
  let s' := fst (logout s) in
  snd (logout s) = Ok (Plain (Redirect (UrlForLogin None)))
  /\ has_key (session s') TOKEN_SESSION_KEY = false
  /\ has_key (session s') USER_SESSION_KEY = false
  /\ (forall key default,
        key <> TOKEN_SESSION_KEY -> key <> USER_SESSION_KEY ->
        dict_get (session s') key default = dict_get (session s) key default)
  /\ log s' = log s
  /\ index request s'
     = (s', Ok (Plain (Redirect (UrlForLogin (Some (url request))))))
  /\ admin request s'
     = (s', Ok (Plain (Redirect (UrlForLogin (Some (url request)))))).
Proof.
  intro s'. unfold s'. rewrite logout_run. cbn [fst snd session log].
  assert (T : has_key (dict_pop (dict_pop (session s) TOKEN_SESSION_KEY)
                         USER_SESSION_KEY) TOKEN_SESSION_KEY = false).
  { rewrite has_key_pop_other; [apply has_key_pop |].
    intro E. apply keys_differ. now symmetry. }
  split; [reflexivity |]. split; [exact T |].
  split; [apply has_key_pop |].
  split.
  { intros key default N1 N2.
    rewrite dict_get_pop_other by (intro E; apply N2; now symmetry).
    apply dict_get_pop_other. intro E. apply N1. now symmetry. }
  split; [reflexivity |].
  split; [apply login_required_closed; exact T |].
  unfold admin, role_required. apply login_required_closed. exact T.
Qed.

Lemma logout_locks_the_views_witness :
  admin (browser_get "http://localhost:5001/admin")
    (fst (logout (mkWeb [("jwt_token"%string, VStr "t0k3n");
                         ("user_info"%string,
                          VDict [("role"%string, VStr "admin")])] [])))
  = (mkWeb [] [],
     Ok (Plain (Redirect (UrlForLogin (Some "http://localhost:5001/admin"%string))))).
Proof.
  exact (proj2 (proj2 (proj2 (proj2 (proj2 (proj2
           (logout_locks_the_views (browser_get "http://localhost:5001/admin")
              (mkWeb [("jwt_token"%string, VStr "t0k3n");
                      ("user_info"%string,
                       VDict [("role"%string, VStr "admin")])] [])))))))).
Defined.

(** X25.  With a token in the session, [admin] shows its page only
    when the user stored in the session is an object whose [role] is
    the string [admin]; any other role, and a user without a role, get
    the page 403 with status 403.  When the stored user is not an
    object the view fails with [AttributeError].  In no case is the
    session changed or the API contacted. *)
Theorem admin_needs_exact_role request (s : web_state) :
  has_key (session s) TOKEN_SESSION_KEY = true ->
  (forall info,
     dict_get (session s) USER_SESSION_KEY (VDict []) = VDict info ->
     admin request s
     = (s, Ok (if equals_str (dict_get info "role" VNone) "admin"
               then Plain (RenderTemplate "admin.html" [])
               else WithStatus (RenderTemplate "403.html" []) 403)))
  /\ ((forall info,
         dict_get (session s) USER_SESSION_KEY (VDict []) <> VDict info) ->
      admin request s = (s, Raise AttributeError)).
Proof.
  intro Ht. split.
  - intros info Hu. unfold admin, role_required.
    rewrite (login_required_open _ _ _ Ht).
    unfold wbind, get_session, wlift, wret. rewrite Hu. simpl.
    destruct (equals_str (dict_get info "role" VNone) "admin"); reflexivity.
  - intro Hn. unfold admin, role_required.
    rewrite (login_required_open _ _ _ Ht).
    unfold wbind, get_session, wlift, wret.
    destruct (dict_get (session s) USER_SESSION_KEY (VDict [])) eqn:E;
      try reflexivity.
    exfalso. apply (Hn d). reflexivity.
Qed.

Lemma admin_needs_exact_role_witness :
  snd (admin (browser_get "http://localhost:5001/admin")
         (mkWeb [("jwt_token"%string, VStr "t0k3n");
                 ("user_info"%string,
                  VDict [("role"%string, VStr "Admin")])] []))
  = Ok (WithStatus (RenderTemplate "403.html" []) 403)
  /\ snd (admin (browser_get "http://localhost:5001/admin")
            (mkWeb [("jwt_token"%string, VStr "t0k3n");
                    ("user_info"%string, VNone)] []))
     = Raise AttributeError.
Proof.
  split.
  - rewrite (proj1 (admin_needs_exact_role
                      (browser_get "http://localhost:5001/admin")
                      (mkWeb [("jwt_token"%string, VStr "t0k3n");
                              ("user_info"%string,
                               VDict [("role"%string, VStr "Admin")])] [])
                      eq_refl)
               [("role"%string, VStr "Admin")] eq_refl).
    reflexivity.
  - rewrite (proj2 (admin_needs_exact_role
                      (browser_get "http://localhost:5001/admin")
                      (mkWeb [("jwt_token"%string, VStr "t0k3n");
                              ("user_info"%string, VNone)] [])
                      eq_refl)).
    + reflexivity.
    + intros info H. discriminate H.
Defined.

Lemma get_auth_headers_run (s : web_state) :
  get_auth_headers s
  = (s, Ok (if truthy (dict_get (session s) TOKEN_SESSION_KEY VNone)
            then [Authorization_Bearer
                    (dict_get (session s) TOKEN_SESSION_KEY VNone)]
            else [])).
Proof.
  unfold get_auth_headers, wbind, get_session, wret.
  destruct (truthy _); reflexivity.
Qed.

(** One forwarded request, by the answer of the API. *)
Lemma forward_run remote request path req (s : web_state) :
  wtry (response <=- send remote req ;; proxy_answer request path response)
    is_RequestException
    (fun e => _ <=- record_event (PrintedError e) ;; wret api_unreachable) s
  = let sent := mkWeb (session s) (log s ++ [Sent req]) in
    let failed e :=
      if is_RequestException e
      then (mkWeb (session s) (log s ++ [Sent req; PrintedError e]),
            Ok api_unreachable)
      else (sent, Raise e) in
    match remote req with
    | Raise e => failed e
    | Ok response =>
        if andb (status_code response =? 401)%Z
                (negb (String.eqb path "/auth/login"))
        then (mkWeb (dict_pop (dict_pop (session s) TOKEN_SESSION_KEY)
                       USER_SESSION_KEY) (log s ++ [Sent req]),
              Ok (if is_ajax request then session_expired
                  else Plain (Redirect (UrlForLogin None))))
        else match json response with
             | Ok body => (sent, Ok (WithStatus (Raw body)
                                       (status_code response)))
             | Raise e => failed e
             end
    end.
Proof.
  destruct s as [sess lg].
  unfold wtry, wbind, send, wbind, record_event, wlift, wret.
  cbn [session log].
  destruct (remote req) as [response | e].
  - unfold proxy_answer, wbind, session_pop, wret, wlift, is_ajax.
    cbn [session log].
    destruct (andb _ _).
    + destruct (orb _ _); reflexivity.
    + destruct (json response) as [body | e]; [reflexivity |].
      destruct (is_RequestException e); [| reflexivity].
      cbn [session log]. now rewrite <- app_assoc.
  - destruct (is_RequestException e); [| reflexivity].
    cbn [session log]. now rewrite <- app_assoc.
Qed.

(** What [proxy_request] does: nothing for a method it does not
    forward, and otherwise one request whose answer decides. *)
Lemma proxy_request_run remote request method path data params s :
  proxy_request remote request method path data params s
  = match forwarded method path
            (dict_get (session s) TOKEN_SESSION_KEY VNone) data params with
    | None => (s, Ok method_not_allowed)
    | Some req =>
        wtry (response <=- send remote req ;;
              proxy_answer request path response)
          is_RequestException
          (fun e => _ <=- record_event (PrintedError e) ;;
                    wret api_unreachable) s
    end.
Proof.
  unfold proxy_request, forwarded. unfold wbind at 1.
  rewrite get_auth_headers_run.
  destruct (String.eqb method "GET"); [reflexivity |].
  destruct (String.eqb method "POST"); [reflexivity |].
  destruct (String.eqb method "PUT"); [reflexivity |].
  destruct (String.eqb method "DELETE"); reflexivity.
Qed.

(** X26.  [proxy_request] forwards the four methods GET, POST, PUT
    and DELETE, spelled in capitals, and nothing else: any other method
    is answered with status 405 without any request and without
    touching the session.  A forwarded call sends exactly one request,
    to the base address of the API followed by the path, with the
    bearer token of the session when that token is truthy and without
    header otherwise; only POST and PUT carry the JSON body. *)
Theorem proxy_forwards_one_request remote request method path data params s :
  let token := dict_get (session s) TOKEN_SESSION_KEY VNone in
  let run := proxy_request remote request method path data params s in
  (~ In method ["GET"; "POST"; "PUT"; "DELETE"]%string ->
   run = (s, Ok method_not_allowed))
  /\ (In method ["GET"; "POST"; "PUT"; "DELETE"]%string ->
      exists tail,
        log (fst run)
        = log s
            ++ Sent (mkHttp method (API_BASE_URL ++ path)
                       (if truthy token then [Authorization_Bearer token]
                        else [])
                       (if orb (String.eqb method "POST")
                               (String.eqb method "PUT")
                        then data else None)
                       params)
            :: tail
        /\ (tail = [] \/ exists e, tail = [PrintedError e])).
Proof.
  intros token run. unfold run. rewrite proxy_request_run. fold token.
  split.
  - intro N. unfold forwarded.
    destruct (String.eqb method "GET") eqn:E1;
      [apply String.eqb_eq in E1; exfalso; apply N; simpl; auto |].
    destruct (String.eqb method "POST") eqn:E2;
      [apply String.eqb_eq in E2; exfalso; apply N; simpl; auto |].
    destruct (String.eqb method "PUT") eqn:E3;
      [apply String.eqb_eq in E3; exfalso; apply N; simpl; auto |].
    destruct (String.eqb method "DELETE") eqn:E4;
      [apply String.eqb_eq in E4; exfalso; apply N; simpl; auto 6 |].
    reflexivity.
  - assert (K : forall req,
               exists tail,
                 log (fst (wtry (response <=- send remote req ;;
                                 proxy_answer request path response)
                             is_RequestException
                             (fun e => _ <=- record_event (PrintedError e) ;;
                                       wret api_unreachable) s))
                 = log s ++ Sent req :: tail
                 /\ (tail = [] \/ exists e, tail = [PrintedError e])).
    { intro req. rewrite forward_run. cbv zeta.
      destruct (remote req) as [response | e].
      - destruct (andb _ _); [exists []; split; [reflexivity | now left] |].
        destruct (json response) as [body | e];
          [exists []; split; [reflexivity | now left] |].
        destruct (is_RequestException e).
        + exists [PrintedError e]. split; [reflexivity | right; now exists e].
        + exists []. split; [reflexivity | now left].
      - destruct (is_RequestException e).
        + exists [PrintedError e]. split; [reflexivity | right; now exists e].
        + exists []. split; [reflexivity | now left]. }
    intros [H | [H | [H | [H | []]]]]; subst method; apply K.
Qed.

Lemma proxy_forwards_one_request_witness :
  proxy_request one_account_api (browser_get "http://localhost:5001/x")
    "get" "/noeuds" None None empty_state
  = (empty_state, Ok method_not_allowed).
Proof.
  apply (proj1 (proxy_forwards_one_request one_account_api
                  (browser_get "http://localhost:5001/x")
                  "get" "/noeuds" None None empty_state)).
  intros [H | [H | [H | [H | []]]]]; discriminate H.
Defined.

(** X27.  When the API answers a forwarded request with status 401 on
    a path other than [/auth/login], the token and the user are removed
    from the session and the body of the answer is not read: a script
    gets status 401, a page is sent to the login page.  On the path
    [/auth/login] the answer is passed on and the session is kept. *)
Theorem unauthorized_answer_ends_session
  remote request method path data params s req response :
  forwarded method path (dict_get (session s) TOKEN_SESSION_KEY VNone)
    data params = Some req ->
  remote req = Ok response ->
  status_code response = 401%Z ->
  let run := proxy_request remote request method path data params s in
  (path <> "/auth/login"%string ->
   snd run = Ok (if is_ajax request then session_expired
                 else Plain (Redirect (UrlForLogin None)))
   /\ has_key (session (fst run)) TOKEN_SESSION_KEY = false
   /\ has_key (session (fst run)) USER_SESSION_KEY = false
   /\ log (fst run) = log s ++ [Sent req])
  /\ (path = "/auth/login"%string ->
      forall body,
        json response = Ok body ->
        run = (mkWeb (session s) (log s ++ [Sent req]),
               Ok (WithStatus (Raw body) 401))).
Proof.
  intros Hf Hr Hs run. unfold run.
  rewrite proxy_request_run, Hf, forward_run, Hr, Hs. cbv zeta.
  rewrite Z.eqb_refl.
  split.
  - intro N. apply String.eqb_neq in N. rewrite N.
    cbn [andb negb fst snd session log]. split; [reflexivity |].
    split; [| split; [apply has_key_pop | reflexivity]].
    rewrite has_key_pop_other; [apply has_key_pop |].
    intro E. apply keys_differ. now symmetry.
  - intros E body Hb. subst path. rewrite String.eqb_refl, Hb. reflexivity.
Qed.

Lemma unauthorized_answer_ends_session_witness :
  proxy_request one_account_api (browser_get "http://localhost:5001/x")
    "GET" "/noeuds" None None
    (mkWeb [("jwt_token"%string, VStr "expired");
            ("user_info"%string, VDict [("role"%string, VStr "admin")])] [])
  = (mkWeb []
       [Sent (mkHttp "GET" (API_BASE_URL ++ "/noeuds")
                [Authorization_Bearer (VStr "expired")] None None)],
     Ok (Plain (Redirect (UrlForLogin None)))).
Proof.
  pose (s := mkWeb [("jwt_token"%string, VStr "expired");
                    ("user_info"%string,
                     VDict [("role"%string, VStr "admin")])] []).
  pose (req := mkHttp "GET" (API_BASE_URL ++ "/noeuds")
                 [Authorization_Bearer (VStr "expired")] None None).
  assert (N : "/noeuds"%string <> "/auth/login"%string) by discriminate.
  destruct (proj1 (unauthorized_answer_ends_session one_account_api
                     (browser_get "http://localhost:5001/x")
                     "GET" "/noeuds" None None s req
                     (mkResponse 401 (Ok (VDict [])))
                     eq_refl eq_refl eq_refl) N) as (_ & _ & _ & _).
  reflexivity.
Defined.



(** X29.  A login that the API answers with status 200 and an object
    stores the [token] and the [user] of that object in the session --
    [None] for a field the object lacks -- and sends the browser to the
    address given as [next], or to the index.  From then on the guarded
    views are open, since they only look for the key; the token is sent
    to the API only when it is truthy. *)
Theorem login_success_opens_session remote request s response data :
  method request = "POST"%string ->
  remote (login_request request) = Ok response ->
  status_code response = 200%Z ->
  json response = Ok (VDict data) ->
  let s' := fst (login remote request s) in
  snd (login remote request s) = Ok (Plain (Redirect (next_target request)))
  /\ session s'
     = dict_set (dict_set (session s) TOKEN_SESSION_KEY
                   (dict_get data "token" VNone))
         USER_SESSION_KEY (dict_get data "user" VNone)
  /\ log s' = log s ++ [Sent (login_request request)]
  /\ (forall request' f, login_required request' f s' = f s')
  /\ get_auth_headers s'
     = (s', Ok (if truthy (dict_get data "token" VNone)
                then [Authorization_Bearer (dict_get data "token" VNone)]
                else [])).
Proof.
  intros Hm Hr Hs Hj s'.
  assert (R : login remote request s
              = (mkWeb (dict_set (dict_set (session s) TOKEN_SESSION_KEY
                                    (dict_get data "token" VNone))
                          USER_SESSION_KEY (dict_get data "user" VNone))
                   (log s ++ [Sent (login_request request)]),
                 Ok (Plain (Redirect (next_target request))))).
  { unfold login. rewrite Hm. cbn [String.eqb Ascii.eqb Bool.eqb].
    unfold login_request in Hr.
    unfold wtry, wbind, send, wbind, record_event, wlift, wret, session_set.
    cbn [session log]. rewrite Hr, Hs. cbn [Z.eqb Pos.eqb].
    rewrite Hj. reflexivity. }
  unfold s'. rewrite R. cbn [fst snd session log].
  split; [reflexivity |]. split; [reflexivity |]. split; [reflexivity |].
  assert (T : forall d, dict_get (dict_set (dict_set (session s)
                                   TOKEN_SESSION_KEY
                                   (dict_get data "token" VNone))
                         USER_SESSION_KEY (dict_get data "user" VNone))
                TOKEN_SESSION_KEY d = dict_get data "token" VNone).
  { intro d. rewrite dict_get_set_other; [apply dict_get_set |].
    intro E. apply keys_differ. now symmetry. }
  split.
  - intros request' f. apply login_required_open. cbn [session].
    rewrite has_key_set_other; [apply has_key_set |].
    intro E. apply keys_differ. now symmetry.
  - rewrite get_auth_headers_run. cbn [session]. rewrite !T. reflexivity.
Qed.

Lemma login_success_opens_session_witness :
  session (fst (login one_account_api (browser_login "ranger" "pine")
                  empty_state))
  = [("user_info"%string, VDict [("role"%string, VStr "admin")]);
     ("jwt_token"%string, VStr "t0k3n")].
Proof.
  rewrite (proj1 (proj2 (login_success_opens_session one_account_api
                           (browser_login "ranger" "pine") empty_state
                           (mkResponse 200
                              (Ok (VDict [("token"%string, VStr "t0k3n");
                                          ("user"%string,
                                           VDict [("role"%string,
                                                   VStr "admin")])])))
                           [("token"%string, VStr "t0k3n");
                            ("user"%string,
                             VDict [("role"%string, VStr "admin")])]
                           eq_refl eq_refl eq_refl eq_refl))).
  reflexivity.
Defined.

(** X30.  A login that does not succeed leaves the session as it was.
    Whatever status other than 200 the API gives, the browser gets the
    login page with the message of the API and status 401; when the API
    cannot be reached it gets the login page with status 503.  A request
    that is not a POST shows the login page and contacts nobody. *)
Theorem login_failure_keeps_session remote request s :
  (method request <> "POST"%string ->
   login remote request s = (s, Ok (Plain (RenderTemplate "login.html" []))))
  /\ (method request = "POST"%string ->
      let sent := mkWeb (session s)
                    (log s ++ [Sent (login_request request)]) in
      (forall response data,
         remote (login_request request) = Ok response ->
         status_code response <> 200%Z ->
         json response = Ok (VDict data) ->
         login remote request s
         = (sent,
            Ok (WithStatus
                  (RenderTemplate "login.html"
                     [("error"%string,
                       dict_get data "message"
                         (VStr "Erreur de connexion inconnue."))]) 401)))
      /\ (forall e,
            remote (login_request request) = Raise e ->
            is_RequestException e = true ->
            login remote request s
            = (sent,
               Ok (WithStatus
                     (RenderTemplate "login.html"
                        [("error"%string,
                          VStr "Erreur de connexion au serveur API.")])
                     503)))).
Proof.
  split.
  - intro N. apply String.eqb_neq in N. unfold login. rewrite N. reflexivity.
  - intros Hm sent. unfold sent. split.
    + intros response data Hr Hs Hj. unfold login. rewrite Hm.
      cbn [String.eqb Ascii.eqb Bool.eqb].
      unfold login_request in Hr.
      unfold wtry, wbind, send, wbind, record_event, wlift, wret.
      cbn [session log]. rewrite Hr.
      apply Z.eqb_neq in Hs. rewrite Hs, Hj. reflexivity.
    + intros e Hr He. unfold login. rewrite Hm.
      cbn [String.eqb Ascii.eqb Bool.eqb].
      unfold login_request in Hr.
      unfold wtry, wbind, send, wbind, record_event, wlift, wret.
      cbn [session log]. rewrite Hr, He. reflexivity.
Qed.

Lemma login_failure_keeps_session_witness :
  snd (login one_account_api (browser_login "ranger" "oak") empty_state)
  = Ok (WithStatus
          (RenderTemplate "login.html"
             [("error"%string, VStr "Bad credentials")]) 401).
Proof.
  assert (N : 403%Z <> 200%Z) by discriminate.
  rewrite (proj1 (proj2 (login_failure_keeps_session one_account_api
                           (browser_login "ranger" "oak") empty_state)
                    eq_refl)
             (mkResponse 403
                (Ok (VDict [("message"%string, VStr "Bad credentials")])))
             [("message"%string, VStr "Bad credentials")]
             eq_refl N eq_refl).
  reflexivity.
Defined.

End WebAppFacts.
